(** * Ledger and cash reconciliation reports of the bookkeeping backend

    A shallow embedding of the reporting code of [backend.py]: the report
    cache, the per-party ledger, the payment-mode account report, the
    aggregate reports, the daily cash reconciliation with its short/excess
    projection, and the mutating endpoints together with the audit helper.

    Conventions of the embedding.
    - A [datetime.date] (and a SQL [DATE]) is its proleptic ordinal, an
      integer; [str(d)] is the ISO form of the date, whose lexicographic
      order is the order of the ordinals, so a row's ["date"] string is
      carried as the ordinal too.
    - A [DECIMAL(18,2)] amount is an integer number of hundredths, and
      the sums the store computes are exact.  A Python [float] is an IEEE
      754 binary64 number, Rocq's primitive [float], and Python's [+] and
      [-] are its additions and subtractions, rounded to nearest.  The
      conversion [float(...)] of a decimal is a parameter,
      [float_of_decimal]; an [int] 0 that the source puts where a float
      may stand is the float 0.  The per-party ledger, the account report
      and the daily cash reconciliation, which carry a balance in floats
      from row to row and from day to day, are embedded in floats.  The
      other reports keep the hundredths: their amounts stand for the
      decimal values that the floats of the source approximate.
    - SQL string comparison is string equality; [str.lower()], which
      depends on the Unicode tables, is a parameter, [lower].
    - The store is reachable: a connection can be opened.  Where the
      source guards a statement of its own with [try], the failure is an
      input ([log_audit]).  What a request stores in [transactions],
      [daily_cash] and [parties] is checked against the column (a float
      against [DECIMAL(18,2)], a text against [NVARCHAR(n)]); a user name
      and a role are taken to fit the columns of [users].
    - The relational store is a record of tables.  Whatever the source
      leaves to the store (the order of rows that tie under an
      [ORDER BY]) is a parameter of the definitions.
    - The wall clock ([time.time()], today's date) is an explicit input. *)

From Stdlib Require Import ZArith Lia Ascii PrimFloat.
From Stdlib Require Uint63.
From stdpp Require Import gmap strings list fin_maps sorting.

Local Open Scope Z_scope.

#[local] Set Warnings "-clear-no-such-hyp,-inexact-float".

(** ** Tables *)

(** A row of [transactions]; [txn_id] is the identity column. *)
Record transaction := Txn {
  txn_id : Z;
  txn_date : Z;
  bill_no : option string;
  party_id : Z;
  txn_type : string;
  payment_mode : string;
  amount : Z
}.

(** A row of [parties]. *)
Record party := Party {
  p_party_id : Z;
  p_name : string;
  p_normalized_name : string;
  p_type : string;
  p_credit_allowed : bool
}.

(** A row of [audit_logs] (the timestamp defaults in the store). *)
Record audit_row := Audit {
  a_username : string;
  a_action : string;
  a_details : string;
  a_company : string
}.

(** A [setting_value] of [app_settings]: a text that [float] reads as the
    number [f] (what [set_setting] writes with [str(value)] reads back as
    [value]), any other text, or NULL. *)
Inductive setting_value :=
  | SNum (f : float)
  | SText (s : string)
  | SNull.

(** The database.  [users] is keyed by its primary key [username] and holds
    [(password_hash, role)]; [daily_cash] is keyed by its primary key
    [cash_date] and holds the nullable column [cash_in_hand];
    [app_settings] is keyed by [setting_key]; [txn_identity] is the last
    value the [IDENTITY(1,1)] column of [transactions] handed out. *)
Record database := Db {
  users : gmap string (string * string);
  audit_logs : list audit_row;
  app_settings : gmap string setting_value;
  daily_cash : gmap Z (option Z);
  parties : list party;
  transactions : list transaction;
  txn_identity : Z
}.

Definition with_users (db : database) (u : gmap string (string * string))
    : database :=
  Db u (audit_logs db) (app_settings db) (daily_cash db) (parties db)
     (transactions db) (txn_identity db).

Definition with_audit_logs (db : database) (a : list audit_row) : database :=
  Db (users db) a (app_settings db) (daily_cash db) (parties db)
     (transactions db) (txn_identity db).

Definition with_app_settings (db : database)
    (s : gmap string setting_value) : database :=
  Db (users db) (audit_logs db) s (daily_cash db) (parties db)
     (transactions db) (txn_identity db).

Definition with_daily_cash (db : database) (c : gmap Z (option Z))
    : database :=
  Db (users db) (audit_logs db) (app_settings db) c (parties db)
     (transactions db) (txn_identity db).

Definition with_transactions (db : database) (ts : list transaction)
    (identity : Z) : database :=
  Db (users db) (audit_logs db) (app_settings db) (daily_cash db)
     (parties db) ts identity.

(** ** Rows of the reports *)

(** A dict of the list [get_ledger] returns. *)
Record ledger_row := LedgerRow {
  l_id : Z;
  l_date : Z;
  l_bill_no : string;
  l_type : string;
  l_mode : string;
  l_amount : float;
  l_balance : float
}.

(** A dict of the list [get_mode_report] returns. *)
Record mode_row := ModeRow {
  m_date : Z;
  m_bill_no : string;
  m_party : string;
  m_type : string;
  m_debit : float;
  m_credit : float;
  m_balance : float
}.

(** A dict of the list [get_type_report] returns. *)
Record type_row := TypeRow {
  t_date : Z;
  t_bill_no : string;
  t_party : string;
  t_mode : string;
  t_amount : Z
}.

(** A dict of the list [get_daily_summary_report] returns. *)
Record summary_row := SummaryRow {
  date : Z;
  opening_cash : float;
  cash_in : float;
  cash_expense : float;
  cash_needed : float;
  closing_cash : float;
  cash_in_hand : option float;
  cash_short_excess : float;
  bank : float;
  credit_sale : float;
  total_sales : float
}.

(** A dict of the list [get_short_excess_report] returns. *)
Record short_excess_row := ShortExcessRow {
  se_date : Z;
  se_opening_cash : float;
  se_cash_in : float;
  se_cash_expense : float;
  se_cash_needed : float;
  se_cash_in_hand : option float;
  se_cash_short_excess : float
}.

(** ** Process state *)

(** The module globals: [report_cache], a dict from the key tuple
    [(company, kind, str(start), str(end))] to [(timestamp, data)], and
    [current_company]; together with the database behind the connection. *)
Record state := State {
  st_db : database;
  report_cache : gmap (string * string * Z * Z) (Z * list summary_row);
  current_company : option string
}.

Definition set_db (st : state) (db : database) : state :=
  State db (report_cache st) (current_company st).

Definition set_cache (st : state)
    (c : gmap (string * string * Z * Z) (Z * list summary_row)) : state :=
  State (st_db st) c (current_company st).

(** ** The report cache *)

Definition REPORT_CACHE_TTL_SEC : Z := 300.

(** [cache_get(key)] at clock reading [now]: a missing entry is a miss; an
    entry older than the TTL is popped and is a miss; otherwise the data. *)
Definition cache_get (now : Z) (key : string * string * Z * Z) (st : state)
    : option (list summary_row) * state :=
  match report_cache st !! key with
  | None => (None, st)
  | Some (ts, data) =>
      if bool_decide (now - ts > REPORT_CACHE_TTL_SEC)
      then (None, set_cache st (delete key (report_cache st)))
      else (Some data, st)
  end.

Definition cache_set (now : Z) (key : string * string * Z * Z)
    (data : list summary_row) (st : state) : state :=
  set_cache st (<[key := (now, data)]> (report_cache st)).

Definition invalidate_report_cache (st : state) : state :=
  set_cache st ∅.

(** ** Python and SQL helpers *)

(** [x or y] on strings held in an [Optional]. *)
Definition str_or (x : option string) (y : string) : string :=
  match x with
  | Some s => if bool_decide (s = "") then y else s
  | None => y
  end.

(** Python's [sorted(l, key=key)]: a stable sort, here by insertion. *)
Fixpoint insert_by {A} (key : A → Z) (x : A) (l : list A) : list A :=
  match l with
  | [] => [x]
  | y :: l' =>
      if bool_decide (key x < key y) then x :: y :: l'
      else y :: insert_by key x l'
  end.

Fixpoint insert_all {A} (key : A → Z) (acc l : list A) : list A :=
  match l with
  | [] => acc
  | x :: l' => insert_all key (insert_by key x acc) l'
  end.

Definition py_sorted {A} (key : A → Z) (l : list A) : list A :=
  insert_all key [] l.

(** [sorted(l, key=key, reverse=True)]: elements with equal keys keep their
    original order, which is a stable ascending sort of the reversed list,
    reversed. *)
Definition py_sorted_reverse {A} (key : A → Z) (l : list A) : list A :=
  reverse (py_sorted key (reverse l)).

Definition sum_with {A} (e : A → Z) (rows : list A) : Z :=
  foldr (λ r acc, e r + acc) 0 rows.

(** [SUM(e)] over the rows of a group: NULL on no rows. *)
Definition sql_sum {A} (e : A → Z) (rows : list A) : option Z :=
  match rows with
  | [] => None
  | _ => Some (sum_with e rows)
  end.

(** [SUM(CASE WHEN c THEN amount ELSE 0 END)]. *)
Definition sum_case (c : transaction → bool) (rows : list transaction)
    : option Z :=
  sql_sum (λ t, if c t then amount t else 0) rows.

(** SQL [+] on nullable numbers. *)
Definition sql_add (x y : option Z) : option Z :=
  match x, y with
  | Some a, Some b => Some (a + b)
  | _, _ => None
  end.

(** [v or 0] on a nullable sum, kept as a decimal. *)
Definition or_zero (v : option Z) : Z := default 0 v.

Definition is_type (s : string) (t : transaction) : bool :=
  bool_decide (txn_type t = s).

Definition is_mode (s : string) (t : transaction) : bool :=
  bool_decide (payment_mode t = s).

(** [txn_type IN ('Sale','Receipt')], also [ttype in ["Sale", "Receipt"]]. *)
Definition is_inflow_type (ty : string) : bool :=
  bool_decide (ty = "Sale") || bool_decide (ty = "Receipt").

(** [payment_mode IN ('Bank','UPI','GPay','GPAY','Google Pay','GooglePay')]. *)
Definition is_bank_class (m : string) : bool :=
  bool_decide (m ∈ ["Bank"; "UPI"; "GPay"; "GPAY"; "Google Pay"; "GooglePay"]).

(** [txn_date BETWEEN s AND e]. *)
Definition between (s e d : Z) : bool :=
  bool_decide (s ≤ d) && bool_decide (d ≤ e).

(** The row of [parties] with a given key ([party_id] is the primary key). *)
Definition party_by_id (db : database) (pid : Z) : option party :=
  snd <$> list_find (λ p, p_party_id p = pid) (parties db).

(** A condition on the joined party's columns: false when the join finds no
    party (the columns are NULL). *)
Definition party_has (db : database) (pid : Z) (c : party → bool) : bool :=
  from_option c false (party_by_id db pid).

(** [SELECT party_id FROM parties WHERE normalized_name=?] and [fetchone]. *)
Definition party_id_by_normalized_name (db : database) (n : string)
    : option Z :=
  (p_party_id ∘ snd) <$> list_find (λ p, p_normalized_name p = n) (parties db).

(** Year, month and day of an ordinal: what [YEAR], [MONTH] and [DAY] give
    on a [DATE]. *)
Definition civil_of_ordinal (n : Z) : Z * Z * Z :=
  let z := n + 305 in
  let era := z / 146097 in
  let doe := z - era * 146097 in
  let yoe := (doe - doe / 1460 + doe / 36524 - doe / 146096) / 365 in
  let doy := doe - (365 * yoe + yoe / 4 - yoe / 100) in
  let mp := (5 * doy + 2) / 153 in
  let d := doy - (153 * mp + 2) / 5 + 1 in
  let m := if bool_decide (mp < 10) then mp + 3 else mp - 9 in
  let y := yoe + era * 400 in
  (if bool_decide (m ≤ 2) then y + 1 else y, m, d).

Definition same_month (a b : Z) : bool :=
  bool_decide ((civil_of_ordinal a).1 = (civil_of_ordinal b).1).

(** [get_setting(key, default_val)]: the number stored under the key; the
    default on a missing row, a NULL, or a text [float] rejects. *)
Definition get_setting (key : string) (default_val : float) (db : database)
    : float :=
  match app_settings db !! key with
  | Some (SNum f) => f
  | _ => default_val
  end.

(** [set_setting(key, value)]: UPDATE when the key exists, else INSERT. *)
Definition set_setting (key : string) (value : float) (db : database)
    : database :=
  with_app_settings db (<[key := SNum value]> (app_settings db)).

(** ** Responses of the mutating endpoints *)

(** An exception that an [except Exception as e] of the source catches: an
    HTTPException raised inside the [try], or an error that the store raises
    from [cursor.execute], whose text is the driver's. *)
Inductive exception :=
  | HTTPError (status_code : Z) (detail : string)
  | StoreError.

(** What a mutating endpoint answers: [{"status": status}];
    [{"status": "Error", "detail": str(e)}] for a caught exception [e]; an
    HTTPException that leaves the function; the dict of a login. *)
Inductive response :=
  | Status (status : string)
  | StatusError (e : exception)
  | HTTPException (status_code : Z) (detail : string)
  | LoginSuccess (username role : string).

(** What an endpoint without a catch-all gives: a value, or an exception
    that leaves the function. *)
Inductive outcome (A : Type) :=
  | Returns (a : A)
  | Raises (exc : string).
Arguments Returns {A} a.
Arguments Raises {A} exc.

(** ** The reports that read [transactions] in date order *)

Section Reports.

(** The store's [ORDER BY txn_date]: the source gives no second sort key,
    so the order of rows of one date is the store's choice. *)
Variable order_by_txn_date : list transaction → list transaction.

(** The store's conversion of a string parameter compared with, or stored
    in, a [DATE] column; [None] is a conversion error. *)
Variable sql_to_date : string → option Z.

(** [float(a)] of a [DECIMAL(18,2)] value of the given number of
    hundredths. *)
Variable float_of_decimal : Z → float.

(** [str.lower()]. *)
Variable lower : string → string.

(** A query parameter [Optional[str]] that the source tests with
    [if start:] and appends to the query: [Some None] is no clause,
    [None] is a conversion error raised by [cursor.execute]. *)
Definition date_clause (v : option string) : option (option Z) :=
  match v with
  | None => Some None
  | Some s => if bool_decide (s = "") then Some None
              else Some <$> sql_to_date s
  end.

Definition ledger_where (pid : Z) (start end_ : option Z)
    (t : transaction) : bool :=
  bool_decide (party_id t = pid)
  && from_option (λ s, bool_decide (s ≤ txn_date t)) true start
  && from_option (λ e, bool_decide (txn_date t ≤ e)) true end_.

(** The loop of [get_ledger] over the fetched rows. *)
Fixpoint ledger_loop (balance : float) (data : list transaction)
    : list ledger_row :=
  match data with
  | [] => []
  | t :: data' =>
      let a := float_of_decimal (amount t) in
      let balance :=
        if bool_decide (txn_type t = "Sale") then (balance + a)%float
        else if bool_decide (txn_type t ∈ ["Receipt"; "Sale Return"])
        then (balance - a)%float
        else (balance - a)%float in
      LedgerRow (txn_id t) (txn_date t) (str_or (bill_no t) "")
                (txn_type t) (payment_mode t) a balance
      :: ledger_loop balance data'
  end.

(** [get_ledger(party, start, end)].  An exception of the query (a date
    the store cannot convert) is caught and gives the empty list. *)
Definition get_ledger (party : string) (start end_ : option string)
    (st : state) : list ledger_row * state :=
  match party_id_by_normalized_name (st_db st) party with
  | None => ([], st)
  | Some pid =>
      match date_clause start, date_clause end_ with
      | Some s, Some e =>
          let data :=
            order_by_txn_date
              (filter (λ t, ledger_where pid s e t)
                      (transactions (st_db st))) in
          (ledger_loop 0%float data, st)
      | _, _ => ([], st)
      end
  end.

(** [FROM transactions t JOIN parties p ON t.party_id = p.party_id WHERE c
    ORDER BY t.txn_date]: the rows that satisfy [c] and have a party, each
    with its party. *)
Definition joined_by_date (c : transaction → bool) (db : database)
    : list (transaction * party) :=
  omap (λ t, pair t <$> party_by_id db (party_id t))
    (order_by_txn_date
       (filter (λ t, c t && bool_decide (is_Some (party_by_id db (party_id t))))
               (transactions db))).

Definition mode_where (mode : string) (t : transaction) : bool :=
  if bool_decide (lower mode = "bank") then is_bank_class (payment_mode t)
  else bool_decide (payment_mode t = mode).

(** The loop of [get_mode_report] over the fetched rows. *)
Fixpoint mode_loop (balance : float) (rows : list (transaction * party))
    : list mode_row :=
  match rows with
  | [] => []
  | (t, p) :: rows' =>
      let amt := float_of_decimal (amount t) in
      let '(balance, debit, credit) :=
        if is_inflow_type (txn_type t)
        then ((balance + amt)%float, amt, 0%float)
        else ((balance - amt)%float, 0%float, amt) in
      ModeRow (txn_date t) (str_or (bill_no t) "") (p_name p) (txn_type t)
              debit credit balance
      :: mode_loop balance rows'
  end.

Definition get_mode_report (mode : string) (st : state)
    : list mode_row * state :=
  (mode_loop 0%float (joined_by_date (mode_where mode) (st_db st)), st).

Definition get_type_report (ty : string) (st : state)
    : list type_row * state :=
  ((λ '(t, p), TypeRow (txn_date t) (str_or (bill_no t) "") (p_name p)
                       (payment_mode t) (amount t))
     <$> joined_by_date (is_type ty) (st_db st), st).

End Reports.

(** ** Aggregate reports *)

(** [get_outstanding_report]: per name of a 'Credit Customer' party, sales
    minus receipts over the LEFT JOIN; the positive balances and their sum.
    A party without transactions contributes one row of NULLs, on which
    both CASEs give 0. *)
Definition outstanding_group (db : database) (nm : string) : Z * Z :=
  let ts :=
    filter (λ t, party_has db (party_id t)
                   (λ p, bool_decide (p_type p = "Credit Customer")
                         && bool_decide (p_name p = nm)))
           (transactions db) in
  (or_zero (sum_case (is_type "Sale") ts),
   or_zero (sum_case (is_type "Receipt") ts)).

Fixpoint outstanding_loop (rows : list (string * (Z * Z)))
    : list (string * Z) * Z :=
  match rows with
  | [] => ([], 0)
  | (nm, (s, r)) :: rows' =>
      let '(out, total) := outstanding_loop rows' in
      let balance := s - r in
      if bool_decide (balance > 0) then ((nm, balance) :: out, balance + total)
      else (out, total)
  end.

Definition get_outstanding_report (st : state)
    : (list (string * Z) * Z) * state :=
  let db := st_db st in
  let names :=
    remove_dups (p_name <$> filter (λ p, p_type p = "Credit Customer")
                                   (parties db)) in
  (outstanding_loop ((λ nm, (nm, outstanding_group db nm)) <$> names), st).

(** [get_sum(query)]: [float(val or 0)] of a one-cell result. *)
Definition get_sum (c : transaction → bool) (db : database) : Z :=
  or_zero (sql_sum amount (filter (λ t, c t) (transactions db))).

Definition get_account_balance (mode : string) (db : database) : Z :=
  let in_mode t :=
    if bool_decide (mode = "Bank") then is_bank_class (payment_mode t)
    else is_mode mode t in
  get_sum (λ t, in_mode t && is_inflow_type (txn_type t)) db
  - get_sum (λ t, in_mode t && is_type "Expense" t) db.

(** [SUM(CASE WHEN t.txn_type = ty THEN t.amount ELSE -t.amount END)] over
    the transactions joined with their party. *)
Definition signed_sum (ty : string) (db : database) : Z :=
  or_zero (sql_sum (λ t, if is_type ty t then amount t else - amount t)
             (filter (λ t, is_Some (party_by_id db (party_id t)))
                     (transactions db))).

Definition trial_line (account : string) (bal : Z) : string * Z * Z :=
  (account, if bool_decide (bal > 0) then bal else 0,
            if bool_decide (bal < 0) then - bal else 0).

Definition get_trial_balance (st : state) : list (string * Z * Z) * state :=
  let db := st_db st in
  ([ trial_line "Cash Account" (get_account_balance "Cash" db);
     trial_line "Bank Account" (get_account_balance "Bank" db);
     trial_line "UPI Account" (get_account_balance "UPI" db);
     trial_line "Sundry Debtors" (signed_sum "Sale" db);
     trial_line "Sundry Creditors" (signed_sum "Purchase" db);
     ("Sales Account", 0, get_sum (is_type "Sale") db);
     ("Expense Account", get_sum (is_type "Expense") db, 0) ], st).

(** [get_pnl_report]: sales, expenses, net profit. *)
Definition get_pnl_report (st : state) : (Z * Z * Z) * state :=
  let sales := get_sum (is_type "Sale") (st_db st) in
  let expenses := get_sum (is_type "Expense") (st_db st) in
  ((sales, expenses, sales - expenses), st).

Record dashboard := Dashboard {
  sales_today : Z;
  sales_month : Z;
  cash_balance : Z;
  bank_balance : Z;
  receivables : Z
}.

(** [get_dashboard_metrics], with [GETDATE()] as the input [today]. *)
Definition get_dashboard_metrics (today : Z) (st : state)
    : dashboard * state :=
  let db := st_db st in
  let of_customer t :=
    party_has db (party_id t) (λ p, bool_decide (p_type p = "Customer")) in
  (Dashboard
     (get_sum (λ t, is_type "Sale" t && bool_decide (txn_date t = today)) db)
     (get_sum (λ t, is_type "Sale" t && same_month (txn_date t) today) db)
     (get_sum (λ t, is_mode "Cash" t && is_inflow_type (txn_type t)) db
      - get_sum (λ t, is_mode "Cash" t && is_type "Expense" t) db)
     (get_sum (λ t, is_bank_class (payment_mode t)
                    && is_inflow_type (txn_type t)) db
      - get_sum (λ t, is_bank_class (payment_mode t) && is_type "Expense" t) db)
     (get_sum (λ t, of_customer t && is_type "Sale" t) db
      - get_sum (λ t, of_customer t && is_type "Receipt" t) db),
   st).

(** ** Daily cash reconciliation *)

(** The six sums the aggregate query returns for one [txn_date], each after
    [float(row[i] or 0)]. *)
Record agg := Agg {
  agg_total_sales : float;
  agg_cash_in : float;
  agg_cash_expense : float;
  agg_bank : float;
  agg_credit_sales : float;
  agg_credit_receipts : float
}.

(** [payment_mode='Cash' AND txn_type IN ('Sale','Receipt')]. *)
Definition cash_inflow_case (t : transaction) : bool :=
  is_mode "Cash" t && is_inflow_type (txn_type t).

(** [payment_mode='Credit' AND txn_type='Receipt']. *)
Definition credit_receipt_case (t : transaction) : bool :=
  is_mode "Credit" t && is_type "Receipt" t.

(** [payment_mode='Cash' AND txn_type='Expense']. *)
Definition cash_expense_case (t : transaction) : bool :=
  is_mode "Cash" t && is_type "Expense" t.

(** The cell [cash_in] of both queries: the sum of two [SUM]s. *)
Definition cash_in_cell (rows : list transaction) : option Z :=
  sql_add (sum_case cash_inflow_case rows) (sum_case credit_receipt_case rows).

(** [TOP 1 ... ORDER BY cash_date DESC] of rows with distinct dates. *)
Fixpoint top1_desc {V} (rows : list (Z * V)) : option (Z * V) :=
  match rows with
  | [] => None
  | r :: rows' =>
      match top1_desc rows' with
      | Some r' => if bool_decide (r.1 < r'.1) then Some r' else Some r
      | None => Some r
      end
  end.

(** The first query of [get_opening_cash_before_date] and its [fetchone]. *)
Definition latest_cash_before (db : database) (start_date : Z)
    : option (Z * option Z) :=
  top1_desc (filter (λ r, r.1 < start_date) (map_to_list (daily_cash db))).

Section DailyCash.

(** [float(a)] of a [DECIMAL(18,2)] value of the given number of
    hundredths. *)
Variable float_of_decimal : Z → float.

(** [float(v or 0)] of a nullable decimal: NULL and the decimal 0 are falsy,
    and [float(0)] is the float 0. *)
Definition float_or_zero (v : option Z) : float :=
  match v with
  | Some z => if bool_decide (z = 0) then 0%float else float_of_decimal z
  | None => 0%float
  end.

Definition get_opening_cash_before_date (db : database)
    (start_date : Z) (opening_seed : float) : float :=
  match latest_cash_before db start_date with
  | Some (_, Some c) => float_of_decimal c
  | _ =>
      let sums :=
        filter (λ t, txn_date t < start_date) (transactions db) in
      let cash_in := float_or_zero (cash_in_cell sums) in
      let cash_expense := float_or_zero (sum_case cash_expense_case sums) in
      (opening_seed + cash_in - cash_expense)%float
  end.

(** The rows of the DISTINCT/UNION query: the dates in the range that have a
    transaction or a daily-cash row. *)
Definition active_dates (db : database) (start_date end_date : Z) : list Z :=
  remove_dups
    ((txn_date <$> filter (λ t, between start_date end_date (txn_date t))
                          (transactions db))
     ++ (filter (λ d, between start_date end_date d)
                (map_to_list (daily_cash db)).*1)).

(** The rows of the daily-cash query. *)
Definition cash_rows (db : database) (start_date end_date : Z)
    : list (Z * option Z) :=
  filter (λ r, between start_date end_date r.1) (map_to_list (daily_cash db)).

(** A dict filled key by key in list order. *)
Definition py_dict {V} (rows : list (Z * V)) : gmap Z V :=
  foldl (λ m r, <[r.1 := r.2]> m) ∅ rows.

(** [{r[0]: float(r[1]) for r in cash_rows}]; [float(None)] raises, which is
    [None] here. *)
Definition cash_map_of (rows : list (Z * option Z))
    : option (gmap Z float) :=
  py_dict <$> mapM (λ r, pair r.1 <$> (float_of_decimal <$> r.2)) rows.

(** The CASE sums of the aggregate query over the rows of one date. *)
Definition agg_of_group (db : database) (g : list transaction) : agg :=
  let credit_party t :=
    party_has db (party_id t) (λ p, bool_decide (p_type p = "Credit Customer")) in
  Agg (float_or_zero (sum_case (is_type "Sale") g))
      (float_or_zero (cash_in_cell g))
      (float_or_zero (sum_case cash_expense_case g))
      (float_or_zero (sum_case (λ t, is_bank_class (payment_mode t)
                                     && is_inflow_type (txn_type t)) g))
      (float_or_zero (sum_case (λ t, is_type "Sale" t
                                     && (credit_party t
                                         || is_mode "Credit" t)) g))
      (float_or_zero (sum_case (λ t, is_type "Receipt" t && credit_party t)
                               g)).

(** The rows of the aggregate query ([GROUP BY t.txn_date]). *)
Definition agg_rows (db : database) (start_date end_date : Z)
    : list (Z * agg) :=
  let ts := filter (λ t, between start_date end_date (txn_date t))
                   (transactions db) in
  (λ d, (d, agg_of_group db (filter (λ t, txn_date t = d) ts)))
    <$> remove_dups (txn_date <$> ts).

(** [agg.get(k, 0.0)] for [agg = agg_map.get(d, {})]. *)
Definition agg_get (agg_map : gmap Z agg) (d : Z) (k : agg → float)
    : float :=
  from_option k 0%float (agg_map !! d).

(** The loop over [enumerate(dates)]; [idx] is the index of the head. *)
Fixpoint summary_loop (agg_map : gmap Z agg) (cash_map : gmap Z float)
    (opening_cash_seed : float) (idx : nat) (dates : list Z)
    (prev_cash_in_hand : option float) (prev_closing : float)
    : list summary_row :=
  match dates with
  | [] => []
  | d :: dates' =>
      let opening_cash :=
        if bool_decide (idx = 0%nat) then opening_cash_seed
        else match prev_cash_in_hand with
             | Some c => c
             | None => prev_closing
             end in
      let cash_in := agg_get agg_map d agg_cash_in in
      let cash_expense := agg_get agg_map d agg_cash_expense in
      let bank := agg_get agg_map d agg_bank in
      let total_sales := agg_get agg_map d agg_total_sales in
      let credit_sale :=
        (agg_get agg_map d agg_credit_sales
         - agg_get agg_map d agg_credit_receipts)%float in
      let computed_closing :=
        (opening_cash + cash_in - cash_expense)%float in
      let cash_in_hand := cash_map !! d in
      let '(cash_short_excess, closing_cash) :=
        match cash_in_hand with
        | Some c => ((c - computed_closing)%float, c)
        | None => (0%float, computed_closing)
        end in
      SummaryRow d opening_cash cash_in cash_expense computed_closing
                 closing_cash cash_in_hand cash_short_excess bank
                 credit_sale total_sales
      :: summary_loop agg_map cash_map opening_cash_seed (S idx) dates'
           cash_in_hand computed_closing
  end.

(** The value [opening_cash_seed] of the report for a range. *)
Definition opening_cash_seed_effective (db : database)
    (start_date end_date : Z) : float :=
  let dates := py_sorted id (active_dates db start_date end_date) in
  let opening_seed := get_setting "opening_cash_seed" 0%float db in
  match dates with
  | [] => opening_seed
  | _ => get_opening_cash_before_date db start_date opening_seed
  end.

(** The list [summary] when the loop ends, before the final sort. *)
Definition summary_ascending (db : database) (start_date end_date : Z)
    (cash_map : gmap Z float) : list summary_row :=
  let dates := py_sorted id (active_dates db start_date end_date) in
  let opening_cash_seed :=
    opening_cash_seed_effective db start_date end_date in
  let agg_map := py_dict (agg_rows db start_date end_date) in
  summary_loop agg_map cash_map opening_cash_seed 0 dates
               None opening_cash_seed.

(** The body of [get_daily_summary_report] after a cache miss, up to the
    value it stores and returns. *)
Definition daily_summary (db : database) (start_date end_date : Z)
    : outcome (list summary_row) :=
  let dates := py_sorted id (active_dates db start_date end_date) in
  match dates with
  | [] => Returns []
  | _ =>
      match cash_map_of (cash_rows db start_date end_date) with
      | None => Raises "TypeError"
      | Some cash_map =>
          let summary := summary_ascending db start_date end_date cash_map in
          Returns (py_sorted_reverse date summary)
      end
  end.

Section DailyReport.

(** [datetime.datetime.strptime(value, "%Y-%m-%d").date()]; [None] is its
    exception. *)
Variable strptime_ymd : string → option Z.

Definition parse_date_str (value : option string) : option Z :=
  match value with
  | None => None
  | Some s => if bool_decide (s = "") then None else strptime_ymd s
  end.

(** [d - datetime.timedelta(days=n)]: [None] is the OverflowError of a
    timedelta of more than 999999999 days, or of a result before
    0001-01-01 (ordinal 1) or after 9999-12-31 (ordinal 3652059). *)
Definition date_minus_days (d n : Z) : option Z :=
  if bool_decide (Z.abs n ≤ 999999999)
     && bool_decide (1 ≤ d - n) && bool_decide (d - n ≤ 3652059)
  then Some (d - n) else None.

(** [resolve_date_range(start, end, days)] on the day [today]; the
    subtraction is evaluated only when [start] does not parse. *)
Definition resolve_date_range (today : Z) (start end_ : option string)
    (days : Z) : outcome (Z * Z) :=
  let end_date := default today (parse_date_str end_) in
  let ordered start_date :=
    if bool_decide (start_date > end_date) then (end_date, start_date)
    else (start_date, end_date) in
  match parse_date_str start with
  | Some start_date => Returns (ordered start_date)
  | None =>
      match date_minus_days end_date (Z.max days 1 - 1) with
      | Some start_date => Returns (ordered start_date)
      | None => Raises "OverflowError"
      end
  end.

(** The key tuple of the report of a range. *)
Definition daily_summary_key (start_date end_date : Z) (st : state)
    : string * string * Z * Z :=
  (str_or (current_company st) "default", "daily_summary",
   start_date, end_date).

(** [get_daily_summary_report(start, end, days)]: the clock reads [t_get]
    in [cache_get] and [t_set] in [cache_set]. *)
Definition get_daily_summary_report (t_get t_set today : Z)
    (start end_ : option string) (days : Z) (st : state)
    : outcome (list summary_row) * state :=
  match resolve_date_range today start end_ days with
  | Raises exc => (Raises exc, st)
  | Returns (start_date, end_date) =>
      let cache_key := daily_summary_key start_date end_date st in
      match cache_get t_get cache_key st with
      | (Some cached, st) => (Returns cached, st)
      | (None, st) =>
          match daily_summary (st_db st) start_date end_date with
          | Returns summary =>
              (Returns summary, cache_set t_set cache_key summary st)
          | Raises exc => (Raises exc, st)
          end
      end
  end.

Definition short_excess_of (row : summary_row) : short_excess_row :=
  ShortExcessRow (date row) (opening_cash row) (cash_in row)
                 (cash_expense row) (cash_needed row) (cash_in_hand row)
                 (cash_short_excess row).

Definition get_short_excess_report (t_get t_set today : Z)
    (start end_ : option string) (days : Z) (st : state)
    : outcome (list short_excess_row) * state :=
  match get_daily_summary_report t_get t_set today start end_ days st with
  | (Returns data, st) => (Returns (short_excess_of <$> data), st)
  | (Raises exc, st) => (Raises exc, st)
  end.

End DailyReport.

End DailyCash.

(** ** The audit helper and the mutating endpoints *)

(** [s.replace(" ", "_")]. *)
Fixpoint replace_spaces (s : string) : string :=
  match s with
  | EmptyString => EmptyString
  | String c s' =>
      String (if bool_decide (c = " "%char) then "_"%char else c)
             (replace_spaces s')
  end.

(** [log_audit(username, action, details, company)].  [ok] tells whether the
    connection and the INSERT succeed; when they do not, the bare [except]
    swallows the exception before [invalidate_report_cache()] is reached. *)
Definition log_audit (ok : bool) (username action details : string)
    (company : option string) (st : state) : state :=
  if ok then
    let comp := str_or company (str_or (current_company st) "default") in
    let db := st_db st in
    invalidate_report_cache
      (set_db st (with_audit_logs db
                    (audit_logs db ++ [Audit username action details comp])))
  else st.

Section Mutations.

(** The store's conversions of a string parameter to a [DATE] and to a
    [DECIMAL(18,2)] column; [None] is a conversion error. *)
Variable sql_to_date : string → option Z.
Variable sql_to_decimal : string → option Z.

(** [hashlib.sha256(s.encode()).hexdigest()]. *)
Variable sha256 : string → string.

(** Python's [str] of a number or a date, as the f-strings of the audit
    details print it. *)
Variable py_str : Z → string.

(** [str.lower()]. *)
Variable lower : string → string.

(** The store's conversion of a Python float parameter to a
    [DECIMAL(18,2)] column, which rounds to hundredths; [None] is its error
    (a value that does not fit the column, or is no number). *)
Variable sql_decimal_of_float : float → option Z.

(** Whether a text fits an [NVARCHAR(n)] column; the store rejects a text
    that it would have to truncate. *)
Variable nvarchar_fits : Z → string → bool.

(** Python's [str] of a float, as the f-strings print it. *)
Variable py_str_float : float → string.

(** [add_transaction(date, bill_no, party, txn_type, mode, amount)]: the
    HTTPException for a missing party and an error of the INSERT (a
    parameter the store cannot put into its column) are both caught by
    [except Exception]. *)
Definition add_transaction (date_ bill party ttype mode : string)
    (amount : float) (st : state) : response * state :=
  let db := st_db st in
  match party_id_by_normalized_name db (replace_spaces (lower party)) with
  | None => (StatusError (HTTPError 404 "Party not found"), st)
  | Some pid =>
      match sql_to_date date_, sql_decimal_of_float amount with
      | Some d, Some a =>
          if nvarchar_fits 255 bill && nvarchar_fits 50 ttype
             && nvarchar_fits 50 mode
          then
            let new_id := txn_identity db + 1 in
            let row := Txn new_id d (Some bill) pid ttype mode a in
            (Status "Transaction Added",
             invalidate_report_cache
               (set_db st (with_transactions db (transactions db ++ [row])
                                              new_id)))
          else (StatusError StoreError, st)
      | _, _ => (StatusError StoreError, st)
      end
  end.

(** [UPDATE transactions SET {field}=? WHERE txn_id=?] on one row, for a
    whitelisted [field]; [None] is an error of the store (a value it cannot
    put into the column). *)
Definition update_field (field new_value : string) (t : transaction)
    : option transaction :=
  if bool_decide (field = "txn_date") then
    (λ d, Txn (txn_id t) d (bill_no t) (party_id t) (txn_type t)
              (payment_mode t) (amount t)) <$> sql_to_date new_value
  else if bool_decide (field = "bill_no") then
    if nvarchar_fits 255 new_value
    then Some (Txn (txn_id t) (txn_date t) (Some new_value) (party_id t)
                   (txn_type t) (payment_mode t) (amount t))
    else None
  else if bool_decide (field = "txn_type") then
    if nvarchar_fits 50 new_value
    then Some (Txn (txn_id t) (txn_date t) (bill_no t) (party_id t)
                   new_value (payment_mode t) (amount t))
    else None
  else if bool_decide (field = "payment_mode") then
    if nvarchar_fits 50 new_value
    then Some (Txn (txn_id t) (txn_date t) (bill_no t) (party_id t)
                   (txn_type t) new_value (amount t))
    else None
  else
    (λ a, Txn (txn_id t) (txn_date t) (bill_no t) (party_id t) (txn_type t)
              (payment_mode t) a) <$> sql_to_decimal new_value.

(** [str(row[0])] of the old value of a whitelisted field. *)
Definition old_value (field : string) (t : transaction) : string :=
  if bool_decide (field = "txn_date") then py_str (txn_date t)
  else if bool_decide (field = "bill_no") then default "None" (bill_no t)
  else if bool_decide (field = "txn_type") then txn_type t
  else if bool_decide (field = "payment_mode") then payment_mode t
  else py_str (amount t).

Definition allowed_fields : list string :=
  ["txn_date"; "bill_no"; "txn_type"; "payment_mode"; "amount"].

(** [edit_transaction(req)]; [audit_ok] is the outcome of its [log_audit]. *)
Definition edit_transaction (audit_ok : bool) (id : Z)
    (admin_user field new_value : string) (st : state) : response * state :=
  let db := st_db st in
  if bool_decide (field ∉ allowed_fields) then
    (StatusError (HTTPError 400 "Invalid field"), st)
  else
    match list_find (λ t, txn_id t = id) (transactions db) with
    | None => (StatusError (HTTPError 404 "Transaction not found"), st)
    | Some (i, t) =>
        match update_field field new_value t with
        | None => (StatusError StoreError, st)
        | Some t' =>
            let st := invalidate_report_cache
                        (set_db st (with_transactions db
                                      (<[i := t']> (transactions db))
                                      (txn_identity db))) in
            (Status "Updated Successfully",
             log_audit audit_ok admin_user "Edit Transaction"
               ("Changed " +:+ field +:+ " from " +:+ old_value field t
                +:+ " to " +:+ new_value +:+ " for Txn ID " +:+ py_str id)
               None st)
        end
    end.

(** [delete_transaction(req)]. *)
Definition delete_transaction (audit_ok : bool) (id : Z)
    (admin_user : string) (st : state) : response * state :=
  let db := st_db st in
  match list_find (λ t, txn_id t = id) (transactions db) with
  | None => (StatusError (HTTPError 404 "Transaction not found"), st)
  | Some (_, t) =>
      let details :=
        "Date: " +:+ py_str (txn_date t) +:+ ", Bill: "
        +:+ default "None" (bill_no t) +:+ ", Amount: "
        +:+ py_str (amount t) in
      let st := invalidate_report_cache
                  (set_db st (with_transactions db
                                (filter (λ t, txn_id t ≠ id) (transactions db))
                                (txn_identity db))) in
      (Status "Deleted Successfully",
       log_audit audit_ok admin_user "Delete Transaction"
         ("Deleted Txn ID " +:+ py_str id +:+ ". " +:+ details) None st)
  end.

(** [set_opening_cash(req)]. *)
Definition set_opening_cash (audit_ok : bool) (amt : float)
    (admin_user : string) (st : state) : response * state :=
  let st := invalidate_report_cache
              (set_db st (set_setting "opening_cash_seed" amt (st_db st))) in
  (Status "Saved",
   log_audit audit_ok admin_user "Set Opening Cash"
     ("Opening Cash Seed set to " +:+ py_str_float amt) None st).

(** [set_cash_in_hand(req)]: UPDATE when the date has a row, else INSERT;
    an error of the store (a date or an amount it cannot put into the
    column) is caught. *)
Definition set_cash_in_hand (audit_ok : bool) (date_ : string)
    (cash_in_hand : float) (admin_user : string) (st : state)
    : response * state :=
  match sql_to_date date_, sql_decimal_of_float cash_in_hand with
  | Some d, Some c =>
      let db := st_db st in
      let st := invalidate_report_cache
                  (set_db st (with_daily_cash db
                                (<[d := Some c]> (daily_cash db)))) in
      (Status "Saved",
       log_audit audit_ok admin_user "Set Cash In Hand"
         (date_ +:+ " = " +:+ py_str_float cash_in_hand) None st)
  | _, _ => (StatusError StoreError, st)
  end.

(** [login(req)]. *)
Definition login (audit_ok : bool) (username password : string)
    (st : state) : response * state :=
  match users (st_db st) !! username with
  | Some (password_hash, role) =>
      if bool_decide (password_hash = sha256 password) then
        (LoginSuccess username role,
         log_audit audit_ok username "Login" "User logged in" None st)
      else (HTTPException 401 "Invalid Credentials", st)
  | None => (HTTPException 401 "Invalid Credentials", st)
  end.

(** [create_user(req)]. *)
Definition create_user (audit_ok : bool) (username password role : string)
    (st : state) : response * state :=
  let db := st_db st in
  match users db !! username with
  | Some _ => (HTTPException 400 "User already exists", st)
  | None =>
      let st := set_db st (with_users db
                             (<[username := (sha256 password, role)]>
                                (users db))) in
      (Status "User Created",
       log_audit audit_ok "admin" "Create User"
         ("Created user " +:+ username +:+ " as " +:+ role) None st)
  end.

(** [change_user_password(req)]. *)
Definition change_user_password (audit_ok : bool)
    (username new_password admin_user : string) (st : state)
    : response * state :=
  let db := st_db st in
  match users db !! username with
  | None => (StatusError (HTTPError 404 "User not found"), st)
  | Some (_, role) =>
      let st := set_db st (with_users db
                             (<[username := (sha256 new_password, role)]>
                                (users db))) in
      (Status "Password Updated",
       log_audit audit_ok admin_user "Change Password"
         ("Password changed for " +:+ username) None st)
  end.

(** [delete_user(username)]. *)
Definition delete_user (audit_ok : bool) (username : string) (st : state)
    : response * state :=
  if bool_decide (username = "admin") then
    (HTTPException 400 "Cannot delete default admin", st)
  else
    let db := st_db st in
    let st := set_db st (with_users db (delete username (users db))) in
    (Status "User Deleted",
     log_audit audit_ok "admin" "Delete User"
       ("Deleted user " +:+ username) None st).

End Mutations.

(** ** Further endpoints *)

(** [get_opening_cash()]. *)
Definition get_opening_cash (st : state) : float * state :=
  (get_setting "opening_cash_seed" 0%float (st_db st), st).


Definition with_parties (db : database) (ps : list party) : database :=
  Db (users db) (audit_logs db) (app_settings db) (daily_cash db) ps
     (transactions db) (txn_identity db).

Section Parties.

(** [str.lower()]. *)
Variable lower : string → string.

(** Whether a text fits an [NVARCHAR(n)] column. *)
Variable nvarchar_fits : Z → string → bool.

(** [create_party(party)].  The HTTPException for a second Bank leaves the
    function; an error of the INSERT (the violation of the UNIQUE constraint
    on [normalized_name], a text that does not fit its column) is caught
    and reported.  [new_id] is the value the identity column of [parties]
    hands out for the row. *)
Definition create_party (new_id : Z) (name ptype : string) (credit : bool)
    (st : state) : response * state :=
  let db := st_db st in
  if bool_decide (ptype = "Bank")
     && bool_decide (Exists (λ p, p_type p = "Bank") (parties db))
  then (HTTPException 400 "Only one Bank account is allowed.", st)
  else
    let normalized := replace_spaces (lower name) in
    if bool_decide (Exists (λ p, p_normalized_name p = normalized) (parties db))
    then (StatusError StoreError, st)
    else if nvarchar_fits 255 name && nvarchar_fits 255 normalized
            && nvarchar_fits 100 ptype
    then (Status "Party Created",
          set_db st (with_parties db
                       (parties db
                        ++ [Party new_id name normalized ptype credit])))
    else (StatusError StoreError, st).

(** [UPDATE parties SET name=?, normalized_name=? WHERE party_id=?]. *)
Definition rename_row (pid : Z) (new_name new_norm : string) (p : party)
    : party :=
  if bool_decide (p_party_id p = pid)
  then Party pid new_name new_norm (p_type p) (p_credit_allowed p)
  else p.

(** [rename_party(req)]: both HTTPExceptions are raised inside the [try] and
    come back as an error status, as does an error of the UPDATE (a name
    that does not fit its column). *)
Definition rename_party (audit_ok : bool)
    (old_name new_name admin_user : string) (st : state) : response * state :=
  let db := st_db st in
  match party_id_by_normalized_name db (replace_spaces (lower old_name)) with
  | None => (StatusError (HTTPError 404 "Party not found"), st)
  | Some pid =>
      let new_norm := replace_spaces (lower new_name) in
      if bool_decide (Exists (λ p, p_normalized_name p = new_norm
                                   ∧ p_party_id p ≠ pid) (parties db))
      then (StatusError (HTTPError 400 "New name already exists"), st)
      else if nvarchar_fits 255 new_name && nvarchar_fits 255 new_norm
      then
        let st := set_db st (with_parties db
                               (rename_row pid new_name new_norm
                                  <$> parties db)) in
        (Status "Renamed Successfully",
         log_audit audit_ok admin_user "Rename Party"
           ("Renamed " +:+ old_name +:+ " to " +:+ new_name) None st)
      else (StatusError StoreError, st)
  end.

End Parties.

(** A dict of the list under ["transactions"] of [get_transactions]. *)
Record txn_view := TxnView {
  v_id : Z;
  v_date : Z;
  v_bill_no : string;
  v_party : string;
  v_type : string;
  v_mode : string;
  v_amount : Z
}.

(** The dict [get_transactions] returns. *)
Record txn_page := TxnPage {
  pg_transactions : list txn_view;
  pg_page : Z;
  pg_limit : Z;
  pg_total : Z;
  pg_total_pages : Z
}.

Definition txn_view_of (tp : transaction * party) : txn_view :=
  TxnView (txn_id tp.1) (txn_date tp.1) (str_or (bill_no tp.1) "")
          (p_name tp.2) (txn_type tp.1) (payment_mode tp.1) (amount tp.1).

(** The WHERE clause [get_transactions] builds: the two optional bounds, or,
    when neither is given and [days > 0], the last [days] days. *)
Definition transactions_where (today days : Z) (from_date to_date : option Z)
    (t : transaction) : bool :=
  match from_date, to_date with
  | None, None =>
      if bool_decide (days > 0) then bool_decide (today - days ≤ txn_date t)
      else true
  | _, _ =>
      from_option (λ s, bool_decide (s ≤ txn_date t)) true from_date
      && from_option (λ e, bool_decide (txn_date t ≤ e)) true to_date
  end.

(** [ORDER BY t.txn_date DESC, t.txn_id DESC]: with [txn_id] the primary key
    the order is total; a stable sort by date of the rows in descending id
    order. *)
Definition newest_first (l : list transaction) : list transaction :=
  py_sorted_reverse txn_date (py_sorted_reverse txn_id l).

(** The rows of the listing before [OFFSET ... FETCH NEXT ...]. *)
Definition listing (today days : Z) (from_date to_date : option Z)
    (db : database) : list (transaction * party) :=
  omap (λ t, pair t <$> party_by_id db (party_id t))
    (newest_first
       (filter (λ t, transactions_where today days from_date to_date t)
               (transactions db))).

Section Listing.

(** The store's conversion of a string parameter compared with a [DATE]
    column; [None] is a conversion error. *)
Variable sql_to_date : string → option Z.

(** [get_transactions(page, limit, days, from_date, to_date)] on the day
    [today].  The store rejects a negative OFFSET and a FETCH of less than
    one row, and a date it cannot convert; the exception leaves the
    function. *)
Definition get_transactions (today page limit days : Z)
    (from_date to_date : option string) (st : state)
    : outcome txn_page * state :=
  match date_clause sql_to_date from_date,
        date_clause sql_to_date to_date with
  | Some f, Some t =>
      let db := st_db st in
      let total :=
        Z.of_nat (length (filter (λ r, transactions_where today days f t r)
                                 (transactions db))) in
      let offset := (page - 1) * limit in
      if bool_decide (offset < 0) || bool_decide (limit < 1)
      then (Raises "pyodbc.Error", st)
      else
        let rows := take (Z.to_nat limit)
                         (drop (Z.to_nat offset) (listing today days f t db)) in
        let total_pages := (total + limit - 1) `div` limit in
        (Returns (TxnPage (txn_view_of <$> rows) page limit total total_pages),
         st)
  | _, _ => (Raises "pyodbc.Error", st)
  end.

(** [get_transactions_by_date(date)]: the rows of one date, the parameter
    always compared with the [DATE] column. *)
Definition get_transactions_by_date (date_ : string) (st : state)
    : outcome (list txn_view) * state :=
  match sql_to_date date_ with
  | None => (Raises "pyodbc.Error", st)
  | Some d =>
      let db := st_db st in
      (Returns
         (txn_view_of
            <$> omap (λ t, pair t <$> party_by_id db (party_id t))
                  (newest_first
                     (filter (λ t, txn_date t = d) (transactions db)))),
       st)
  end.

End Listing.

(** [get_single_transaction(txn_id)]: the first row of the join that has the
    id, or the HTTPException 404, which leaves the function. *)
Definition get_single_transaction (id : Z) (st : state)
    : (response + txn_view) * state :=
  let db := st_db st in
  match head (omap (λ t, pair t <$> party_by_id db (party_id t))
                (filter (λ t, txn_id t = id) (transactions db))) with
  | None => (inl (HTTPException 404 "Transaction not found"), st)
  | Some row => (inr (txn_view_of row), st)
  end.

(** ** The per-mode daily summary *)

(** A dict of the list [get_daily_summary] returns. *)
Record daily_entry := DailyEntry {
  de_date : Z;
  de_cash_in : Z;
  de_cash_out : Z;
  de_bank_in : Z;
  de_bank_out : Z;
  de_upi_in : Z;
  de_upi_out : Z
}.

(** [payment_mode IN ('Cash', 'Bank', 'UPI', 'GPay', 'GPAY', 'Google Pay',
    'GooglePay')]. *)
Definition summary_modes : list string :=
  ["Cash"; "Bank"; "UPI"; "GPay"; "GPAY"; "Google Pay"; "GooglePay"].

Definition group_key (t : transaction) : Z * string * string :=
  (txn_date t, payment_mode t, txn_type t).

(** The rows of [GROUP BY txn_date, payment_mode, txn_type] with their
    [SUM(amount)], before the ORDER BY. *)
Definition summary_groups (db : database) : list (Z * string * string * Z) :=
  let selected := filter (λ t, payment_mode t ∈ summary_modes)
                         (transactions db) in
  (λ k, (k, sum_with amount (filter (λ t, group_key t = k) selected)))
    <$> remove_dups (group_key <$> selected).

(** The body of the loop for one row, on the entry of the row's date. *)
Definition add_to_entry (mode ttype : string) (val : Z) (e : daily_entry)
    : daily_entry :=
  let is_in := is_inflow_type ttype in
  if bool_decide (mode = "Cash") then
    if is_in
    then DailyEntry (de_date e) (de_cash_in e + val) (de_cash_out e)
                    (de_bank_in e) (de_bank_out e) (de_upi_in e) (de_upi_out e)
    else DailyEntry (de_date e) (de_cash_in e) (de_cash_out e + val)
                    (de_bank_in e) (de_bank_out e) (de_upi_in e) (de_upi_out e)
  else if bool_decide (mode = "Bank") then
    if is_in
    then DailyEntry (de_date e) (de_cash_in e) (de_cash_out e)
                    (de_bank_in e + val) (de_bank_out e) (de_upi_in e)
                    (de_upi_out e)
    else DailyEntry (de_date e) (de_cash_in e) (de_cash_out e)
                    (de_bank_in e) (de_bank_out e + val) (de_upi_in e)
                    (de_upi_out e)
  else if bool_decide (mode = "UPI") then
    if is_in
    then DailyEntry (de_date e) (de_cash_in e) (de_cash_out e)
                    (de_bank_in e) (de_bank_out e) (de_upi_in e + val)
                    (de_upi_out e)
    else DailyEntry (de_date e) (de_cash_in e) (de_cash_out e)
                    (de_bank_in e) (de_bank_out e) (de_upi_in e)
                    (de_upi_out e + val)
  else e.

(** The dict [summary], in insertion order: the entry of a date is created
    with zeros when the date is not yet a key, then updated in place. *)
Fixpoint dict_update (d : Z) (f : daily_entry → daily_entry)
    (summary : list (Z * daily_entry)) : list (Z * daily_entry) :=
  match summary with
  | [] => [(d, f (DailyEntry d 0 0 0 0 0 0))]
  | (d', e) :: summary' =>
      if bool_decide (d' = d) then (d', f e) :: summary'
      else (d', e) :: dict_update d f summary'
  end.

Definition summary_step (summary : list (Z * daily_entry))
    (row : Z * string * string * Z) : list (Z * daily_entry) :=
  let '(d, mode, ttype, val) := row in
  dict_update d (add_to_entry mode ttype val) summary.

Section ModeSummary.

(** The store's [ORDER BY txn_date DESC] on the grouped rows. *)
Variable order_groups :
  list (Z * string * string * Z) → list (Z * string * string * Z).

(** [get_daily_summary()]. *)
Definition get_daily_summary (st : state) : list daily_entry * state :=
  (snd <$> foldl summary_step [] (order_groups (summary_groups (st_db st))),
   st).

End ModeSummary.

(** ** Vocabulary of the statements *)

(** The rows of a page of the listing; none when the call raised. *)
Definition page_rows (out : outcome txn_page * state) : list txn_view :=
  match out.1 with
  | Returns pg => pg_transactions pg
  | Raises _ => []
  end.

(** At most one party of type Bank. *)
Definition one_bank (db : database) : Prop :=
  (length (filter (λ p, p_type p = "Bank") (parties db)) ≤ 1)%nat.

(** No two parties share a normalized name. *)
Definition unique_names (db : database) : Prop :=
  NoDup (p_normalized_name <$> parties db).

(** No two parties share a [party_id]. *)
Definition unique_party_ids (db : database) : Prop :=
  NoDup (p_party_id <$> parties db).

(** Every transaction refers to a party of the table (the foreign key). *)
Definition parties_known (db : database) : Prop :=
  ∀ t, t ∈ transactions db → is_Some (party_by_id db (party_id t)).

Definition key_le {A} (key : A → Z) (a b : A) : Prop := key a ≤ key b.
Definition key_lt {A} (key : A → Z) (a b : A) : Prop := key a < key b.

(** What the source relies on from [ORDER BY txn_date]: the rows asked for,
    each once, in ascending date order. *)
Definition orders_by_txn_date
    (order : list transaction → list transaction) : Prop :=
  (∀ l, order l ≡ₚ l) ∧ (∀ l, StronglySorted (key_le txn_date) (order l)).

(** The sum of the amounts of the rows that satisfy [c]. *)
Definition total (c : transaction → bool) (ts : list transaction) : Z :=
  sum_with amount (filter (λ t, c t) ts).

(** The balance of the row before row [i] of a ledger; 0 before the first. *)
Definition ledger_prev (rows : list ledger_row) (i : nat) : float :=
  match i with
  | O => 0%float
  | S j => from_option l_balance 0%float (rows !! j)
  end.

(** The balance of the row before row [i] of an account report. *)
Definition mode_prev (rows : list mode_row) (i : nat) : float :=
  match i with
  | O => 0%float
  | S j => from_option m_balance 0%float (rows !! j)
  end.

(** The transactions an account report is about: those of the payment mode
    (of the bank class for "bank") that the join finds a party for. *)
Definition mode_report_set (lower : string → string) (mode : string)
    (db : database) : list transaction :=
  filter (λ t, mode_where lower mode t
               && bool_decide (is_Some (party_by_id db (party_id t))))
         (transactions db).

(** Date ascending, ties on the date by id ascending. *)
Definition date_then_id (a b : ledger_row) : Prop :=
  l_date a < l_date b ∨ (l_date a = l_date b ∧ l_id a ≤ l_id b).

(** The count recorded for a date, if any. *)
Definition recorded_count (db : database) (d : Z) : option Z :=
  daily_cash db !! d ≫= id.

(** A date of the active set of a range: in the range, with a transaction
    or a daily-cash row. *)
Definition active_date (db : database) (start_date end_date d : Z) : Prop :=
  start_date ≤ d ≤ end_date
  ∧ ((∃ t, t ∈ transactions db ∧ txn_date t = d)
     ∨ is_Some (daily_cash db !! d)).

(** The tables the daily reconciliation is computed from: the transactions,
    the daily-cash counts and the settings (which hold the opening seed). *)
Definition books (db : database)
    : list transaction * gmap Z (option Z) * gmap string setting_value :=
  (transactions db, daily_cash db, app_settings db).

(** A report that answers a repeated call from memory: the second call
    returns the payload of the first whatever the store holds by then. *)
Definition repeats_first_payload {R} (report : state → R * state) : Prop :=
  ∀ st db', (report (set_db (report st).2 db')).1 = (report st).1.

(** A report that neither reads nor writes the report cache. *)
Definition ignores_cache {R} (report : state → R * state) : Prop :=
  ∀ st, (report st).2 = st
        ∧ ∀ c, (report (set_cache st c)).1 = (report st).1.

(** Ascending by [key], and by [R] where the keys are equal. *)
Definition key_then {A} (key : A → Z) (R : A → A → Prop) (a b : A) : Prop :=
  key a < key b ∨ (key a = key b ∧ R a b).

(** The order of [ORDER BY t.txn_date DESC, t.txn_id DESC] on the rows shown:
    a later row has an earlier date, or the same date and no greater id. *)
Definition newest_first_order (a b : txn_view) : Prop :=
  v_date b < v_date a ∨ (v_date a = v_date b ∧ v_id b ≤ v_id a).

(** The date of a grouped row of [get_daily_summary]. *)
Definition row_date (r : Z * string * string * Z) : Z := r.1.1.1.




(** ** Sample data *)

(** Three consecutive days. *)
Definition day1 : Z := 739000.
Definition day2 : Z := 739001.
Definition day3 : Z := 739002.

Definition sample_parties : list party :=
  [ Party 1 "Acme Corp" "acme_corp" "Credit Customer" true;
    Party 2 "Walk In" "walk_in" "Customer" false ].

Definition sample_transactions : list transaction :=
  [ Txn 1 day1 (Some "B1") 2 "Sale" "Cash" 50000;
    Txn 2 day1 None 2 "Expense" "Cash" 20000;
    Txn 3 day2 (Some "B2") 1 "Receipt" "Cash" 10000;
    Txn 4 day2 (Some "B3") 1 "Sale" "Credit" 30000;
    Txn 5 day3 (Some "B4") 2 "Sale" "UPI" 7000 ].

(** Opening seed 1000.00; a count of 1350.00 recorded for the second day. *)
Definition sample_db : database :=
  Db {["admin" := ("h:admin1020", "admin")]} []
     {["opening_cash_seed" := SNum 1000%float]}
     {[day2 := Some 135000]}
     sample_parties sample_transactions 5.

Definition sample_state : state := State sample_db ∅ None.

(** The walk-in customer's transactions entered out of date order. *)
Definition unsorted_db : database :=
  Db ∅ [] ∅ ∅ sample_parties
     [ Txn 1 day3 (Some "B1") 2 "Sale" "Cash" 50000;
       Txn 2 day1 (Some "B2") 2 "Sale" "Cash" 20000;
       Txn 3 day2 (Some "B3") 2 "Receipt" "Cash" 10000 ]
     3.

Definition unsorted_state : state := State unsorted_db ∅ None.

(** The sample with a count of 500.00 on the first day and a row without a
    count on the second. *)
Definition null_count_db : database :=
  with_daily_cash sample_db {[day1 := Some 50000; day2 := None]}.

(** A cash sale of 0.10, a cash expense of 0.30 and a cash sale of 0.20, on
    three days. *)
Definition rounding_db : database :=
  Db ∅ [] ∅ ∅ sample_parties
     [ Txn 1 day1 None 2 "Sale" "Cash" 10;
       Txn 2 day2 None 2 "Expense" "Cash" 30;
       Txn 3 day3 None 2 "Sale" "Cash" 20 ]
     3.

Definition rounding_state : state := State rounding_db ∅ None.

(** A store that returns the rows of one date in insertion order, and one
    that returns them in the opposite order. *)
Definition order_stable (l : list transaction) : list transaction :=
  py_sorted txn_date l.

Definition order_reversing (l : list transaction) : list transaction :=
  py_sorted txn_date (reverse l).

(** A store that returns the grouped rows of one date in the order of
    their first transaction. *)
Definition order_newest_first (l : list (Z * string * string * Z))
    : list (Z * string * string * Z) :=
  py_sorted (λ r, - row_date r) l.

(** Conversions for the samples: no string is a date or a number. *)
Definition no_date (s : string) : option Z := None.

(** [float] of a decimal of fewer than [2^53] hundredths: the quotient of
    two floats that hold their integers exactly, rounded once. *)
Definition sample_float_of_decimal (n : Z) : float :=
  if bool_decide (0 ≤ n) then (of_uint63 (Uint63.of_Z n) / 100)%float
  else (- (of_uint63 (Uint63.of_Z (- n)) / 100))%float.

(** [str.lower()] on ASCII text. *)
Definition ascii_lower (c : ascii) : ascii :=
  let n := N_of_ascii c in
  if ((65 <=? n) && (n <=? 90))%N then ascii_of_N (n + 32) else c.

Fixpoint sample_lower (s : string) : string :=
  match s with
  | EmptyString => EmptyString
  | String c s' => String (ascii_lower c) (sample_lower s')
  end.

(** A store for the samples that takes the amounts 125.0, 1350.0 and
    1400.0 and rejects every other amount, as a store rejects one that does
    not fit [DECIMAL(18,2)]; and that takes the texts that are not longer
    than the column. *)
Definition sample_decimal_of_float (f : float) : option Z :=
  if (f =? 125)%float then Some 12500
  else if (f =? 1350)%float then Some 135000
  else if (f =? 1400)%float then Some 140000
  else None.

Definition sample_fits (n : Z) (s : string) : bool :=
  bool_decide (Z.of_nat (String.length s) ≤ n).

Definition sample_str_float (f : float) : string := "#".

Definition sample_sha256 (s : string) : string := "h:" +:+ s.

Definition sample_str (z : Z) : string := "#".

(** A conversion for the samples that knows the three days. *)
Definition sample_to_date (s : string) : option Z :=
  if bool_decide (s = "2024-04-24") then Some day1
  else if bool_decide (s = "2024-04-25") then Some day2
  else if bool_decide (s = "2024-04-26") then Some day3
  else None.

Definition sample_to_decimal (s : string) : option Z :=
  if bool_decide (s = "125.00") then Some 12500 else None.

(** * Properties *)

(** Unfolding an endpoint by its name, also where a section abbreviates the
    endpoint applied to the store's parameters. *)
Ltac unfold_add_transaction := unfold add_transaction.
Ltac unfold_delete_transaction := unfold delete_transaction.
Ltac unfold_edit_transaction := unfold edit_transaction.
Ltac unfold_get_daily_summary_report := unfold get_daily_summary_report.
Ltac unfold_get_ledger := unfold get_ledger.
Ltac unfold_get_short_excess_report := unfold get_short_excess_report.
Ltac unfold_joined_by_date := unfold joined_by_date.
Ltac unfold_set_cash_in_hand := unfold set_cash_in_hand.

(** ** Sorting *)

Section Sorting.
Context {A : Type} (key : A → Z).

Local Abbreviation key_le := (key_le key).
Local Abbreviation key_lt := (key_lt key).

Lemma sorted_key_le_fmap l :
  StronglySorted key_le l ↔ StronglySorted Z.le (key <$> l).
Proof.
  induction l as [|x l IH]; [split; constructor|].
  rewrite fmap_cons, !StronglySorted_cons, IH, Forall_fmap. done.
Qed.

Lemma sorted_key_lt_fmap l :
  StronglySorted key_lt l ↔ StronglySorted Z.lt (key <$> l).
Proof.
  induction l as [|x l IH]; [split; constructor|].
  rewrite fmap_cons, !StronglySorted_cons, IH, Forall_fmap. done.
Qed.

Lemma insert_by_perm x l : insert_by key x l ≡ₚ x :: l.
Proof.
  induction l as [|y l IH]; simpl; [done|].
  case_bool_decide; [done|].
  rewrite IH. apply Permutation_swap.
Qed.

Lemma insert_all_perm acc l : insert_all key acc l ≡ₚ acc ++ l.
Proof.
  revert acc. induction l as [|x l IH]; intros acc; simpl.
  - by rewrite app_nil_r.
  - rewrite IH, insert_by_perm. simpl. apply Permutation_middle.
Qed.

Lemma py_sorted_perm l : py_sorted key l ≡ₚ l.
Proof. apply (insert_all_perm []). Qed.

Lemma insert_by_sorted x l :
  StronglySorted key_le l → StronglySorted key_le (insert_by key x l).
Proof.
  induction 1 as [|y l Hl IH Hy]; simpl.
  - repeat constructor.
  - case_bool_decide as Hxy.
    + constructor; [by constructor|].
      constructor; [unfold key_le; lia|].
      eapply Forall_impl; [exact Hy|]. unfold key_le. intros; lia.
    + constructor; [done|].
      rewrite insert_by_perm. constructor; [unfold key_le; lia|done].
Qed.

Lemma insert_all_sorted acc l :
  StronglySorted key_le acc → StronglySorted key_le (insert_all key acc l).
Proof.
  revert acc. induction l as [|x l IH]; intros acc Hacc; simpl; [done|].
  by apply IH, insert_by_sorted.
Qed.

Lemma py_sorted_sorted l : StronglySorted key_le (py_sorted key l).
Proof. apply insert_all_sorted. constructor. Qed.

(** An element smaller than the whole list goes to the front. *)
Lemma insert_by_front x l :
  Forall (key_lt x) l → insert_by key x l = x :: l.
Proof.
  destruct 1 as [|y l Hy _]; simpl; [done|].
  by rewrite bool_decide_eq_true_2.
Qed.

(** An element not smaller than any of the list goes to the back. *)
Lemma insert_by_back x l :
  Forall (λ y, key_le y x) l → insert_by key x l = l ++ [x].
Proof.
  induction 1 as [|y l Hy _ IH]; simpl; [done|].
  rewrite bool_decide_eq_false_2 by (unfold key_le in Hy; lia).
  by rewrite IH.
Qed.

Lemma insert_all_descending acc l :
  StronglySorted (flip key_lt) l →
  Forall (λ x, Forall (key_lt x) acc) l →
  insert_all key acc l = reverse l ++ acc.
Proof.
  revert acc. induction l as [|x l IH]; intros acc Hl Hacc; simpl; [done|].
  apply StronglySorted_inv in Hl as [Hl Hx].
  apply Forall_cons in Hacc as [Hxacc Hacc].
  rewrite insert_by_front by done.
  rewrite IH, reverse_cons, <-app_assoc; [done..|].
  apply Forall_forall. intros y Hy. constructor.
  - rewrite Forall_forall in Hx. by apply Hx.
  - rewrite Forall_forall in Hacc. by apply Hacc.
Qed.

(** [sorted(..., reverse=True)] of a list with strictly ascending keys is
    its reversal. *)
Lemma py_sorted_reverse_ascending l :
  StronglySorted key_lt l → py_sorted_reverse key l = reverse l.
Proof.
  intros Hl. unfold py_sorted_reverse, py_sorted. f_equal.
  rewrite insert_all_descending.
  - by rewrite app_nil_r, reverse_involutive.
  - clear -Hl. induction Hl as [|x l Hl IH Hx]; [constructor|].
    rewrite reverse_cons.
    apply StronglySorted_app_2; [|exact IH|repeat constructor].
    intros a b Ha Hb. apply list_elem_of_singleton in Hb as ->.
    rewrite elem_of_reverse in Ha. rewrite Forall_forall in Hx.
    unfold flip. by apply Hx.
  - apply Forall_forall. intros; constructor.
Qed.

Lemma sorted_nodup_strict l :
  StronglySorted key_le l → NoDup (key <$> l) → StronglySorted key_lt l.
Proof.
  induction 1 as [|x l Hl IH Hx]; intros Hnd; [constructor|].
  rewrite fmap_cons in Hnd. apply NoDup_cons in Hnd as [Hnin Hnd].
  constructor; [by apply IH|].
  apply Forall_forall. intros y Hy.
  rewrite Forall_forall in Hx. specialize (Hx y Hy).
  assert (key x ≠ key y).
  { intros Heq. apply Hnin. rewrite Heq. by apply list_elem_of_fmap_2. }
  unfold key_lt, key_le in *. lia.
Qed.

End Sorting.



(** A conditional sum splits the rows by the condition. *)
Lemma sum_with_case (c : transaction → bool) (l : list transaction) :
  sum_with (λ t, if c t then amount t else 0) l = total c l.
Proof.
  unfold total. induction l as [|t l IH]; simpl; [done|].
  destruct (c t) eqn:E.
  - rewrite filter_cons_True by (simpl; by rewrite E). simpl. lia.
  - rewrite filter_cons_False by (simpl; rewrite E; intros []). lia.
Qed.

Lemma or_zero_sql_sum {A} (f : A → Z) (l : list A) :
  or_zero (sql_sum f l) = sum_with f l.
Proof. by destruct l. Qed.

Lemma filter_none {A} (P : A → Prop) `{!∀ x, Decision (P x)} (l : list A) :
  (∀ x, x ∈ l → ¬ P x) → filter P l = [].
Proof.
  intros Hno. destruct (filter P l) as [|x k] eqn:E; [done|].
  assert (x ∈ filter P l) as Hx by (rewrite E; left).
  apply list_elem_of_filter in Hx as [HP Hx]. by destruct (Hno x Hx).
Qed.

(** ** The per-party ledger *)

Section LoopFacts.

Variable float_of_decimal : Z → float.

Lemma ledger_loop_dates b data :
  l_date <$> ledger_loop float_of_decimal b data = txn_date <$> data.
Proof.
  revert b. induction data as [|t data IH]; intros b; simpl; [done|].
  by rewrite IH.
Qed.

Lemma ledger_loop_ids b data :
  l_id <$> ledger_loop float_of_decimal b data = txn_id <$> data.
Proof.
  revert b. induction data as [|t data IH]; intros b; simpl; [done|].
  by rewrite IH.
Qed.

Lemma ledger_loop_length b data :
  length (ledger_loop float_of_decimal b data) = length data.
Proof.
  revert b. induction data as [|t data IH]; intros b; simpl; [done|].
  by rewrite IH.
Qed.

(** A row of the loop against the fetched row it is made of. *)
Lemma ledger_loop_row b data i t r :
  data !! i = Some t → ledger_loop float_of_decimal b data !! i = Some r →
  let prev := match i with
              | O => b
              | S j => from_option l_balance 0%float
                         (ledger_loop float_of_decimal b data !! j)
              end in
  l_id r = txn_id t ∧ l_date r = txn_date t ∧ l_type r = txn_type t
  ∧ l_mode r = payment_mode t
  ∧ l_amount r = float_of_decimal (amount t)
  ∧ l_balance r
    = if bool_decide (txn_type t = "Sale")
      then (prev + float_of_decimal (amount t))%float
      else (prev - float_of_decimal (amount t))%float.
Proof.
  revert b i. induction data as [|t' data IH]; intros b i Ht Hr; [done|].
  destruct i as [|i]; simpl in Ht, Hr.
  - injection Ht as ->. injection Hr as <-. simpl.
    split_and!; try done. by repeat case_bool_decide.
  - destruct (IH _ _ Ht Hr) as (? & ? & ? & ? & ? & Hbal).
    split_and!; try done. rewrite Hbal. by destruct i.
Qed.

Lemma mode_loop_length b rows :
  length (mode_loop float_of_decimal b rows) = length rows.
Proof.
  revert b. induction rows as [|[t p] rows IH]; intros b; simpl; [done|].
  destruct (is_inflow_type (txn_type t)); simpl; by rewrite IH.
Qed.

Lemma mode_loop_row b rows i t p r :
  rows !! i = Some (t, p) →
  mode_loop float_of_decimal b rows !! i = Some r →
  let prev := match i with
              | O => b
              | S j => from_option m_balance 0%float
                         (mode_loop float_of_decimal b rows !! j)
              end in
  let amt := float_of_decimal (amount t) in
  m_type r = txn_type t
  ∧ if is_inflow_type (txn_type t)
    then m_debit r = amt ∧ m_credit r = 0%float
         ∧ m_balance r = (prev + amt)%float
    else m_debit r = 0%float ∧ m_credit r = amt
         ∧ m_balance r = (prev - amt)%float.
Proof.
  revert b i. induction rows as [|[t' p'] rows IH]; intros b i Ht Hr; [done|].
  destruct i as [|i]; simpl in Ht, Hr.
  - injection Ht as -> ->.
    destruct (is_inflow_type (txn_type t)) eqn:E; injection Hr as <-; simpl;
      done.
  - destruct (is_inflow_type (txn_type t')) eqn:E; simpl in Hr;
      pose proof (IH _ _ Ht Hr) as Hrow; destruct i as [|i]; simpl;
      rewrite ?E; exact Hrow.
Qed.

(** The balance the loop ends with: the additions and subtractions of the
    rows, carried out in row order. *)
Lemma mode_loop_last b rows r :
  last (mode_loop float_of_decimal b rows) = Some r →
  m_balance r
  = foldl (λ bal (tp : transaction * party),
             if is_inflow_type (txn_type tp.1)
             then (bal + float_of_decimal (amount tp.1))%float
             else (bal - float_of_decimal (amount tp.1))%float) b rows.
Proof.
  revert b. induction rows as [|[t p] rows IH]; intros b Hr; [done|].
  cbn [mode_loop foldl fst] in *.
  destruct (is_inflow_type (txn_type t)); rewrite last_cons in Hr;
    match type of Hr with context [last (mode_loop _ ?b' rows)] =>
      destruct (last (mode_loop float_of_decimal b' rows)) as [r'|] eqn:El
    end;
    try (injection Hr as ->; by rewrite (IH _ El));
    apply last_None in El; apply (f_equal length) in El;
    rewrite mode_loop_length in El; destruct rows; try done;
    by injection Hr as <-.
Qed.

End LoopFacts.

Section ReportFacts.

Variable order_by_txn_date : list transaction → list transaction.
Variable sql_to_date : string → option Z.
Variable float_of_decimal : Z → float.
Variable lower : string → string.

Local Abbreviation get_ledger :=
  (get_ledger order_by_txn_date sql_to_date float_of_decimal).
Local Abbreviation get_mode_report :=
  (get_mode_report order_by_txn_date float_of_decimal lower).
Local Abbreviation joined_by_date := (joined_by_date order_by_txn_date).

Lemma get_ledger_cases party start end_ st :
  (get_ledger party start end_ st).1 = []
  ∨ ∃ pid s e,
      party_id_by_normalized_name (st_db st) party = Some pid
      ∧ (get_ledger party start end_ st).1
        = ledger_loop float_of_decimal 0%float
            (order_by_txn_date
               (filter (λ t, ledger_where pid s e t)
                       (transactions (st_db st)))).
Proof.
  unfold_get_ledger.
  destruct (party_id_by_normalized_name _ _) as [pid|]; [|by left].
  destruct (date_clause _ start) as [s|]; [|by left].
  destruct (date_clause _ end_) as [e|]; [|by left].
  right. by exists pid, s, e.
Qed.

Lemma get_ledger_fetched party start end_ st pid s e :
  party_id_by_normalized_name (st_db st) party = Some pid →
  date_clause sql_to_date start = Some s →
  date_clause sql_to_date end_ = Some e →
  (get_ledger party start end_ st).1
  = ledger_loop float_of_decimal 0%float
      (order_by_txn_date
         (filter (λ t, ledger_where pid s e t) (transactions (st_db st)))).
Proof. intros Hp Hs He. unfold_get_ledger. by rewrite Hp, Hs, He. Qed.

(** C5.  The ledger of a party has one row for each of the party's
    transactions in the range, in the order the store returns them.  The
    row shows the type of its transaction and, as amount, the float of the
    transaction's amount; its balance is the balance of the row before it
    (0 before the first row) plus the amount when the type is Sale, and
    minus the amount when the type is Receipt, Sale Return, or any other
    type. *)
Theorem get_ledger_running_balance party start end_ st pid s e :
  party_id_by_normalized_name (st_db st) party = Some pid →
  date_clause sql_to_date start = Some s →
  date_clause sql_to_date end_ = Some e →
  let fetched :=
    order_by_txn_date
      (filter (λ t, ledger_where pid s e t) (transactions (st_db st))) in
  let rows := (get_ledger party start end_ st).1 in
  length rows = length fetched
  ∧ ∀ i t r,
      fetched !! i = Some t → rows !! i = Some r →
      let a := float_of_decimal (amount t) in
      let prev := ledger_prev rows i in
      l_type r = txn_type t
      ∧ l_amount r = a
      ∧ (txn_type t = "Sale" → l_balance r = (prev + a)%float)
      ∧ (txn_type t ∈ ["Receipt"; "Sale Return"] →
         l_balance r = (prev - a)%float)
      ∧ (txn_type t ≠ "Sale" → l_balance r = (prev - a)%float).
Proof.
  intros Hp Hs He fetched rows. subst rows.
  rewrite (get_ledger_fetched _ _ _ _ _ _ _ Hp Hs He). fold fetched.
  split; [apply ledger_loop_length|].
  intros i t r Ht Hr. cbv zeta.
  destruct (ledger_loop_row float_of_decimal _ _ _ _ _ Ht Hr)
    as (_ & _ & Hty & _ & Hamt & Hbal).
  replace (ledger_prev (ledger_loop float_of_decimal 0%float fetched) i)
    with (match i with
          | O => 0%float
          | S j => from_option l_balance 0%float
                     (ledger_loop float_of_decimal 0%float fetched !! j)
          end) by (by destruct i).
  split_and!; [done..| | |].
  - intros Hsale. by rewrite bool_decide_eq_true_2 in Hbal.
  - intros Hin. rewrite bool_decide_eq_false_2 in Hbal; [done|].
    intros Heq. rewrite Heq in Hin.
    apply elem_of_cons in Hin as [?|Hin]; [done|].
    by apply list_elem_of_singleton in Hin.
  - intros Hne. by rewrite bool_decide_eq_false_2 in Hbal.
Qed.

(** C9.  The ledger is the empty list when no party has the requested
    normalized name, and when the party has no transactions, whatever the
    date range; a call leaves the state (database, cache) as it was. *)
Theorem get_ledger_empty party start end_ st :
  (∀ l, order_by_txn_date l ≡ₚ l) →
  (party_id_by_normalized_name (st_db st) party = None →
   get_ledger party start end_ st = ([], st))
  ∧ (∀ pid,
       party_id_by_normalized_name (st_db st) party = Some pid →
       (∀ t, t ∈ transactions (st_db st) → party_id t ≠ pid) →
       get_ledger party start end_ st = ([], st))
  ∧ (get_ledger party start end_ st).2 = st.
Proof.
  intros Hperm. unfold_get_ledger. split_and!.
  - by intros ->.
  - intros pid -> Hno.
    destruct (date_clause _ start) as [s|]; [|done].
    destruct (date_clause _ end_) as [e|]; [|done].
    replace (filter _ _) with (@nil transaction).
    + specialize (Hperm []). apply Permutation_nil_r in Hperm.
      by rewrite Hperm.
    + symmetry. apply filter_none. intros t Ht Hw.
      unfold ledger_where in Hw. rewrite !andb_True in Hw.
      destruct Hw as [[Hp _] _]. apply bool_decide_unpack in Hp.
      by apply (Hno t).
  - destruct (party_id_by_normalized_name _ _); [|done].
    destruct (date_clause _ start); [|done].
    by destruct (date_clause _ end_).
Qed.

(** C6, as the code has it.  The rows of the ledger are in ascending date
    order; the order of rows of one date is the store's. *)
Theorem get_ledger_date_order party start end_ st :
  orders_by_txn_date order_by_txn_date →
  StronglySorted (key_le l_date) (get_ledger party start end_ st).1.
Proof.
  intros [_ Hsorted].
  destruct (get_ledger_cases party start end_ st)
    as [->|(pid & s & e & _ & ->)]; [constructor|].
  rewrite sorted_key_le_fmap, ledger_loop_dates, <-sorted_key_le_fmap.
  apply Hsorted.
Qed.

(** *** The account report *)

Lemma joined_by_date_fst c db :
  (∀ l, order_by_txn_date l ≡ₚ l) →
  (joined_by_date c db).*1
  = order_by_txn_date
      (filter (λ t, c t && bool_decide (is_Some (party_by_id db (party_id t))))
              (transactions db)).
Proof.
  intros Hperm. unfold_joined_by_date.
  set (l := filter _ _). set (k := order_by_txn_date l).
  assert (∀ t, t ∈ k → is_Some (party_by_id db (party_id t))) as Hk.
  { intros t Ht. subst k. rewrite Hperm in Ht. subst l.
    apply list_elem_of_filter in Ht as [Ht _].
    apply andb_True in Ht as [_ Ht]. by apply bool_decide_unpack in Ht. }
  clearbody k. clear l. induction k as [|t k IH]; [done|].
  destruct (Hk t) as [p Hp]; [left|]. csimpl. rewrite Hp. csimpl.
  f_equal. apply IH. intros t' Ht'. apply Hk. by right.
Qed.

(** C4, as the code has it.  An account report has one row for each
    transaction of the mode that has a party, in the order the store
    returns them.  A row of type Sale or Receipt has debit = amount,
    credit = 0 and balance = previous balance + amount; every other row has
    debit = 0, credit = amount and balance = previous balance - amount,
    the amount being the float of the transaction's amount.  The last
    row's balance is what these float additions and subtractions give when
    carried out in row order from 0. *)
Theorem get_mode_report_running_balance mode st :
  (∀ l, order_by_txn_date l ≡ₚ l) →
  let fetched := joined_by_date (mode_where lower mode) (st_db st) in
  let rows := (get_mode_report mode st).1 in
  length rows = length fetched
  ∧ fetched.*1 ≡ₚ mode_report_set lower mode (st_db st)
  ∧ (∀ i t p r,
       fetched !! i = Some (t, p) → rows !! i = Some r →
       let amt := float_of_decimal (amount t) in
       m_type r = txn_type t
       ∧ if is_inflow_type (txn_type t)
         then m_debit r = amt ∧ m_credit r = 0%float
              ∧ m_balance r = (mode_prev rows i + amt)%float
         else m_debit r = 0%float ∧ m_credit r = amt
              ∧ m_balance r = (mode_prev rows i - amt)%float)
  ∧ (∀ r, last rows = Some r →
       m_balance r
       = foldl (λ bal t,
                  if is_inflow_type (txn_type t)
                  then (bal + float_of_decimal (amount t))%float
                  else (bal - float_of_decimal (amount t))%float)
               0%float fetched.*1).
Proof.
  intros Hperm fetched rows. subst rows. simpl. fold fetched. split_and!.
  - apply mode_loop_length.
  - subst fetched. rewrite joined_by_date_fst by done. apply Hperm.
  - intros i t p r Hf Hr.
    pose proof (mode_loop_row float_of_decimal 0%float fetched i t p r Hf Hr)
      as Hrow.
    destruct i; exact Hrow.
  - intros r Hr. rewrite (mode_loop_last _ _ _ _ Hr).
    generalize 0%float. clear. induction fetched as [|[t p] l IH]; [done|].
    intros b. cbn [foldl fmap list_fmap fst]. apply IH.
Qed.

End ReportFacts.

Lemma order_stable_orders : orders_by_txn_date order_stable.
Proof. split; intros l; [apply py_sorted_perm|apply py_sorted_sorted]. Qed.

Lemma order_reversing_orders : orders_by_txn_date order_reversing.
Proof.
  split; intros l; unfold order_reversing.
  - by rewrite py_sorted_perm, reverse_Permutation.
  - apply py_sorted_sorted.
Qed.

(** The ledger of the sample party, second row: a Sale of 300.00 adds 300.0
    to the balance of the Receipt before it. *)
Lemma get_ledger_running_balance_witness :
  let rows := (get_ledger order_stable no_date sample_float_of_decimal
                          "acme_corp" None None sample_state).1 in
  length rows = 2%nat
  ∧ ∃ r, rows !! 1%nat = Some r ∧ l_type r = "Sale"
         ∧ l_amount r = 300%float
         ∧ l_balance r = (ledger_prev rows 1 + 300)%float.
Proof.
  destruct (get_ledger_running_balance order_stable no_date
              sample_float_of_decimal "acme_corp" None None sample_state
              1 None None eq_refl eq_refl eq_refl) as [Hlen Hrow].
  split; [exact Hlen|].
  eexists. split; [reflexivity|].
  destruct (Hrow 1%nat (Txn 4 day2 (Some "B3") 1 "Sale" "Credit" 30000) _
              eq_refl eq_refl) as (Hty & Hamt & Hsale & _).
  split; [exact Hty|]. split; [exact Hamt|]. exact (Hsale eq_refl).
Defined.

(** An unknown party, and a known party without transactions. *)
Lemma get_ledger_empty_witness :
  get_ledger order_stable no_date sample_float_of_decimal "nobody" None
             (Some "2024-13-01") sample_state = ([], sample_state)
  ∧ get_ledger order_stable no_date sample_float_of_decimal "acme_corp"
               None None
               (set_db sample_state
                  (with_transactions sample_db [] 5))
    = ([], set_db sample_state (with_transactions sample_db [] 5)).
Proof.
  split.
  - apply (get_ledger_empty order_stable no_date sample_float_of_decimal
             "nobody" None (Some "2024-13-01") sample_state
             (py_sorted_perm txn_date)).
    reflexivity.
  - eapply (get_ledger_empty order_stable no_date sample_float_of_decimal
              "acme_corp" None None _ (py_sorted_perm txn_date));
      [reflexivity|].
    intros t Ht. inversion Ht.
Defined.

(** A party whose transactions were entered out of date order: the third
    day first, then the first, then the second. *)
Lemma get_ledger_date_order_witness :
  StronglySorted (key_le l_date)
    (get_ledger order_reversing no_date sample_float_of_decimal "walk_in"
                None None unsorted_state).1.
Proof. apply get_ledger_date_order, order_reversing_orders. Defined.

Example get_ledger_unsorted_sample :
  txn_date <$> filter (λ t, party_id t = 2) (transactions unsorted_db)
  = [day3; day1; day2]
  ∧ l_date <$> (get_ledger order_reversing no_date sample_float_of_decimal
                           "walk_in" None None unsorted_state).1
    = [day1; day2; day3].
Proof. by vm_compute. Qed.

(** C6, as stated, fails: with two transactions of a party on one date, a
    store that is free in the order of ties may return the later id first,
    and the ledger keeps the store's order. *)
Lemma get_ledger_tie_order_counterexample :
  ¬ (∀ order, orders_by_txn_date order →
       ∀ party start end_ st,
         StronglySorted date_then_id
           (get_ledger order no_date sample_float_of_decimal party start end_
                       st).1).
Proof.
  intros H.
  specialize (H order_reversing order_reversing_orders "acme_corp" None None
                sample_state).
  remember (get_ledger _ _ _ _ _ _ _).1 as rows eqn:E.
  vm_compute in E. subst rows.
  apply StronglySorted_inv in H as [_ H].
  apply Forall_cons in H as [[H|[_ H]] _]; simpl in H; lia.
Qed.

(** The Cash account of the sample: a sale of 500.00, an expense of 200.00
    and a receipt of 100.00. *)
Lemma get_mode_report_running_balance_witness :
  ∃ r, last (get_mode_report order_stable sample_float_of_decimal
                             sample_lower "Cash" sample_state).1 = Some r
       ∧ m_balance r = (0 + 500 - 200 + 100)%float.
Proof.
  eexists. split; [reflexivity|].
  by apply (get_mode_report_running_balance order_stable
              sample_float_of_decimal sample_lower "Cash" sample_state
              (py_sorted_perm txn_date)).
Defined.

(** C4, as stated, fails: the balance is rounded at every row.  With a sale
    of 0.10, an expense of 0.30 and a sale of 0.20 on three days the sums
    of both sides are 0.30 and their difference is 0, while the report ends
    with the balance 2.7755575615628914e-17. *)
Lemma get_mode_report_sum_counterexample :
  ¬ (∀ order float_of_decimal lower mode st,
       (∀ l, order l ≡ₚ l) →
       ∀ r, last (get_mode_report order float_of_decimal lower mode st).1
            = Some r →
            m_balance r
            = float_of_decimal
                (total (λ t, is_inflow_type (txn_type t))
                       (mode_report_set lower mode (st_db st))
                 - total (λ t, negb (is_inflow_type (txn_type t)))
                         (mode_report_set lower mode (st_db st)))).
Proof.
  intros H.
  specialize (H order_stable sample_float_of_decimal sample_lower "Cash"
                rounding_state (py_sorted_perm txn_date)
                (ModeRow day3 "" "Walk In" "Sale" 0.2 0 0x1p-55) eq_refl).
  vm_compute in H. discriminate H.
Qed.

(** In the same store the floats of the two sums are equal, so their float
    difference is 0 as well. *)
Example get_mode_report_rounding_sample :
  m_balance <$> (get_mode_report order_stable sample_float_of_decimal
                                 sample_lower "Cash" rounding_state).1
  = [0.1; -0.19999999999999998; 0x1p-55]%float
  ∧ (sample_float_of_decimal
       (total (λ t, is_inflow_type (txn_type t))
              (mode_report_set sample_lower "Cash" rounding_db))
     - sample_float_of_decimal
         (total (λ t, negb (is_inflow_type (txn_type t)))
                (mode_report_set sample_lower "Cash" rounding_db)))%float
    = 0%float.
Proof. by vm_compute. Qed.

(** Whichever way the two sums are taken, they do not give that balance:
    summed as floats in row order they differ by 5.551115123125783e-17. *)
Example get_mode_report_float_sums_sample :
  ((0 + 0.1 + 0.2) - (0 + 0.3))%float = 0x1p-54%float.
Proof. by vm_compute. Qed.

(** ** Daily cash reconciliation *)

Lemma strongly_sorted_reverse {A} (R : relation A) (l : list A) :
  StronglySorted R l → StronglySorted (flip R) (reverse l).
Proof.
  induction 1 as [|x l Hl IH Hx]; [constructor|].
  rewrite reverse_cons.
  apply StronglySorted_app_2; [|exact IH|repeat constructor].
  intros a b Ha Hb. apply list_elem_of_singleton in Hb as ->.
  rewrite elem_of_reverse in Ha. rewrite Forall_forall in Hx.
  unfold flip. by apply Hx.
Qed.

Lemma py_dict_snoc {V} (l : list (Z * V)) (r : Z * V) :
  py_dict (l ++ [r]) = <[r.1 := r.2]> (py_dict l).
Proof. unfold py_dict. by rewrite foldl_snoc. Qed.

Lemma py_dict_lookup {V} (l : list (Z * V)) (k : Z) (v : V) :
  NoDup l.*1 → py_dict l !! k = Some v ↔ (k, v) ∈ l.
Proof.
  induction l as [|[k' v'] l IH] using rev_ind; intros Hnd.
  - unfold py_dict. simpl. rewrite lookup_empty. split; [done|].
    intros H. inversion H.
  - rewrite py_dict_snoc, elem_of_app, list_elem_of_singleton. simpl.
    rewrite fmap_app in Hnd. apply NoDup_app in Hnd as (Hnd & Hfresh & _).
    destruct (decide (k' = k)) as [->|Hne].
    + rewrite lookup_insert_eq. split.
      * intros [= ->]. by right.
      * intros [Hin|[= ->]]; [|done].
        exfalso. apply (Hfresh k); [|simpl; left].
        by apply (list_elem_of_fmap_2 fst _ (k, v)).
    + rewrite lookup_insert_ne by done. rewrite (IH Hnd). split.
      * by left.
      * intros [Hin|[= -> ->]]; [done|]. by destruct Hne.
Qed.

(** *** The active dates *)

Lemma between_spec s e d : between s e d ↔ s ≤ d ≤ e.
Proof.
  unfold between. rewrite andb_True, !bool_decide_spec. done.
Qed.

Lemma elem_of_active_dates db s e d :
  d ∈ active_dates db s e ↔ active_date db s e d.
Proof.
  unfold active_dates, active_date.
  rewrite elem_of_remove_dups, elem_of_app, list_elem_of_fmap.
  rewrite list_elem_of_filter, list_elem_of_fmap, between_spec. split.
  - intros [(t & -> & Ht)|[Hr ([d' c] & -> & Hc)]].
    + apply list_elem_of_filter in Ht as [Hb Ht].
      apply between_spec in Hb. split; [done|]. left. by exists t.
    + split; [done|]. right. apply elem_of_map_to_list in Hc. by exists c.
  - intros [Hr [(t & Ht & <-)|[c Hc]]].
    + left. exists t. split; [done|]. apply list_elem_of_filter.
      split; [by apply between_spec|done].
    + right. split; [done|]. exists (d, c). split; [done|].
      by apply elem_of_map_to_list.
Qed.

Lemma sorted_active_dates db s e :
  StronglySorted Z.lt (py_sorted id (active_dates db s e)).
Proof.
  assert (StronglySorted (key_lt id) (py_sorted id (active_dates db s e)))
    as Hs.
  { apply sorted_nodup_strict; [apply py_sorted_sorted|].
    rewrite list_fmap_id, py_sorted_perm. apply NoDup_remove_dups. }
  apply sorted_key_lt_fmap in Hs. by rewrite list_fmap_id in Hs.
Qed.

(** *** The recorded counts *)

Lemma cash_rows_nodup db s e : NoDup (cash_rows db s e).*1.
Proof.
  unfold cash_rows.
  eapply sublist_NoDup; [apply (NoDup_fst_map_to_list (daily_cash db))|].
  apply fmap_sublist, sublist_filter.
Qed.

Lemma elem_of_cash_rows db s e d c :
  (d, c) ∈ cash_rows db s e ↔ s ≤ d ≤ e ∧ daily_cash db !! d = Some c.
Proof.
  unfold cash_rows.
  by rewrite list_elem_of_filter, elem_of_map_to_list, between_spec.
Qed.

Section CashMap.

Variable float_of_decimal : Z → float.

Lemma cash_map_of_lookup db s e cash_map d :
  cash_map_of float_of_decimal (cash_rows db s e) = Some cash_map →
  cash_map !! d
  = if between s e d then float_of_decimal <$> recorded_count db d else None.
Proof.
  unfold cash_map_of. intros Hcm.
  apply fmap_Some in Hcm as (k & Hk & ->).
  apply mapM_Some in Hk.
  assert (k.*1 = (cash_rows db s e).*1) as Hfst.
  { clear -Hk. induction Hk as [|[d c] [d' c'] l k Hy _ IH]; [done|].
    destruct c; simpl in Hy; [|done]. simplify_eq.
    rewrite !fmap_cons. simpl. by rewrite IH. }
  assert (∀ d v, (d, v) ∈ k
                 ↔ ∃ c, v = float_of_decimal c
                        ∧ (d, Some c) ∈ cash_rows db s e) as Hin.
  { clear -Hk. intros d v.
    induction Hk as [|[d1 c1] [d2 c2] l k Hy _ IH].
    { split; [inversion 1|]. intros (c & _ & Hc). inversion Hc. }
    rewrite elem_of_cons, IH. simpl in Hy.
    destruct c1 as [c1|]; simpl in Hy; [|done]. simplify_eq.
    split.
    - intros [[= -> ->]|(c & -> & Hc)].
      + exists c1. split; [done|left].
      + exists c. split; [done|by right].
    - intros (c & -> & Hc). apply elem_of_cons in Hc as [[= -> ->]|Hc].
      + by left.
      + right. by exists c. }
  assert (NoDup (cash_rows db s e).*1) as Hnd by apply cash_rows_nodup.
  unfold recorded_count.
  destruct (py_dict k !! d) as [v|] eqn:Hv.
  - apply py_dict_lookup in Hv; [|by rewrite Hfst].
    apply Hin in Hv as (c & -> & Hc).
    apply elem_of_cash_rows in Hc as [Hr Hc].
    apply between_spec in Hr. destruct (between s e d); [|done].
    by rewrite Hc.
  - destruct (between s e d) eqn:Hb; [|done].
    assert (s ≤ d ≤ e) as Hr by (apply between_spec; by rewrite Hb).
    destruct (daily_cash db !! d) as [[c|]|] eqn:Hc; simpl; [|done..].
    assert (py_dict k !! d = Some (float_of_decimal c)) as Hsome.
    { apply py_dict_lookup; [by rewrite Hfst|]. apply Hin. exists c.
      split; [done|]. by apply elem_of_cash_rows. }
    by rewrite Hsome in Hv.
Qed.

Lemma cash_map_of_is_Some db s e :
  map_Forall (λ d c, between s e d → is_Some c) (daily_cash db) →
  is_Some (cash_map_of float_of_decimal (cash_rows db s e)).
Proof.
  intros Hall. unfold cash_map_of. apply fmap_is_Some, mapM_is_Some.
  apply Forall_forall. intros [d c] Hdc.
  apply elem_of_cash_rows in Hdc as [Hr Hc]. simpl.
  apply fmap_is_Some, fmap_is_Some. apply (Hall d c Hc).
  by apply between_spec.
Qed.

End CashMap.

(** *** The loop over the dates *)

Section SummaryLoop.
Context (agg_map : gmap Z agg) (cash_map : gmap Z float) (seed : float).

Local Abbreviation loop := (summary_loop agg_map cash_map seed).

Lemma summary_loop_dates idx dates pc pcl :
  date <$> loop idx dates pc pcl = dates.
Proof.
  revert idx pc pcl.
  induction dates as [|d dates IH]; intros idx pc pcl; simpl; [done|].
  destruct (cash_map !! d); simpl; by rewrite IH.
Qed.

Lemma summary_loop_row idx dates pc pcl r :
  r ∈ loop idx dates pc pcl →
  cash_needed r = (opening_cash r + cash_in r - cash_expense r)%float
  ∧ cash_in_hand r = cash_map !! date r
  ∧ match cash_map !! date r with
    | Some c => closing_cash r = c
                ∧ cash_short_excess r = (c - cash_needed r)%float
    | None => closing_cash r = cash_needed r
              ∧ cash_short_excess r = 0%float
    end.
Proof.
  revert idx pc pcl.
  induction dates as [|d dates IH]; intros idx pc pcl Hr; [inversion Hr|].
  simpl in Hr. destruct (cash_map !! d) as [c|] eqn:Hc;
    apply elem_of_cons in Hr as [->|Hr]; simpl; rewrite ?Hc; eauto.
Qed.

Lemma summary_loop_head dates pc pcl r :
  head (loop 0 dates pc pcl) = Some r → opening_cash r = seed.
Proof.
  destruct dates as [|d dates]; [done|]. simpl.
  destruct (cash_map !! d); by intros [= <-].
Qed.

Lemma summary_loop_carry idx dates pc pcl j p r :
  loop idx dates pc pcl !! j = Some p →
  loop idx dates pc pcl !! S j = Some r →
  opening_cash r = match cash_in_hand p with
                   | Some c => c
                   | None => cash_needed p
                   end.
Proof.
  revert idx pc pcl j.
  induction dates as [|d dates IH]; intros idx pc pcl j Hp Hr; [done|].
  destruct j as [|j].
  - destruct dates as [|d' dates]; simpl in Hp, Hr.
    + by destruct (cash_map !! d).
    + destruct (cash_map !! d) as [c|]; destruct (cash_map !! d');
        simpl in Hp, Hr; injection Hp as <-; injection Hr as <-; done.
  - simpl in Hp, Hr. destruct (cash_map !! d); simpl in Hp, Hr; by eapply IH.
Qed.

Lemma summary_loop_aggregates idx dates pc pcl r :
  r ∈ loop idx dates pc pcl →
  cash_in r = agg_get agg_map (date r) agg_cash_in
  ∧ cash_expense r = agg_get agg_map (date r) agg_cash_expense
  ∧ bank r = agg_get agg_map (date r) agg_bank
  ∧ total_sales r = agg_get agg_map (date r) agg_total_sales
  ∧ credit_sale r
    = (agg_get agg_map (date r) agg_credit_sales
       - agg_get agg_map (date r) agg_credit_receipts)%float.
Proof.
  revert idx pc pcl.
  induction dates as [|d dates IH]; intros idx pc pcl Hr; [inversion Hr|].
  simpl in Hr. destruct (cash_map !! d);
    apply elem_of_cons in Hr as [->|Hr]; simpl; eauto.
Qed.

End SummaryLoop.

(** *** The report after a cache miss *)

Section DailySummary.
Context (float_of_decimal : Z → float).
Context (db : database) (s e : Z) (cash_map : gmap Z float).
Hypothesis cash_map_ok :
  cash_map_of float_of_decimal (cash_rows db s e) = Some cash_map.

Local Abbreviation ascending :=
  (summary_ascending float_of_decimal db s e cash_map).

Lemma daily_summary_returns :
  daily_summary float_of_decimal db s e = Returns (reverse ascending).
Proof using cash_map_ok.
  unfold daily_summary. rewrite cash_map_ok.
  destruct (py_sorted id (active_dates db s e)) as [|d dates] eqn:Hd.
  { unfold summary_ascending. by rewrite Hd. }
  f_equal. apply py_sorted_reverse_ascending, sorted_key_lt_fmap.
  unfold summary_ascending. rewrite summary_loop_dates.
  apply sorted_active_dates.
Qed.

Lemma ascending_dates :
  date <$> ascending = py_sorted id (active_dates db s e).
Proof. apply summary_loop_dates. Qed.

Lemma ascending_count r :
  r ∈ ascending →
  cash_in_hand r = float_of_decimal <$> recorded_count db (date r).
Proof using cash_map_ok.
  intros Hr. unfold summary_ascending in Hr.
  destruct (summary_loop_row _ _ _ _ _ _ _ _ Hr) as (_ & -> & _).
  rewrite (cash_map_of_lookup _ _ _ _ _ _ cash_map_ok).
  assert (date r ∈ active_dates db s e) as Hd.
  { rewrite <-(py_sorted_perm id), <-ascending_dates.
    by apply list_elem_of_fmap_2. }
  apply elem_of_active_dates in Hd as [Hd _].
  apply between_spec in Hd. by destruct (between s e (date r)).
Qed.

Lemma reverse_adjacent {A} (l : list A) i x y :
  reverse l !! i = Some x → reverse l !! S i = Some y →
  ∃ j, l !! j = Some y ∧ l !! S j = Some x.
Proof.
  intros Hx Hy.
  apply reverse_lookup_Some in Hx as [Hx Hi].
  apply reverse_lookup_Some in Hy as [Hy Hsi].
  exists (length l - S (S i))%nat. split; [done|].
  by replace (S (length l - S (S i)))%nat with (length l - S i)%nat by lia.
Qed.

End DailySummary.

(** *** The balance before the range *)

Lemma top1_desc_None {V} (rows : list (Z * V)) :
  top1_desc rows = None ↔ rows = [].
Proof.
  destruct rows as [|r rows]; [done|]. simpl.
  destruct (top1_desc rows); [case_bool_decide|]; done.
Qed.

Lemma top1_desc_Some {V} (rows : list (Z * V)) (r : Z * V) :
  top1_desc rows = Some r → r ∈ rows ∧ ∀ r', r' ∈ rows → r'.1 ≤ r.1.
Proof.
  revert r. induction rows as [|x rows IH]; intros r Hr; [done|].
  simpl in Hr. destruct (top1_desc rows) as [y|] eqn:Hy.
  - destruct (IH y eq_refl) as [Hin Hmax]. case_bool_decide; simplify_eq.
    + split; [by right|]. intros r' [->|Hr']%elem_of_cons; [lia|by apply Hmax].
    + split; [by left|]. intros r' [->|Hr']%elem_of_cons; [lia|].
      specialize (Hmax r' Hr'). lia.
  - apply top1_desc_None in Hy as ->. simplify_eq.
    split; [by left|]. intros r' [->|Hr']%elem_of_cons; [lia|inversion Hr'].
Qed.

(** The latest daily-cash row before a date. *)
Lemma latest_cash_before_Some db start d c :
  latest_cash_before db start = Some (d, c) ↔
  daily_cash db !! d = Some c ∧ d < start
  ∧ ∀ d', d' < start → is_Some (daily_cash db !! d') → d' ≤ d.
Proof.
  unfold latest_cash_before. split.
  - intros [Hin Hmax]%top1_desc_Some.
    apply list_elem_of_filter in Hin as [Hlt Hin].
    apply elem_of_map_to_list in Hin. split_and!; [done..|].
    intros d' Hd' [c' Hc']. apply (Hmax (d', c')).
    apply list_elem_of_filter. split; [done|]. by apply elem_of_map_to_list.
  - intros (Hc & Hlt & Hmax).
    destruct (top1_desc _) as [[d2 c2]|] eqn:Htop.
    + apply top1_desc_Some in Htop as [Hin Hmax2].
      assert ((d, c) ∈ filter (λ r : Z * option Z, r.1 < start)
                              (map_to_list (daily_cash db))) as Hdc.
      { apply list_elem_of_filter. split; [done|]. by apply elem_of_map_to_list. }
      specialize (Hmax2 _ Hdc). simpl in Hmax2.
      apply list_elem_of_filter in Hin as [Hlt2 Hin]. simpl in Hlt2.
      apply elem_of_map_to_list in Hin.
      assert (d2 = d) as -> by (specialize (Hmax d2 Hlt2 (mk_is_Some _ _ Hin)); lia).
      by simplify_eq.
    + apply top1_desc_None in Htop.
      assert ((d, c) ∈ filter (λ r : Z * option Z, r.1 < start)
                              (map_to_list (daily_cash db))) as Hdc.
      { apply list_elem_of_filter. split; [done|]. by apply elem_of_map_to_list. }
      rewrite Htop in Hdc. inversion Hdc.
Qed.

Lemma latest_cash_before_None db start :
  latest_cash_before db start = None ↔
  ∀ d, d < start → daily_cash db !! d = None.
Proof.
  unfold latest_cash_before. rewrite top1_desc_None. split.
  - intros Hnil d Hd. destruct (daily_cash db !! d) as [c|] eqn:Hc; [|done].
    assert ((d, c) ∈ filter (λ r : Z * option Z, r.1 < start)
                            (map_to_list (daily_cash db))) as Hdc.
    { apply list_elem_of_filter. split; [done|]. by apply elem_of_map_to_list. }
    rewrite Hnil in Hdc. inversion Hdc.
  - intros Hno. apply filter_none. intros [d c] Hin Hlt.
    apply elem_of_map_to_list in Hin. simpl in Hlt.
    by rewrite (Hno d Hlt) in Hin.
Qed.

Lemma total_filter (P : transaction → Prop) `{!∀ t, Decision (P t)}
    (c : transaction → bool) (l : list transaction) :
  total c (filter P l) = total (λ t, bool_decide (P t) && c t) l.
Proof.
  unfold total. f_equal. rewrite list_filter_filter.
  apply list_filter_iff. intros t.
  rewrite andb_True, bool_decide_spec. tauto.
Qed.

Lemma cash_in_cell_total (g : list transaction) :
  or_zero (cash_in_cell g)
  = total cash_inflow_case g + total credit_receipt_case g.
Proof.
  unfold cash_in_cell, sum_case. destruct g as [|t g]; [done|].
  cbn [sql_sum sql_add or_zero default]. by rewrite !sum_with_case.
Qed.

Lemma sum_case_total (c : transaction → bool) (g : list transaction) :
  or_zero (sum_case c g) = total c g.
Proof.
  unfold sum_case. rewrite or_zero_sql_sum. apply sum_with_case.
Qed.

Section BalanceBefore.

Variable float_of_decimal : Z → float.

(** [float(v or 0)] sees a NULL as the decimal 0. *)
Lemma float_or_zero_or_zero v :
  float_or_zero float_of_decimal v
  = float_or_zero float_of_decimal (Some (or_zero v)).
Proof. by destruct v. Qed.

(** The seed-derived balance, in the words of the code's second query. *)
Lemma seed_derived_balance db start seed :
  let sums := filter (λ t, txn_date t < start) (transactions db) in
  (seed + float_or_zero float_of_decimal (cash_in_cell sums)
   - float_or_zero float_of_decimal (sum_case cash_expense_case sums))%float
  = (seed
     + float_or_zero float_of_decimal
         (Some (total (λ t, bool_decide (txn_date t < start)
                            && cash_inflow_case t) (transactions db)
                + total (λ t, bool_decide (txn_date t < start)
                              && credit_receipt_case t) (transactions db))%Z)
     - float_or_zero float_of_decimal
         (Some (total (λ t, bool_decide (txn_date t < start)
                            && cash_expense_case t) (transactions db))))%float.
Proof.
  intros sums. rewrite <-!total_filter. fold sums.
  rewrite (float_or_zero_or_zero (cash_in_cell sums)).
  rewrite (float_or_zero_or_zero (sum_case _ sums)).
  by rewrite cash_in_cell_total, sum_case_total.
Qed.

(** C3, as the code has it.  The balance before the start of the range is
    the float of the count in the most recent daily-cash row dated strictly
    before the start, when that row holds a count.  When there is no row
    before the start, and also when the most recent one holds NULL, it is
    the opening seed plus the float of the Cash Sale/Receipt and Credit
    Receipt amounts, minus the float of the Cash Expense amounts, of the
    transactions dated strictly before the start; counts in older rows are
    not looked at. *)
Theorem get_opening_cash_before_date_spec db start seed :
  let before c :=
    total (λ t, bool_decide (txn_date t < start) && c t) (transactions db) in
  let derived :=
    (seed
     + float_or_zero float_of_decimal
         (Some (before cash_inflow_case + before credit_receipt_case)%Z)
     - float_or_zero float_of_decimal
         (Some (before cash_expense_case)))%float in
  let latest d :=
    d < start
    ∧ ∀ d', d' < start → is_Some (daily_cash db !! d') → d' ≤ d in
  (∀ d c,
     daily_cash db !! d = Some (Some c) → latest d →
     get_opening_cash_before_date float_of_decimal db start seed
     = float_of_decimal c)
  ∧ (∀ d,
       daily_cash db !! d = Some None → latest d →
       get_opening_cash_before_date float_of_decimal db start seed = derived)
  ∧ ((∀ d, d < start → daily_cash db !! d = None) →
     get_opening_cash_before_date float_of_decimal db start seed = derived).
Proof.
  intros before derived latest.
  unfold get_opening_cash_before_date. split_and!.
  - intros d c Hc [Hlt Hmax].
    assert (latest_cash_before db start = Some (d, Some c)) as ->; [|done].
    by apply latest_cash_before_Some.
  - intros d Hc [Hlt Hmax].
    assert (latest_cash_before db start = Some (d, None)) as ->.
    { by apply latest_cash_before_Some. }
    apply seed_derived_balance.
  - intros Hno. apply latest_cash_before_None in Hno as ->.
    apply seed_derived_balance.
Qed.

End BalanceBefore.

(** *** The cached endpoint *)

Lemma cache_get_db now key st : st_db (cache_get now key st).2 = st_db st.
Proof.
  unfold cache_get. destruct (report_cache st !! key) as [[ts data]|]; [|done].
  by case_bool_decide.
Qed.

(** The rows of one date among the rows of a range that holds the date. *)
Lemma total_of_date (c : transaction → bool) db s e d :
  s ≤ d ≤ e →
  total c (filter (λ t, txn_date t = d)
             (filter (λ t, between s e (txn_date t)) (transactions db)))
  = total (λ t, bool_decide (txn_date t = d) && c t) (transactions db).
Proof.
  intros Hd. rewrite !total_filter. unfold total. f_equal.
  apply list_filter_iff. intros t.
  rewrite !andb_True, !bool_decide_spec, between_spec.
  split; [tauto|]. intros [-> Hc]. tauto.
Qed.

Lemma fmap_fst_pair {A B} (g : A → B) (l : list A) :
  ((λ a, (a, g a)) <$> l).*1 = l.
Proof. induction l as [|a l IH]; [done|]. rewrite !fmap_cons. by f_equal. Qed.

Section DailyReportFacts.

Variable float_of_decimal : Z → float.
Variable strptime_ymd : string → option Z.

Local Abbreviation resolve_date_range := (resolve_date_range strptime_ymd).
Local Abbreviation get_daily_summary_report :=
  (get_daily_summary_report float_of_decimal strptime_ymd).
Local Abbreviation get_short_excess_report :=
  (get_short_excess_report float_of_decimal strptime_ymd).
Local Abbreviation daily_summary := (daily_summary float_of_decimal).

Lemma agg_rows_lookup db s e d :
  py_dict (agg_rows float_of_decimal db s e) !! d
  = if bool_decide
         (d ∈ txn_date <$> filter (λ t, between s e (txn_date t))
                                  (transactions db))
    then Some (agg_of_group float_of_decimal db
                 (filter (λ t, txn_date t = d)
                    (filter (λ t, between s e (txn_date t))
                            (transactions db))))
    else None.
Proof.
  unfold agg_rows. set (ts := filter _ (transactions db)).
  assert (NoDup ((λ d, (d, agg_of_group float_of_decimal db
                             (filter (λ t, txn_date t = d) ts)))
                   <$> remove_dups (txn_date <$> ts)).*1) as Hnd.
  { rewrite fmap_fst_pair. apply NoDup_remove_dups. }
  case_bool_decide as Hd.
  - apply py_dict_lookup; [done|].
    apply list_elem_of_fmap. exists d. split; [done|].
    by apply elem_of_remove_dups.
  - apply eq_None_not_Some. intros [v Hv].
    apply py_dict_lookup in Hv; [|done].
    apply list_elem_of_fmap in Hv as (d' & Heq & Hd').
    injection Heq as <- _. rewrite elem_of_remove_dups in Hd'.
    exact (Hd Hd').
Qed.

(** What the loop reads for a date of the range from the aggregate rows:
    the float of the sum over the transactions of that date. *)
Lemma agg_get_total db s e d (k : agg → float) (cell : list transaction → option Z)
    (c : list transaction → Z) :
  s ≤ d ≤ e →
  (∀ g, k (agg_of_group float_of_decimal db g)
        = float_or_zero float_of_decimal (cell g)) →
  (∀ g, or_zero (cell g) = c g) → c [] = 0 →
  agg_get (py_dict (agg_rows float_of_decimal db s e)) d k
  = float_or_zero float_of_decimal
      (Some (c (filter (λ t, txn_date t = d)
                  (filter (λ t, between s e (txn_date t))
                          (transactions db))))).
Proof.
  intros Hd Hk Hcell Hnil. unfold agg_get. rewrite agg_rows_lookup.
  case_bool_decide as Hin; simpl.
  - by rewrite Hk, float_or_zero_or_zero, Hcell.
  - replace (filter (λ t, txn_date t = d) _) with (@nil transaction).
    + by rewrite Hnil.
    + symmetry. apply filter_none. intros t Ht Hdt. apply Hin.
      apply list_elem_of_fmap. by exists t.
Qed.

(** The [cash_in] and [cash_expense] the loop reads for a date of the range
    are the floats of the sums over the transactions of that date. *)
Lemma agg_get_cash db s e d :
  s ≤ d ≤ e →
  agg_get (py_dict (agg_rows float_of_decimal db s e)) d agg_cash_in
  = float_or_zero float_of_decimal
      (Some (total (λ t, bool_decide (txn_date t = d) && cash_inflow_case t)
                   (transactions db)
             + total (λ t, bool_decide (txn_date t = d)
                           && credit_receipt_case t) (transactions db)))
  ∧ agg_get (py_dict (agg_rows float_of_decimal db s e)) d agg_cash_expense
    = float_or_zero float_of_decimal
        (Some (total (λ t, bool_decide (txn_date t = d)
                           && cash_expense_case t) (transactions db))).
Proof.
  intros Hd. split.
  - rewrite (agg_get_total db s e d agg_cash_in cash_in_cell
               (λ g, total cash_inflow_case g + total credit_receipt_case g));
      [|done|done|apply cash_in_cell_total|done].
    by rewrite !(total_of_date _ db s e d Hd).
  - rewrite (agg_get_total db s e d agg_cash_expense
               (sum_case cash_expense_case) (total cash_expense_case));
      [|done|done|apply sum_case_total|done].
    by rewrite !(total_of_date _ db s e d Hd).
Qed.

(** Every row of the report computed for a range is the row of an active
    date, and carries the cash in and the cash expense of that date. *)
Lemma daily_summary_row_cash db s e rows r :
  daily_summary db s e = Returns rows → r ∈ rows →
  s ≤ date r ≤ e
  ∧ cash_in r
    = float_or_zero float_of_decimal
        (Some (total (λ t, bool_decide (txn_date t = date r)
                           && cash_inflow_case t) (transactions db)
               + total (λ t, bool_decide (txn_date t = date r)
                             && credit_receipt_case t) (transactions db)))
  ∧ cash_expense r
    = float_or_zero float_of_decimal
        (Some (total (λ t, bool_decide (txn_date t = date r)
                           && cash_expense_case t) (transactions db))).
Proof.
  intros Hrows Hr.
  destruct (cash_map_of float_of_decimal (cash_rows db s e))
    as [cash_map|] eqn:Hcm.
  - rewrite (daily_summary_returns _ _ _ _ _ Hcm) in Hrows.
    injection Hrows as <-. rewrite elem_of_reverse in Hr.
    assert (s ≤ date r ≤ e) as Hd.
    { assert (date r ∈ active_dates db s e) as Hin.
      { rewrite <-(py_sorted_perm id),
          <-(ascending_dates float_of_decimal db s e cash_map).
        by apply list_elem_of_fmap_2. }
      by apply elem_of_active_dates in Hin as [? _]. }
    split; [done|].
    unfold summary_ascending in Hr.
    destruct (summary_loop_aggregates _ _ _ _ _ _ _ _ Hr) as (-> & -> & _).
    by apply agg_get_cash.
  - unfold daily_summary in Hrows. rewrite Hcm in Hrows.
    destruct (py_sorted id (active_dates db s e)); [|done].
    injection Hrows as <-. inversion Hr.
Qed.

(** On a cache miss the endpoint returns what the computation gives. *)
Lemma get_daily_summary_report_miss t_get t_set today start end_ days st s e :
  resolve_date_range today start end_ days = Returns (s, e) →
  (cache_get t_get (daily_summary_key s e st) st).1 = None →
  (get_daily_summary_report t_get t_set today start end_ days st).1
  = daily_summary (st_db st) s e.
Proof.
  intros Hrange Hmiss. unfold_get_daily_summary_report. rewrite Hrange.
  pose proof (cache_get_db t_get (daily_summary_key s e st) st) as Hdb.
  destruct (cache_get _ _ _) as [[cached|] st']; simpl in *; [done|].
  rewrite Hdb. by destruct (daily_summary _ _ _).
Qed.

(** C1.  When the range resolves to [s .. e], on a cache miss and with no
    NULL count in the range, the report has one row per active date, most
    recent first; the opening cash of each row with an earlier row is the
    float of the count recorded for the previous active date when there is
    one, else that date's opening cash plus cash in minus cash expense; the
    opening cash of the earliest date is the balance before the start of
    the range. *)
Theorem daily_summary_carry_forward t_get t_set today start end_ days st
    s e :
  let db := st_db st in
  resolve_date_range today start end_ days = Returns (s, e) →
  (cache_get t_get (daily_summary_key s e st) st).1 = None →
  map_Forall (λ d c, between s e d → is_Some c) (daily_cash db) →
  ∃ rows,
    (get_daily_summary_report t_get t_set today start end_ days st).1
    = Returns rows
    ∧ StronglySorted (flip (key_lt date)) rows
    ∧ (∀ d, d ∈ date <$> rows ↔ active_date db s e d)
    ∧ (∀ i r p,
         rows !! i = Some r → rows !! S i = Some p →
         opening_cash r
         = match recorded_count db (date p) with
           | Some c => float_of_decimal c
           | None => (opening_cash p + cash_in p - cash_expense p)%float
           end)
    ∧ (∀ r, last rows = Some r →
         opening_cash r
         = get_opening_cash_before_date float_of_decimal db s
             (get_setting "opening_cash_seed" 0%float db)).
Proof.
  intros db Hrange Hmiss Hnull.
  destruct (cash_map_of_is_Some float_of_decimal db s e Hnull)
    as [cash_map Hcm].
  exists (reverse (summary_ascending float_of_decimal db s e cash_map)).
  split_and!.
  - rewrite (get_daily_summary_report_miss _ _ _ _ _ _ _ s e) by done.
    by apply daily_summary_returns.
  - apply strongly_sorted_reverse, sorted_key_lt_fmap.
    rewrite ascending_dates. apply sorted_active_dates.
  - intros d. rewrite fmap_reverse, elem_of_reverse, ascending_dates.
    rewrite py_sorted_perm. apply elem_of_active_dates.
  - intros i r p Hr Hp.
    destruct (reverse_adjacent _ _ _ _ Hr Hp) as (j & Hjp & Hjr).
    unfold summary_ascending in Hjp, Hjr.
    rewrite (summary_loop_carry _ _ _ _ _ _ _ _ _ _ Hjp Hjr).
    assert (p ∈ summary_ascending float_of_decimal db s e cash_map) as Hin
      by (by eapply list_elem_of_lookup_2).
    rewrite (ascending_count _ _ _ _ _ Hcm _ Hin).
    destruct (summary_loop_row _ _ _ _ _ _ _ _ Hin) as (-> & _).
    by destruct (recorded_count db (date p)).
  - intros r Hr. rewrite last_reverse in Hr.
    pose proof Hr as Hseed. unfold summary_ascending in Hseed.
    apply summary_loop_head in Hseed as ->.
    unfold opening_cash_seed_effective.
    destruct (py_sorted id (active_dates db s e)) eqn:Hd; [|done].
    unfold summary_ascending in Hr. by rewrite Hd in Hr.
Qed.

(** C2.  When the range resolves to [s .. e], on a cache miss and with no
    NULL count in the range, the report has exactly one row for each active
    date of the range, so one for each date with a count.  In every row
    cash_in and cash_expense are the floats of the date's cash taken in and
    cash expenses, and cash_needed = opening_cash + cash_in - cash_expense;
    when a count is recorded for the row's date, cash_in_hand and
    closing_cash are the float of the count and cash_short_excess is that
    float minus cash_needed; otherwise closing_cash is cash_needed and
    cash_short_excess is 0. *)
Theorem daily_summary_short_excess t_get t_set today start end_ days st
    s e :
  let db := st_db st in
  let on_date d c :=
    total (λ t, bool_decide (txn_date t = d) && c t) (transactions db) in
  resolve_date_range today start end_ days = Returns (s, e) →
  (cache_get t_get (daily_summary_key s e st) st).1 = None →
  map_Forall (λ d c, between s e d → is_Some c) (daily_cash db) →
  ∃ rows,
    (get_daily_summary_report t_get t_set today start end_ days st).1
    = Returns rows
    ∧ NoDup (date <$> rows)
    ∧ (∀ d, d ∈ date <$> rows ↔ active_date db s e d)
    ∧ ∀ r, r ∈ rows →
        cash_in r
        = float_or_zero float_of_decimal
            (Some (on_date (date r) cash_inflow_case
                   + on_date (date r) credit_receipt_case))
        ∧ cash_expense r
          = float_or_zero float_of_decimal
              (Some (on_date (date r) cash_expense_case))
        ∧ cash_needed r
          = (opening_cash r + cash_in r - cash_expense r)%float
        ∧ match recorded_count db (date r) with
          | Some c => cash_in_hand r = Some (float_of_decimal c)
                      ∧ closing_cash r = float_of_decimal c
                      ∧ cash_short_excess r
                        = (float_of_decimal c - cash_needed r)%float
          | None => cash_in_hand r = None
                    ∧ closing_cash r = cash_needed r
                    ∧ cash_short_excess r = 0%float
          end.
Proof.
  intros db on_date Hrange Hmiss Hnull.
  destruct (cash_map_of_is_Some float_of_decimal db s e Hnull)
    as [cash_map Hcm].
  exists (reverse (summary_ascending float_of_decimal db s e cash_map)).
  assert (daily_summary db s e
          = Returns (reverse (summary_ascending float_of_decimal db s e
                                cash_map))) as Hret
    by (by apply daily_summary_returns).
  split_and!.
  - by rewrite (get_daily_summary_report_miss _ _ _ _ _ _ _ s e).
  - rewrite fmap_reverse, ascending_dates, reverse_Permutation.
    rewrite py_sorted_perm. apply NoDup_remove_dups.
  - intros d. rewrite fmap_reverse, elem_of_reverse, ascending_dates.
    rewrite py_sorted_perm. apply elem_of_active_dates.
  - intros r Hr.
    destruct (daily_summary_row_cash db s e _ r Hret Hr) as (_ & Hin & Hex).
    rewrite elem_of_reverse in Hr.
    pose proof (ascending_count _ _ _ _ _ Hcm _ Hr) as Hcount.
    destruct (summary_loop_row _ _ _ _ _ _ _ _ Hr) as (Hneed & Hcih & Hrow).
    split_and!; [done..|]. rewrite <-Hcih, Hcount in Hrow.
    rewrite Hcount.
    by destruct (recorded_count db (date r)).
Qed.

(** C8.  For the same arguments in the same state, the short-excess report
    fails exactly when the daily report fails; otherwise it has one row
    per row of the daily report, in the same order, with the same date,
    opening_cash, cash_in, cash_expense, cash_needed, cash_in_hand and
    cash_short_excess, and both leave the same state. *)
Theorem get_short_excess_report_projection
    t_get t_set today start end_ days st :
  let daily := get_daily_summary_report t_get t_set today start end_ days st in
  let short := get_short_excess_report t_get t_set today start end_ days st in
  short.2 = daily.2
  ∧ (∀ exc, daily.1 = Raises exc ↔ short.1 = Raises exc)
  ∧ (∀ data, daily.1 = Returns data →
       ∃ rows, short.1 = Returns rows
         ∧ length rows = length data
         ∧ ∀ i row, data !! i = Some row →
             ∃ r, rows !! i = Some r
               ∧ se_date r = date row
               ∧ se_opening_cash r = opening_cash row
               ∧ se_cash_in r = cash_in row
               ∧ se_cash_expense r = cash_expense row
               ∧ se_cash_needed r = cash_needed row
               ∧ se_cash_in_hand r = cash_in_hand row
               ∧ se_cash_short_excess r = cash_short_excess row).
Proof.
  intros daily short. subst short. unfold_get_short_excess_report.
  fold daily. destruct daily as [[data|exc] st']; simpl; split_and!; try done.
  - intros data' [= <-]. exists (short_excess_of <$> data).
    split; [done|]. split; [by rewrite length_fmap|].
    intros i row Hrow. exists (short_excess_of row).
    by rewrite list_lookup_fmap, Hrow.
  - intros exc'. split; by intros [= <-].
Qed.

End DailyReportFacts.

(** *** The sample: seed 1000.00; day 1 a cash sale of 500.00 and a cash
    expense of 200.00; day 2 a cash receipt of 100.00 and a count of
    1350.00; day 3 nothing in cash. *)

Example daily_summary_sample :
  daily_summary sample_float_of_decimal sample_db day1 day3
  = Returns
      [ SummaryRow day3 1350 0 0 1350 1350 None 0 70 0 70;
        SummaryRow day2 1300 100 0 1400 1350 (Some 1350%float) (-50)
                   0 200 300;
        SummaryRow day1 1000 500 200 1300 1300 None 0 0 0 500 ].
Proof. vm_compute. reflexivity. Qed.

Lemma sample_counts_not_null :
  map_Forall (λ (d : Z) (c : option Z), between day1 day3 d → is_Some c)
             (daily_cash sample_db).
Proof.
  intros d c Hc _. unfold sample_db in Hc. simpl in Hc.
  apply lookup_singleton_Some in Hc as [_ <-]. done.
Qed.

Lemma daily_summary_carry_forward_witness :
  ∃ rows,
    (get_daily_summary_report sample_float_of_decimal no_date 0 1 day3
                              None None 3 sample_state).1
    = Returns rows
    ∧ opening_cash <$> rows = [1350; 1300; 1000]%float
    ∧ ∀ i r p,
        rows !! i = Some r → rows !! S i = Some p →
        opening_cash r
        = match recorded_count sample_db (date p) with
          | Some c => sample_float_of_decimal c
          | None => (opening_cash p + cash_in p - cash_expense p)%float
          end.
Proof.
  destruct (daily_summary_carry_forward sample_float_of_decimal no_date
              0 1 day3 None None 3 sample_state (day3 - 2) day3
              eq_refl eq_refl sample_counts_not_null)
    as (rows & Hrows & _ & _ & Hcarry & _).
  exists rows. split; [exact Hrows|]. split; [|exact Hcarry].
  vm_compute in Hrows. by injection Hrows as <-.
Defined.

(** The second day of the sample has a count: its row closes with it. *)
Lemma daily_summary_short_excess_witness :
  ∃ rows r,
    (get_daily_summary_report sample_float_of_decimal no_date 0 1 day3
                              None None 3 sample_state).1
    = Returns rows
    ∧ r ∈ rows ∧ date r = day2
    ∧ closing_cash r = 1350%float
    ∧ cash_short_excess r = (1350 - cash_needed r)%float.
Proof.
  destruct (daily_summary_short_excess sample_float_of_decimal no_date
              0 1 day3 None None 3 sample_state (day3 - 2) day3
              eq_refl eq_refl sample_counts_not_null)
    as (rows & Hrows & _ & Hdates & Hall).
  assert (day2 ∈ date <$> rows) as Hday.
  { apply Hdates. split; [unfold day2, day3; lia|]. right. by eexists. }
  apply list_elem_of_fmap in Hday as (r & Hdate & Hr).
  exists rows, r. split; [exact Hrows|]. split; [exact Hr|].
  split; [done|].
  destruct (Hall r Hr) as (_ & _ & _ & Hrow). rewrite <-Hdate in Hrow.
  exact (proj2 Hrow).
Defined.

(** The count of the second day stands before the third day; before the
    second day there is no row, and the balance is derived from the seed. *)
Lemma get_opening_cash_before_date_spec_witness :
  get_opening_cash_before_date sample_float_of_decimal sample_db day3 1000
  = 1350%float
  ∧ get_opening_cash_before_date sample_float_of_decimal sample_db day2 1000
    = (1000 + 500 - 200)%float.
Proof.
  destruct (get_opening_cash_before_date_spec sample_float_of_decimal
              sample_db day3 1000) as (Hcount & _ & _).
  destruct (get_opening_cash_before_date_spec sample_float_of_decimal
              sample_db day2 1000) as (_ & _ & Hseed).
  split.
  - apply (Hcount day2 135000); [reflexivity|]. split; [reflexivity|].
    intros d' _ [c Hc]. unfold sample_db in Hc. simpl in Hc.
    apply lookup_singleton_Some in Hc as [<- _]. reflexivity.
  - etrans; [apply Hseed|reflexivity].
    intros d Hd. unfold sample_db. simpl.
    apply lookup_singleton_ne. unfold day2 in *. lia.
Defined.

(** C3, as stated, fails: with a count of 500.00 on the first day and a row
    without a count on the second, the most recent count recorded before
    the third day is 500.00, but the balance comes from the seed. *)
Lemma get_opening_cash_before_date_counterexample :
  ¬ (∀ float_of_decimal db start seed d c,
       daily_cash db !! d = Some (Some c) → d < start →
       (∀ d' c', d' < start → daily_cash db !! d' = Some (Some c') →
                 d' ≤ d) →
       get_opening_cash_before_date float_of_decimal db start seed
       = float_of_decimal c).
Proof.
  intros H.
  specialize (H sample_float_of_decimal null_count_db day3 1000%float
                day1 50000).
  assert (get_opening_cash_before_date sample_float_of_decimal
            null_count_db day3 1000 = 500%float) as Hbal.
  { apply H; [reflexivity|reflexivity|].
    intros d' c' _ Hc. unfold null_count_db in Hc. simpl in Hc.
    apply lookup_insert_Some in Hc as [[<- _]|[_ Hc]]; [reflexivity|].
    by apply lookup_singleton_Some in Hc as [_ ?]. }
  vm_compute in Hbal. discriminate Hbal.
Qed.

Example get_opening_cash_before_date_null_sample :
  get_opening_cash_before_date sample_float_of_decimal null_count_db day3
                               1000
  = (1000 + 600 - 200)%float.
Proof. by vm_compute. Qed.

Lemma get_short_excess_report_projection_witness :
  ∃ rows,
    (get_short_excess_report sample_float_of_decimal no_date 0 1 day3
                             None None 3 sample_state).1
    = Returns rows
    ∧ se_cash_short_excess <$> rows = [0; -50; 0]%float.
Proof.
  destruct (get_short_excess_report_projection sample_float_of_decimal
              no_date 0 1 day3 None None 3 sample_state) as (_ & _ & Hproj).
  destruct (Hproj _ eq_refl) as (rows & Hrows & _ & _).
  exists rows. split; [exact Hrows|].
  vm_compute in Hrows. by injection Hrows as <-.
Defined.

(** ** The audit helper and the cache *)

Lemma log_audit_ok username action details company st :
  let st' := log_audit true username action details company st in
  report_cache st' = ∅
  ∧ audit_logs (st_db st')
    = audit_logs (st_db st)
      ++ [Audit username action details
            (str_or company (str_or (current_company st) "default"))]
  ∧ books (st_db st') = books (st_db st)
  ∧ users (st_db st') = users (st_db st).
Proof. done. Qed.

Lemma log_audit_failed username action details company st :
  log_audit false username action details company st = st.
Proof. done. Qed.

Section AuditFacts.

Variable sha256 : string → string.

Local Abbreviation login := (login sha256).
Local Abbreviation create_user := (create_user sha256).
Local Abbreviation change_user_password := (change_user_password sha256).


End AuditFacts.


(** ** Which operations use the report cache *)

Section CacheFacts.

Variable order_by_txn_date : list transaction → list transaction.
Variable sql_to_date : string → option Z.
Variable sql_to_decimal : string → option Z.
Variable py_str : Z → string.
Variable strptime_ymd : string → option Z.
Variable float_of_decimal : Z → float.
Variable lower : string → string.
Variable sql_decimal_of_float : float → option Z.
Variable nvarchar_fits : Z → string → bool.
Variable py_str_float : float → string.

Local Abbreviation get_ledger :=
  (get_ledger order_by_txn_date sql_to_date float_of_decimal).
Local Abbreviation get_mode_report :=
  (get_mode_report order_by_txn_date float_of_decimal lower).
Local Abbreviation get_type_report := (get_type_report order_by_txn_date).
Local Abbreviation resolve_date_range := (resolve_date_range strptime_ymd).
Local Abbreviation get_daily_summary_report :=
  (get_daily_summary_report float_of_decimal strptime_ymd).
Local Abbreviation get_short_excess_report :=
  (get_short_excess_report float_of_decimal strptime_ymd).
Local Abbreviation add_transaction :=
  (add_transaction sql_to_date lower sql_decimal_of_float nvarchar_fits).
Local Abbreviation edit_transaction :=
  (edit_transaction sql_to_date sql_to_decimal py_str nvarchar_fits).
Local Abbreviation delete_transaction := (delete_transaction py_str).
Local Abbreviation set_opening_cash := (set_opening_cash py_str_float).
Local Abbreviation set_cash_in_hand :=
  (set_cash_in_hand sql_to_date sql_decimal_of_float py_str_float).

Lemma log_audit_keeps_empty ok username action details company st :
  report_cache st = ∅ →
  report_cache (log_audit ok username action details company st) = ∅.
Proof. by destruct ok. Qed.

(** A returning call of the daily report leaves its payload in the cache
    under the key of the resolved range. *)
Lemma get_daily_summary_report_stores t_get t_set today start end_ days st
    rows st1 :
  get_daily_summary_report t_get t_set today start end_ days st
  = (Returns rows, st1) →
  ∃ s e ts,
    resolve_date_range today start end_ days = Returns (s, e)
    ∧ report_cache st1 !! daily_summary_key s e st = Some (ts, rows).
Proof.
  unfold_get_daily_summary_report.
  destruct (resolve_date_range _ _ _ _) as [[s e]|exc]; [|done].
  intros Hcall. exists s, e. revert Hcall.
  set (key := daily_summary_key s e st).
  unfold cache_get.
  destruct (report_cache st !! key) as [[ts data]|] eqn:Hkey.
  - case_bool_decide.
    + destruct (daily_summary _ _ _ _) as [summary|exc]; [|done].
      intros [= <- <-]. exists t_set. split; [done|]. simpl.
      apply lookup_insert_eq.
    + intros [= <- <-]. by exists ts.
  - destruct (daily_summary _ _ _ _) as [summary|exc]; [|done].
    intros [= <- <-]. exists t_set. split; [done|]. simpl.
    apply lookup_insert_eq.
Qed.

(** While an entry is within the TTL the daily report and the short-excess
    report answer with it and leave the state as it is. *)
Lemma get_daily_summary_report_hit t_get t_set today start end_ days st
    s e ts rows :
  resolve_date_range today start end_ days = Returns (s, e) →
  report_cache st !! daily_summary_key s e st = Some (ts, rows) →
  t_get - ts ≤ REPORT_CACHE_TTL_SEC →
  get_daily_summary_report t_get t_set today start end_ days st
  = (Returns rows, st)
  ∧ get_short_excess_report t_get t_set today start end_ days st
    = (Returns (short_excess_of <$> rows), st).
Proof.
  intros Hrange Hkey Hfresh.
  assert (get_daily_summary_report t_get t_set today start end_ days st
          = (Returns rows, st)) as Hdaily.
  { unfold_get_daily_summary_report. rewrite Hrange.
    unfold cache_get. rewrite Hkey.
    by rewrite bool_decide_eq_false_2 by lia. }
  split; [done|]. unfold_get_short_excess_report.
  by rewrite Hdaily.
Qed.

Lemma get_ledger_ignores_cache party start end_ :
  ignores_cache (get_ledger party start end_).
Proof.
  intros st. unfold_get_ledger. simpl.
  destruct (party_id_by_normalized_name _ _); [|done].
  destruct (date_clause _ start); [|done].
  by destruct (date_clause _ end_).
Qed.

(** C7, as the code has it.  Of the report operations only the daily cash
    reconciliation and the short-excess report use the report cache: a
    returning call leaves its payload under the key of the resolved range,
    and a call that finds an entry of its key not older than the TTL
    returns that payload without looking at the store.  The ledger,
    account, transaction-type, outstanding, trial-balance, profit-and-loss
    and dashboard reports neither read nor write the cache.  Adding,
    editing and deleting a transaction, recording a daily-cash count and
    setting the opening seed leave the cache empty when they succeed. *)
Theorem report_cache_scope :
  (∀ t_get t_set today start end_ days st rows st1,
     get_daily_summary_report t_get t_set today start end_ days st
     = (Returns rows, st1) →
     ∃ s e ts,
       resolve_date_range today start end_ days = Returns (s, e)
       ∧ report_cache st1 !! daily_summary_key s e st = Some (ts, rows))
  ∧ (∀ t_get t_set today start end_ days st s e ts rows,
       resolve_date_range today start end_ days = Returns (s, e) →
       report_cache st !! daily_summary_key s e st = Some (ts, rows) →
       t_get - ts ≤ REPORT_CACHE_TTL_SEC →
       get_daily_summary_report t_get t_set today start end_ days st
       = (Returns rows, st)
       ∧ get_short_excess_report t_get t_set today start end_ days st
         = (Returns (short_excess_of <$> rows), st))
  ∧ ((∀ party start end_, ignores_cache (get_ledger party start end_))
     ∧ (∀ mode, ignores_cache (get_mode_report mode))
     ∧ (∀ ty, ignores_cache (get_type_report ty))
     ∧ ignores_cache get_outstanding_report
     ∧ ignores_cache get_trial_balance
     ∧ ignores_cache get_pnl_report
     ∧ (∀ today, ignores_cache (get_dashboard_metrics today)))
  ∧ (∀ st,
       (∀ date_ bill party ttype mode amt,
          (add_transaction date_ bill party ttype mode amt st).1
          = Status "Transaction Added" →
          report_cache (add_transaction date_ bill party ttype mode amt st).2
          = ∅)
       ∧ (∀ audit_ok id admin_user field new_value,
            (edit_transaction audit_ok id admin_user field new_value st).1
            = Status "Updated Successfully" →
            report_cache
              (edit_transaction audit_ok id admin_user field new_value st).2
            = ∅)
       ∧ (∀ audit_ok id admin_user,
            (delete_transaction audit_ok id admin_user st).1
            = Status "Deleted Successfully" →
            report_cache (delete_transaction audit_ok id admin_user st).2
            = ∅)
       ∧ (∀ audit_ok date_ amt admin_user,
            (set_cash_in_hand audit_ok date_ amt admin_user st).1
            = Status "Saved" →
            report_cache (set_cash_in_hand audit_ok date_ amt admin_user st).2
            = ∅)
       ∧ (∀ audit_ok amt admin_user,
            report_cache (set_opening_cash audit_ok amt admin_user st).2
            = ∅)).
Proof.
  split; [exact get_daily_summary_report_stores|].
  split; [exact get_daily_summary_report_hit|].
  split.
  { split; [exact get_ledger_ignores_cache|]. by split_and!. }
  intros st. split_and!.
  - intros date_ bill party ttype mode amt.
    unfold_add_transaction.
    destruct (party_id_by_normalized_name _ _); [|done].
    destruct (sql_to_date date_); [|done].
    destruct (sql_decimal_of_float amt); [|done].
    by destruct (_ && _).
  - intros audit_ok id admin_user field new_value.
    unfold_edit_transaction.
    case_bool_decide; [done|].
    destruct (list_find _ _) as [[i t]|]; [|done].
    destruct (update_field _ _ _ _ _ _); [|done].
    intros _. by apply log_audit_keeps_empty.
  - intros audit_ok id admin_user. unfold_delete_transaction.
    destruct (list_find _ _) as [[i t]|]; [|done].
    intros _. by apply log_audit_keeps_empty.
  - intros audit_ok date_ amt admin_user.
    unfold_set_cash_in_hand.
    destruct (sql_to_date date_); [|done].
    destruct (sql_decimal_of_float amt); [|done].
    intros _. by apply log_audit_keeps_empty.
  - intros audit_ok amt admin_user. by apply log_audit_keeps_empty.
Qed.

End CacheFacts.

(** The daily report of the sample, asked twice within the TTL. *)
Lemma report_cache_scope_witness :
  ∃ rows st1,
    get_daily_summary_report sample_float_of_decimal no_date 0 1 day3
                             None None 3 sample_state
    = (Returns rows, st1)
    ∧ get_daily_summary_report sample_float_of_decimal no_date 301 302 day3
        None None 3 (set_db st1 (with_transactions sample_db [] 5))
      = (Returns rows, set_db st1 (with_transactions sample_db [] 5))
    ∧ length rows = 3%nat.
Proof.
  destruct (report_cache_scope order_stable no_date no_date sample_str
              no_date sample_float_of_decimal sample_lower
              sample_decimal_of_float sample_fits sample_str_float)
    as (_ & Hhit & _).
  eexists _, _. split; [reflexivity|]. split; [|reflexivity].
  apply (Hhit 301 302 day3 None None 3 _ (day3 - 2) day3 1);
    [reflexivity|reflexivity|].
  unfold REPORT_CACHE_TTL_SEC. lia.
Defined.

(** C7, as stated, fails: the account report stores nothing and a repeated
    call reads the store again. *)
Lemma report_cache_counterexample :
  ¬ (∀ mode,
       repeats_first_payload
         (get_mode_report order_stable sample_float_of_decimal sample_lower
                          mode)).
Proof.
  intros H.
  specialize (H "Cash" sample_state (with_transactions sample_db [] 5)).
  vm_compute in H. discriminate H.
Qed.

(** ** More samples *)

Example civil_of_ordinal_samples :
  civil_of_ordinal 1 = (1, 1, 1)
  ∧ civil_of_ordinal 738886 = (2024, 1, 1)
  ∧ civil_of_ordinal 738945 = (2024, 2, 29)
  ∧ civil_of_ordinal day1 = (2024, 4, 24).
Proof. by vm_compute. Qed.

Example get_ledger_sample :
  (get_ledger order_stable no_date sample_float_of_decimal "acme_corp"
              None None sample_state).1
  = [ LedgerRow 3 day2 "B2" "Receipt" "Cash" 100 (-100);
      LedgerRow 4 day2 "B3" "Sale" "Credit" 300 200 ].
Proof. by vm_compute. Qed.

Example get_ledger_sample_reversing :
  l_id <$> (get_ledger order_reversing no_date sample_float_of_decimal
                       "acme_corp" None None sample_state).1
  = [4; 3].
Proof. by vm_compute. Qed.

Example get_mode_report_sample :
  (get_mode_report order_stable sample_float_of_decimal sample_lower "BANK"
                   sample_state).1
  = [ ModeRow day3 "B4" "Walk In" "Sale" 70 0 70 ].
Proof. by vm_compute. Qed.

(** A NULL count in the range: [float(None)] leaves the function, and
    nothing is stored. *)
Example get_daily_summary_report_null_count :
  let st := set_db sample_state
              (with_daily_cash sample_db {[day2 := None]}) in
  let key := ("default", "daily_summary", day1, day3) in
  (get_daily_summary_report sample_float_of_decimal no_date 0 1 day3
                            None None 3 st).1
  = Raises "TypeError"
  ∧ report_cache (get_daily_summary_report sample_float_of_decimal no_date
                    0 1 day3 None None 3 st).2
    !! key = None.
Proof. by vm_compute. Qed.

(** A range with no active date gives the empty report, which is stored. *)
Example get_daily_summary_report_empty :
  let out := get_daily_summary_report sample_float_of_decimal no_date 0 1
               (day1 - 10) None None 3 sample_state in
  out.1 = Returns []
  ∧ report_cache out.2 !! ("default", "daily_summary", day1 - 12, day1 - 10)
    = Some (1, []).
Proof. by vm_compute. Qed.

(** A number of days that reaches back before the first date: the
    subtraction raises, and the endpoint stores nothing. *)
Example get_daily_summary_report_overflow :
  get_daily_summary_report sample_float_of_decimal no_date 0 1 day3
                           None None 800000 sample_state
  = (Raises "OverflowError", sample_state).
Proof. by vm_compute. Qed.

Example resolve_date_range_sample :
  resolve_date_range no_date day3 None None 30 = Returns (day3 - 29, day3)
  ∧ resolve_date_range no_date day3 None None (-4) = Returns (day3, day3)
  ∧ resolve_date_range no_date day3 None None 800000
    = Raises "OverflowError"
  ∧ resolve_date_range no_date day3 None None 1000000001
    = Raises "OverflowError"
  ∧ resolve_date_range (λ s, if bool_decide (s = "a") then Some day3
                           else Some day1)
                       day2 (Some "a") (Some "b") 30
    = Returns (day1, day3).
Proof. by vm_compute. Qed.

(** An expired entry is popped by the lookup. *)
Example cache_get_expired :
  let key := ("default", "daily_summary", day1, day3) in
  let st := cache_set 10 key [] sample_state in
  (cache_get 310 key st).1 = Some []
  ∧ report_cache (cache_get 310 key st).2 !! key = Some (10, [])
  ∧ (cache_get 311 key st).1 = None
  ∧ report_cache (cache_get 311 key st).2 !! key = None.
Proof. by vm_compute. Qed.

(** * Further properties *)

Ltac unfold_resolve_date_range := unfold resolve_date_range, date_minus_days.
Ltac unfold_get_transactions := unfold get_transactions.
Ltac unfold_get_mode_report := unfold get_mode_report.
Ltac unfold_get_type_report := unfold get_type_report.

(** ** The cache as a timed store *)

(** X1.  What [cache_set] stores, [cache_get] returns for the same key as
    long as the clock has not advanced more than the TTL; after that the
    lookup misses and removes the entry.  A lookup of another key sees what
    it saw before the store. *)
Theorem cache_set_get now now' key data st :
  (now' - now ≤ REPORT_CACHE_TTL_SEC →
   cache_get now' key (cache_set now key data st)
   = (Some data, cache_set now key data st))
  ∧ (now' - now > REPORT_CACHE_TTL_SEC →
     (cache_get now' key (cache_set now key data st)).1 = None
     ∧ report_cache (cache_get now' key (cache_set now key data st)).2 !! key
       = None)
  ∧ (∀ key', key' ≠ key →
       (cache_get now' key' (cache_set now key data st)).1
       = (cache_get now' key' st).1).
Proof.
  unfold cache_get, cache_set. simpl. split_and!.
  - intros Hfresh. rewrite lookup_insert_eq.
    by rewrite bool_decide_eq_false_2 by lia.
  - intros Hold. rewrite lookup_insert_eq.
    rewrite bool_decide_eq_true_2 by lia. simpl.
    split; [done|]. apply lookup_delete_eq.
  - intros key' Hne. rewrite lookup_insert_ne by done.
    destruct (report_cache st !! key') as [[ts d]|]; [|done].
    by case_bool_decide.
Qed.

Lemma cache_set_get_witness :
  let key := ("default", "daily_summary", day1, day3) in
  (cache_get 300 key (cache_set 0 key [] sample_state)).1 = Some []
  ∧ (cache_get 301 key (cache_set 0 key [] sample_state)).1 = None.
Proof.
  intros key.
  destruct (cache_set_get 0 300 key [] sample_state) as (Hhit & _ & _).
  destruct (cache_set_get 0 301 key [] sample_state) as (_ & Hmiss & _).
  split.
  - rewrite Hhit; [reflexivity|]. unfold REPORT_CACHE_TTL_SEC. lia.
  - apply Hmiss. unfold REPORT_CACHE_TTL_SEC. lia.
Defined.

(** ** The date range of a report *)

Section RangeFacts.

Variable strptime_ymd : string → option Z.

Local Abbreviation parse_date_str := (parse_date_str strptime_ymd).
Local Abbreviation resolve_date_range := (resolve_date_range strptime_ymd).

(** X2.  A range that [resolve_date_range] returns is never inverted.  When
    both arguments parse it is the two dates in order, so swapped arguments
    give the same range.  When the start does not parse, the range is the
    [max(days, 1)] days that end at the end date, provided that the number
    of days to go back is at most 999999999 and the start it gives is a date
    (an ordinal from 1 to 3652059); otherwise the call raises
    OverflowError. *)
Theorem resolve_date_range_ordered today start end_ days :
  (∀ s e, resolve_date_range today start end_ days = Returns (s, e) → s ≤ e)
  ∧ (∀ a b,
       parse_date_str start = Some a → parse_date_str end_ = Some b →
       resolve_date_range today start end_ days
       = Returns (Z.min a b, Z.max a b)
       ∧ resolve_date_range today end_ start days
         = resolve_date_range today start end_ days)
  ∧ (parse_date_str start = None →
     let end_date := default today (parse_date_str end_) in
     let back := Z.max days 1 - 1 in
     resolve_date_range today start end_ days
     = if bool_decide (back ≤ 999999999
                       ∧ 1 ≤ end_date - back ≤ 3652059)
       then Returns (end_date - back, end_date)
       else Raises "OverflowError").
Proof.
  unfold_resolve_date_range. split_and!.
  - intros s e.
    destruct (parse_date_str start) as [a|].
    + case_bool_decide; intros [= <- <-]; lia.
    + destruct (_ && _ && _); [|done].
      case_bool_decide; intros [= <- <-]; lia.
  - intros a b -> ->. simpl.
    repeat case_bool_decide; split; do 2 f_equal; lia.
  - intros ->. cbv zeta.
    set (end_date := default today (parse_date_str end_)).
    set (back := Z.max days 1 - 1).
    assert (Z.abs back = back) as -> by (unfold back; lia).
    destruct (decide (back ≤ 999999999 ∧ 1 ≤ end_date - back ≤ 3652059))
      as [Hok|Hbad].
    + rewrite (bool_decide_eq_true_2 (_ ∧ _)) by done.
      rewrite !bool_decide_eq_true_2 by lia. cbn [andb].
      rewrite bool_decide_eq_false_2 by (unfold back; lia). done.
    + rewrite (bool_decide_eq_false_2 (_ ∧ _)) by done.
      repeat case_bool_decide; try done. lia.
Qed.

End RangeFacts.

Lemma resolve_date_range_ordered_witness :
  let parse s := if bool_decide (s = "a") then Some day3 else Some day1 in
  resolve_date_range parse day2 (Some "a") (Some "b") 30
  = Returns (day1, day3)
  ∧ resolve_date_range parse day2 (Some "b") (Some "a") 30
    = Returns (day1, day3).
Proof.
  intros parse.
  destruct (resolve_date_range_ordered parse day2 (Some "a") (Some "b") 30)
    as (_ & Hboth & _).
  destruct (Hboth day3 day1 eq_refl eq_refl) as [Hr Hswap].
  split; [exact Hr|]. rewrite Hswap. exact Hr.
Defined.

Section RangeOverflow.

Variable float_of_decimal : Z → float.
Variable strptime_ymd : string → option Z.

Local Abbreviation parse_date_str := (parse_date_str strptime_ymd).

(** X4.  When the start of the range does not parse and going back
    [max(days, 1) - 1] days from the end date is more than 999999999 days
    or leaves the dates (the ordinals from 1 to 3652059), the daily report
    and the short-excess report raise OverflowError and leave the state,
    the cache included, as it was. *)
Theorem daily_report_range_overflow t_get t_set today start end_ days st :
  let end_date := default today (parse_date_str end_) in
  let back := Z.max days 1 - 1 in
  parse_date_str start = None →
  ¬ (back ≤ 999999999 ∧ 1 ≤ end_date - back ≤ 3652059) →
  get_daily_summary_report float_of_decimal strptime_ymd t_get t_set today
                           start end_ days st
  = (Raises "OverflowError", st)
  ∧ get_short_excess_report float_of_decimal strptime_ymd t_get t_set today
                            start end_ days st
    = (Raises "OverflowError", st).
Proof.
  intros end_date back Hstart Hbad.
  assert (resolve_date_range strptime_ymd today start end_ days
          = Raises "OverflowError") as Hrange.
  { unfold_resolve_date_range. rewrite Hstart. fold end_date back.
    assert (Z.abs back = back) as -> by (unfold back; lia).
    repeat case_bool_decide; try done. lia. }
  assert (get_daily_summary_report float_of_decimal strptime_ymd t_get t_set
            today start end_ days st = (Raises "OverflowError", st)) as Hdaily.
  { unfold_get_daily_summary_report. by rewrite Hrange. }
  split; [done|]. unfold_get_short_excess_report. by rewrite Hdaily.
Qed.

End RangeOverflow.

Lemma daily_report_range_overflow_witness :
  get_daily_summary_report sample_float_of_decimal no_date 0 1 day3
                           None None 800000 sample_state
  = (Raises "OverflowError", sample_state)
  ∧ get_short_excess_report sample_float_of_decimal no_date 0 1 day3
                            None None 800000 sample_state
    = (Raises "OverflowError", sample_state).
Proof.
  apply (daily_report_range_overflow sample_float_of_decimal no_date 0 1
           day3 None None 800000 sample_state); [reflexivity|].
  unfold day3, day2, day1. simpl. lia.
Defined.

(** ** The ledger and the transactions it is made of *)

Section LedgerFacts.

Variable order : list transaction → list transaction.
Variable sql_to_date : string → option Z.
Variable float_of_decimal : Z → float.
Hypothesis order_perm : ∀ l, order l ≡ₚ l.

Local Abbreviation get_ledger :=
  (get_ledger order sql_to_date float_of_decimal).

Lemma ledger_loop_fields b data :
  (λ r, (l_id r, l_date r, l_type r, l_mode r, l_amount r))
    <$> ledger_loop float_of_decimal b data
  = (λ t, (txn_id t, txn_date t, txn_type t, payment_mode t,
           float_of_decimal (amount t)))
      <$> data.
Proof.
  revert b. induction data as [|t data IH]; intros b; [done|].
  cbn [ledger_loop]. rewrite !fmap_cons. by rewrite IH.
Qed.

(** X3.  When the party exists and the bounds convert, the ledger has one
    row for each transaction of the party in the range and no other row,
    each with the id, date, type, mode and amount of its transaction. *)
Theorem get_ledger_rows party start end_ st pid s e :
  party_id_by_normalized_name (st_db st) party = Some pid →
  date_clause sql_to_date start = Some s →
  date_clause sql_to_date end_ = Some e →
  (λ r, (l_id r, l_date r, l_type r, l_mode r, l_amount r))
    <$> (get_ledger party start end_ st).1
  ≡ₚ (λ t, (txn_id t, txn_date t, txn_type t, payment_mode t,
            float_of_decimal (amount t)))
       <$> filter (λ t, ledger_where pid s e t) (transactions (st_db st)).
Proof using order_perm.
  intros Hp Hs He. unfold_get_ledger. rewrite Hp, Hs, He. simpl.
  rewrite ledger_loop_fields. by rewrite order_perm.
Qed.

End LedgerFacts.

Lemma get_ledger_rows_witness :
  l_id <$> (get_ledger order_reversing no_date sample_float_of_decimal
                       "acme_corp" None None sample_state).1
  ≡ₚ [3; 4].
Proof.
  pose proof (get_ledger_rows order_reversing no_date
                sample_float_of_decimal (proj1 order_reversing_orders)
                "acme_corp" None None sample_state 1 None None
                eq_refl eq_refl eq_refl) as H.
  apply (fmap_Permutation
           (λ x : Z * Z * string * string * float, x.1.1.1.1)) in H.
  rewrite <-!list_fmap_compose in H. exact H.
Defined.

(** ** Mutations seen through the ledger *)

Lemma ledger_where_unbounded pid t :
  ledger_where pid None None t = bool_decide (party_id t = pid).
Proof. unfold ledger_where. simpl. by rewrite !andb_true_r. Qed.

Lemma log_audit_transactions ok username action details company st :
  transactions (st_db (log_audit ok username action details company st))
  = transactions (st_db st)
  ∧ parties (st_db (log_audit ok username action details company st))
    = parties (st_db st).
Proof. by destruct ok. Qed.

Section MutationFacts.

Variable order : list transaction → list transaction.
Variable sql_to_date : string → option Z.
Variable sql_to_decimal : string → option Z.
Variable py_str : Z → string.
Variable float_of_decimal : Z → float.
Variable lower : string → string.
Variable sql_decimal_of_float : float → option Z.
Variable nvarchar_fits : Z → string → bool.
Hypothesis order_perm : ∀ l, order l ≡ₚ l.

Local Abbreviation get_ledger :=
  (get_ledger order sql_to_date float_of_decimal).
Local Abbreviation add_transaction :=
  (add_transaction sql_to_date lower sql_decimal_of_float nvarchar_fits).
Local Abbreviation update_field :=
  (update_field sql_to_date sql_to_decimal nvarchar_fits).
Local Abbreviation edit_transaction :=
  (edit_transaction sql_to_date sql_to_decimal py_str nvarchar_fits).
Local Abbreviation delete_transaction := (delete_transaction py_str).

(** X5.  [add_transaction] reports success exactly when a party has the
    normalized name and the store accepts the row: it converts the date,
    the amount fits the DECIMAL(18,2) column, and the bill number, the type
    and the mode fit their text columns.  Otherwise it reports an error and
    changes nothing, the cache included; for an unknown party the error is
    the 404 "Party not found". *)
Theorem add_transaction_outcome date_ bill party ttype mode amt st :
  let out := add_transaction date_ bill party ttype mode amt st in
  let found :=
    is_Some (party_id_by_normalized_name (st_db st)
               (replace_spaces (lower party))) in
  (out.1 = Status "Transaction Added"
   ↔ found
     ∧ is_Some (sql_to_date date_)
     ∧ is_Some (sql_decimal_of_float amt)
     ∧ nvarchar_fits 255 bill ∧ nvarchar_fits 50 ttype
     ∧ nvarchar_fits 50 mode)
  ∧ (out.1 ≠ Status "Transaction Added" →
     out.2 = st ∧ ∃ e, out.1 = StatusError e)
  ∧ (¬ found → out.1 = StatusError (HTTPError 404 "Party not found")).
Proof.
  unfold_add_transaction. simpl.
  destruct (party_id_by_normalized_name _ _) as [pid|]; simpl.
  - destruct (sql_to_date date_) as [d|]; simpl.
    + destruct (sql_decimal_of_float amt) as [a|]; simpl.
      * destruct (nvarchar_fits 255 bill), (nvarchar_fits 50 ttype),
          (nvarchar_fits 50 mode); simpl;
          (split_and!;
           [split; [try done; intros _; split_and!; eauto
                   |try done; intros (_ & _ & _ & ? & ? & ?); done]
           |intros ?; try done; split; eauto
           |intros Hno; destruct Hno; eauto]).
      * split_and!.
        -- split; [done|]. by intros (_ & _ & [? ?] & _).
        -- intros _. split; eauto.
        -- intros Hno. destruct Hno. eauto.
    + split_and!.
      * split; [done|]. by intros (_ & [? ?] & _).
      * intros _. split; eauto.
      * intros Hno. destruct Hno. eauto.
  - split_and!.
    + split; [done|]. by intros ([? ?] & _).
    + intros _. split; eauto.
    + done.
Qed.

(** X6.  After a successful [add_transaction] the unbounded ledger of the
    party has its former rows and one more: a row with the new id, the
    converted date, the type and the mode of the request, and as amount the
    float of the decimal that the store made of the request's amount. *)
Theorem add_transaction_ledger date_ bill party ttype mode amt st st' :
  add_transaction date_ bill party ttype mode amt st
  = (Status "Transaction Added", st') →
  let name := replace_spaces (lower party) in
  let fields r := (l_id r, l_date r, l_type r, l_mode r, l_amount r) in
  ∃ d a,
    sql_to_date date_ = Some d
    ∧ sql_decimal_of_float amt = Some a
    ∧ fields <$> (get_ledger name None None st').1
      ≡ₚ (fields <$> (get_ledger name None None st).1)
         ++ [(txn_identity (st_db st) + 1, d, ttype, mode,
              float_of_decimal a)].
Proof using order_perm.
  unfold_add_transaction.
  destruct (party_id_by_normalized_name _ _) as [pid|] eqn:Hp; [|done].
  destruct (sql_to_date date_) as [d|]; [|done].
  destruct (sql_decimal_of_float amt) as [a|]; [|done].
  destruct (_ && _); [|done].
  intros Heq. injection Heq as <-.
  exists d, a. split; [done|]. split; [done|].
  set (st' := invalidate_report_cache _).
  assert (party_id_by_normalized_name (st_db st')
            (replace_spaces (lower party)) = Some pid) as Hp' by exact Hp.
  unfold_get_ledger. rewrite Hp, Hp'. cbn [date_clause fst].
  rewrite !ledger_loop_fields, !order_perm.
  change (transactions (st_db st'))
    with (transactions (st_db st)
          ++ [Txn (txn_identity (st_db st) + 1) d (Some bill) pid ttype mode
                  a]).
  rewrite filter_app, fmap_app.
  rewrite filter_cons_True, filter_nil
    by (rewrite ledger_where_unbounded; by apply bool_decide_pack).
  done.
Qed.

Lemma get_ledger_ids_known party start end_ st x :
  x ∈ l_id <$> (get_ledger party start end_ st).1 →
  x ∈ txn_id <$> transactions (st_db st).
Proof using order_perm.
  destruct (get_ledger_cases order sql_to_date float_of_decimal
              party start end_ st)
    as [->|(pid & s & e & _ & ->)]; [inversion 1|].
  rewrite ledger_loop_ids, order_perm.
  intros (t & -> & Ht)%list_elem_of_fmap.
  apply list_elem_of_filter in Ht as [_ Ht]. by apply list_elem_of_fmap_2.
Qed.

(** X7.  [delete_transaction] reports success exactly when a transaction has
    the id, and otherwise changes nothing; after the call no ledger, of any
    party and range, has a row with that id. *)
Theorem delete_transaction_ledger audit_ok id admin_user st :
  let out := delete_transaction audit_ok id admin_user st in
  (out.1 = Status "Deleted Successfully"
   ↔ id ∈ txn_id <$> transactions (st_db st))
  ∧ (out.1 ≠ Status "Deleted Successfully" → out.2 = st)
  ∧ (∀ party start end_,
       id ∉ l_id <$> (get_ledger party start end_ out.2).1).
Proof using order_perm.
  unfold_delete_transaction. simpl.
  destruct (list_find _ _) as [[i t]|] eqn:Hfind; simpl.
  - apply list_find_Some in Hfind as (Hi & Hid & _). split_and!.
    + split; [|done]. intros _. rewrite <-Hid.
      apply list_elem_of_fmap_2. by eapply list_elem_of_lookup_2.
    + done.
    + intros party start end_ Hin. apply get_ledger_ids_known in Hin.
      rewrite (proj1 (log_audit_transactions _ _ _ _ _ _)) in Hin. simpl in Hin.
      apply list_elem_of_fmap in Hin as (t' & -> & Ht').
      by apply list_elem_of_filter in Ht' as [Hne _].
  - apply list_find_None in Hfind. rewrite Forall_forall in Hfind.
    assert (id ∉ txn_id <$> transactions (st_db st)) as Hno.
    { intros (t' & -> & Ht')%list_elem_of_fmap. by apply (Hfind t'). }
    split_and!; [done..|].
    intros party start end_ Hin. by apply get_ledger_ids_known in Hin.
Qed.

Lemma update_field_keeps field new_value t t' :
  update_field field new_value t = Some t' →
  txn_id t' = txn_id t ∧ party_id t' = party_id t.
Proof.
  unfold update_field.
  repeat case_bool_decide;
    try (destruct (nvarchar_fits _ _); [|done]);
    try (intros [= <-]; done);
    intros (x & _ & ->)%fmap_Some; done.
Qed.

Lemma ledger_ids_by_party pid (l l' : list transaction) :
  (λ t, (txn_id t, party_id t)) <$> l = (λ t, (txn_id t, party_id t)) <$> l' →
  txn_id <$> filter (λ t, ledger_where pid None None t) l
  = txn_id <$> filter (λ t, ledger_where pid None None t) l'.
Proof.
  revert l'. induction l as [|t l IH]; intros [|t' l'] Heq; try done.
  rewrite !fmap_cons in Heq. injection Heq as Hid Hp Heq.
  rewrite !filter_cons, !ledger_where_unbounded, Hp.
  destruct (decide _); rewrite ?fmap_cons, ?Hid; [f_equal|]; by apply IH.
Qed.

(** X8.  [edit_transaction] changes nothing unless it reports success, and a
    successful edit keeps every transaction's id and party: each party's
    unbounded ledger shows the same transaction ids as before. *)
Theorem edit_transaction_keeps_party audit_ok id admin_user field new_value st :
  let out := edit_transaction audit_ok id admin_user field new_value st in
  (out.1 ≠ Status "Updated Successfully" → out.2 = st)
  ∧ (λ t, (txn_id t, party_id t)) <$> transactions (st_db out.2)
    = (λ t, (txn_id t, party_id t)) <$> transactions (st_db st)
  ∧ (∀ party,
       l_id <$> (get_ledger party None None out.2).1
       ≡ₚ l_id <$> (get_ledger party None None st).1).
Proof using order_perm.
  intros out.
  assert ((out.1 ≠ Status "Updated Successfully" → out.2 = st)
          ∧ (λ t, (txn_id t, party_id t)) <$> transactions (st_db out.2)
            = (λ t, (txn_id t, party_id t)) <$> transactions (st_db st)
          ∧ parties (st_db out.2) = parties (st_db st)) as (Hfail & Hkeep & Hpar).
  { subst out. unfold_edit_transaction. case_bool_decide; [done|].
    destruct (list_find _ _) as [[i t]|] eqn:Hfind; [|done].
    destruct (update_field _ _ _) as [t'|] eqn:Hupd; [|done].
    simpl. split; [done|].
    rewrite (proj1 (log_audit_transactions _ _ _ _ _ _)).
    rewrite (proj2 (log_audit_transactions _ _ _ _ _ _)). simpl.
    split; [|done].
    apply list_find_Some in Hfind as (Hi & _ & _).
    apply update_field_keeps in Hupd as [Hid Hp].
    rewrite list_fmap_insert, Hid, Hp. apply list_insert_id.
    by rewrite list_lookup_fmap, Hi. }
  split_and!; [done..|]. intros party. unfold_get_ledger.
  unfold party_id_by_normalized_name, party_by_id. rewrite Hpar.
  destruct (list_find _ _) as [[j p]|]; [|done]. simpl.
  rewrite !ledger_loop_ids, !order_perm.
  by rewrite (ledger_ids_by_party _ _ _ Hkeep).
Qed.

End MutationFacts.

Lemma add_transaction_outcome_witness :
  (add_transaction sample_to_date sample_lower sample_decimal_of_float
                   sample_fits "2024-04-25" "B9" "Acme Corp" "Sale" "Cash"
                   125 sample_state).1
  = Status "Transaction Added"
  ∧ (add_transaction sample_to_date sample_lower sample_decimal_of_float
                     sample_fits "2024-04-25" "B9" "Acme Corp" "Sale" "Cash"
                     0x1p+60 sample_state).2
    = sample_state.
Proof.
  split.
  - apply (add_transaction_outcome sample_to_date sample_lower
             sample_decimal_of_float sample_fits "2024-04-25" "B9"
             "Acme Corp" "Sale" "Cash" 125 sample_state).
    split_and!; try (eexists; reflexivity); by vm_compute.
  - apply (add_transaction_outcome sample_to_date sample_lower
             sample_decimal_of_float sample_fits "2024-04-25" "B9"
             "Acme Corp" "Sale" "Cash" 0x1p+60 sample_state).
    discriminate.
Defined.

Lemma add_transaction_ledger_witness :
  ∃ st',
    add_transaction sample_to_date sample_lower sample_decimal_of_float
                    sample_fits "2024-04-25" "B9" "Acme Corp" "Receipt"
                    "Cash" 125 sample_state
    = (Status "Transaction Added", st')
    ∧ l_amount <$> (get_ledger order_stable sample_to_date
                               sample_float_of_decimal "acme_corp" None None
                               st').1
      ≡ₚ [100; 300; 125]%float.
Proof.
  eexists. split; [reflexivity|].
  destruct (add_transaction_ledger order_stable sample_to_date
              sample_float_of_decimal sample_lower sample_decimal_of_float
              sample_fits (proj1 order_stable_orders) "2024-04-25" "B9"
              "Acme Corp" "Receipt" "Cash" 125 sample_state _ eq_refl)
    as (d & a & Hd & Ha & Hrows).
  injection Ha as <-.
  apply (fmap_Permutation
           (λ x : Z * Z * string * string * float, x.2)) in Hrows.
  rewrite fmap_app, <-!list_fmap_compose in Hrows. exact Hrows.
Defined.

Lemma delete_transaction_ledger_witness :
  4 ∉ l_id <$> (get_ledger order_stable sample_to_date sample_float_of_decimal
                  "acme_corp" None None
                  (delete_transaction sample_str true 4 "admin"
                                      sample_state).2).1.
Proof.
  apply (delete_transaction_ledger order_stable sample_to_date sample_str
           sample_float_of_decimal (proj1 order_stable_orders) true 4 "admin"
           sample_state).
Defined.

Lemma edit_transaction_keeps_party_witness :
  l_id <$> (get_ledger order_stable sample_to_date sample_float_of_decimal
              "acme_corp" None None
              (edit_transaction sample_to_date sample_to_decimal sample_str
                 sample_fits true 4 "admin" "amount" "125.00"
                 sample_state).2).1
  ≡ₚ [3; 4].
Proof.
  exact (proj2 (proj2 (edit_transaction_keeps_party order_stable
           sample_to_date sample_to_decimal sample_str
           sample_float_of_decimal sample_fits
           (proj1 order_stable_orders) true 4 "admin" "amount" "125.00"
           sample_state)) "acme_corp").
Defined.

(** ** Users *)

Lemma log_audit_users ok username action details company st :
  users (st_db (log_audit ok username action details company st))
  = users (st_db st).
Proof. by destruct ok. Qed.

Section UserFacts.

Variable sha256 : string → string.


(** X10.  A login with an unknown name, or with a password whose hash is not
    the stored one, is refused with status 401 and changes nothing: no audit
    row is written and the report cache is kept. *)
Theorem login_refused ok username password st :
  (∀ h role, users (st_db st) !! username = Some (h, role) →
             h ≠ sha256 password) →
  login sha256 ok username password st
  = (HTTPException 401 "Invalid Credentials", st).
Proof.
  intros Hbad. unfold login.
  destruct (users (st_db st) !! username) as [[h role]|] eqn:Hu; [|done].
  by rewrite bool_decide_eq_false_2 by (by apply (Hbad h role)).
Qed.

(** X11.  After [change_user_password] the user logs in with the new
    password and keeps the role; the old password is refused when its hash
    differs from the new one.  For an unknown user the call answers with an
    error status that carries the 404 "User not found", and nothing
    changes. *)
Theorem change_user_password_login ok1 ok2 username old_password new_password
    admin_user role st :
  (users (st_db st) !! username = Some (sha256 old_password, role) →
   let st' := (change_user_password sha256 ok1 username new_password
                                    admin_user st).2 in
   (login sha256 ok2 username new_password st').1 = LoginSuccess username role
   ∧ (sha256 old_password ≠ sha256 new_password →
      (login sha256 ok2 username old_password st').1
      = HTTPException 401 "Invalid Credentials"))
  ∧ (users (st_db st) !! username = None →
     change_user_password sha256 ok1 username new_password admin_user st
     = (StatusError (HTTPError 404 "User not found"), st)).
Proof.
  unfold change_user_password, login. split.
  - intros ->. simpl. rewrite !log_audit_users. simpl.
    rewrite lookup_insert_eq. split.
    + by rewrite bool_decide_eq_true_2.
    + intros Hne. by rewrite bool_decide_eq_false_2.
  - by intros ->.
Qed.

(** X12.  After [delete_user] of a name other than "admin" no password logs
    that user in, while every other user's row is as before; the name
    "admin" is refused with status 400 and nothing changes. *)
Theorem delete_user_login ok1 ok2 username password st :
  (username ≠ "admin" →
   let st' := (delete_user ok1 username st).2 in
   login sha256 ok2 username password st'
   = (HTTPException 401 "Invalid Credentials", st')
   ∧ ∀ other, other ≠ username →
       users (st_db st') !! other = users (st_db st) !! other)
  ∧ delete_user ok1 "admin" st
    = (HTTPException 400 "Cannot delete default admin", st).
Proof.
  unfold delete_user, login. split; [|done].
  intros Hne. rewrite bool_decide_eq_false_2 by done. simpl.
  rewrite !log_audit_users. simpl. rewrite lookup_delete_eq.
  split; [done|]. intros other Ho. by rewrite lookup_delete_ne.
Qed.

End UserFacts.


Lemma login_refused_witness :
  login sample_sha256 true "admin" "guess" sample_state
  = (HTTPException 401 "Invalid Credentials", sample_state).
Proof.
  apply login_refused. intros h role Hu.
  unfold sample_state, sample_db in Hu. simpl in Hu.
  apply lookup_singleton_Some in Hu as [_ Hu]. injection Hu as <- _.
  discriminate.
Defined.

Lemma change_user_password_login_witness :
  let st' := (change_user_password sample_sha256 true "admin" "fresh" "admin"
                                   sample_state).2 in
  (login sample_sha256 true "admin" "fresh" st').1
  = LoginSuccess "admin" "admin"
  ∧ (login sample_sha256 true "admin" "admin1020" st').1
    = HTTPException 401 "Invalid Credentials"
  ∧ change_user_password sample_sha256 true "clerk" "fresh" "admin"
                         sample_state
    = (StatusError (HTTPError 404 "User not found"), sample_state).
Proof.
  intros st'.
  destruct (change_user_password_login sample_sha256 true true "admin"
              "admin1020" "fresh" "admin" "admin" sample_state) as [H _].
  destruct (change_user_password_login sample_sha256 true true "clerk"
              "" "fresh" "admin" "" sample_state) as [_ Hunknown].
  destruct (H eq_refl) as [Hnew Hold]. split; [exact Hnew|].
  split; [apply Hold; discriminate|].
  apply Hunknown. reflexivity.
Defined.

Lemma delete_user_login_witness :
  (login sample_sha256 true "admin" "admin1020"
     (delete_user true "admin" sample_state).2).1
  = LoginSuccess "admin" "admin"
  ∧ (login sample_sha256 true "clerk" "pw"
       (delete_user true "clerk"
          (create_user sample_sha256 true "clerk" "pw" "accounts"
                       sample_state).2).2).1
    = HTTPException 401 "Invalid Credentials".
Proof.
  split.
  - rewrite (proj2 (delete_user_login sample_sha256 true true "admin" ""
                      sample_state)). reflexivity.
  - destruct (delete_user_login sample_sha256 true true "clerk" "pw"
                (create_user sample_sha256 true "clerk" "pw" "accounts"
                             sample_state).2) as [H _].
    destruct (H ltac:(discriminate)) as [Hl _]. by rewrite Hl.
Defined.

(** ** Settings and counts, and the report after a write *)

Lemma log_audit_daily_cash ok username action details company st :
  daily_cash (st_db (log_audit ok username action details company st))
  = daily_cash (st_db st)
  ∧ app_settings (st_db (log_audit ok username action details company st))
    = app_settings (st_db st).
Proof. by destruct ok. Qed.

Lemma log_audit_cache_empty ok username action details company st :
  report_cache st = ∅ →
  report_cache (log_audit ok username action details company st) = ∅.
Proof. by destruct ok. Qed.

Section WriteThenReport.

Variable sql_to_date : string → option Z.
Variable strptime_ymd : string → option Z.
Variable float_of_decimal : Z → float.
Variable lower : string → string.
Variable sql_decimal_of_float : float → option Z.
Variable nvarchar_fits : Z → string → bool.
Variable py_str_float : float → string.

Local Abbreviation resolve_date_range := (resolve_date_range strptime_ymd).
Local Abbreviation get_daily_summary_report :=
  (get_daily_summary_report float_of_decimal strptime_ymd).
Local Abbreviation daily_summary := (daily_summary float_of_decimal).
Local Abbreviation add_transaction :=
  (add_transaction sql_to_date lower sql_decimal_of_float nvarchar_fits).
Local Abbreviation set_opening_cash := (set_opening_cash py_str_float).
Local Abbreviation set_cash_in_hand :=
  (set_cash_in_hand sql_to_date sql_decimal_of_float py_str_float).

(** X13.  The amount [set_opening_cash] stores is the one [get_opening_cash]
    reads back, whatever the setting held before (no row, a NULL, or text
    that is no number) and whether or not the audit row is written; the
    transactions, the daily-cash counts and the other settings stay. *)
Theorem set_opening_cash_round_trip audit_ok amt admin_user st :
  let st' := (set_opening_cash audit_ok amt admin_user st).2 in
  (get_opening_cash st').1 = amt
  ∧ transactions (st_db st') = transactions (st_db st)
  ∧ daily_cash (st_db st') = daily_cash (st_db st)
  ∧ ∀ key, key ≠ "opening_cash_seed" →
      app_settings (st_db st') !! key = app_settings (st_db st) !! key.
Proof.
  unfold set_opening_cash, get_opening_cash, get_setting.
  destruct audit_ok; simpl; rewrite lookup_insert_eq;
    (split_and!; [done..|]); intros key Hk; by rewrite lookup_insert_ne.
Qed.

(** With an empty cache the endpoint computes the report from the store. *)
Lemma get_daily_summary_report_fresh t_get t_set today start end_ days st
    s e :
  resolve_date_range today start end_ days = Returns (s, e) →
  report_cache st = ∅ →
  (get_daily_summary_report t_get t_set today start end_ days st).1
  = daily_summary (st_db st) s e.
Proof.
  intros Hrange Hempty. apply get_daily_summary_report_miss; [done|].
  unfold cache_get. by rewrite Hempty, lookup_empty.
Qed.

(** The rows of a report that was computed: one per active date, each with
    the count recorded for its date. *)
Lemma daily_summary_rows_of db s e rows :
  daily_summary db s e = Returns rows →
  (∀ d, d ∈ date <$> rows ↔ active_date db s e d)
  ∧ ∀ r, r ∈ rows →
      cash_needed r = (opening_cash r + cash_in r - cash_expense r)%float
      ∧ cash_in_hand r = float_of_decimal <$> recorded_count db (date r)
      ∧ match recorded_count db (date r) with
        | Some c => closing_cash r = float_of_decimal c
                    ∧ cash_short_excess r
                      = (float_of_decimal c - cash_needed r)%float
        | None => closing_cash r = cash_needed r
                  ∧ cash_short_excess r = 0%float
        end.
Proof.
  intros Hrows.
  destruct (cash_map_of float_of_decimal (cash_rows db s e))
    as [cash_map|] eqn:Hcm.
  - rewrite (daily_summary_returns _ _ _ _ _ Hcm) in Hrows.
    injection Hrows as <-. split.
    + intros d. rewrite fmap_reverse, elem_of_reverse, ascending_dates.
      rewrite py_sorted_perm. apply elem_of_active_dates.
    + intros r Hr. rewrite elem_of_reverse in Hr.
      pose proof (ascending_count _ _ _ _ _ Hcm _ Hr) as Hcount.
      destruct (summary_loop_row _ _ _ _ _ _ _ _ Hr) as (Hneed & Hcih & Hrow).
      split_and!; [done..|]. rewrite <-Hcih, Hcount in Hrow.
      by destruct (recorded_count db (date r)).
  - unfold daily_summary in Hrows. rewrite Hcm in Hrows.
    destruct (py_sorted id (active_dates db s e)) eqn:Hd; [|done].
    injection Hrows as <-. split; [|inversion 1].
    intros d. split; [inversion 1|]. intros Ha.
    apply elem_of_active_dates in Ha.
    rewrite <-(py_sorted_perm id (active_dates db s e)), Hd in Ha.
    inversion Ha.
Qed.

(** X14.  After [set_cash_in_hand] has answered "Saved" for a date, the
    store holds for that date the decimal it made of the request's amount;
    the next daily report whose range holds the date is computed anew,
    whatever was cached before, and when it returns it has a row for the
    date with cash_in_hand and closing_cash equal to the float of that
    decimal and cash_short_excess equal to it minus cash_needed. *)
Theorem set_cash_in_hand_report audit_ok date_ amt admin_user st st'
    t_get t_set today start end_ days s e rows :
  set_cash_in_hand audit_ok date_ amt admin_user st = (Status "Saved", st') →
  resolve_date_range today start end_ days = Returns (s, e) →
  (get_daily_summary_report t_get t_set today start end_ days st').1
  = Returns rows →
  ∃ d c,
    sql_to_date date_ = Some d
    ∧ sql_decimal_of_float amt = Some c
    ∧ recorded_count (st_db st') d = Some c
    ∧ (s ≤ d ≤ e →
       ∃ r, r ∈ rows ∧ date r = d
            ∧ cash_in_hand r = Some (float_of_decimal c)
            ∧ closing_cash r = float_of_decimal c
            ∧ cash_short_excess r
              = (float_of_decimal c - cash_needed r)%float).
Proof.
  unfold_set_cash_in_hand.
  destruct (sql_to_date date_) as [d|]; [|done].
  destruct (sql_decimal_of_float amt) as [c|]; [|done].
  intros Hsaved Hrange Hrows. injection Hsaved as <-.
  exists d, c. split; [done|]. split; [done|].
  match type of Hrows with
  | context [log_audit ?ok ?u ?a ?dt ?co ?st0] =>
      set (st' := log_audit ok u a dt co st0) in *
  end.
  assert (report_cache st' = ∅ ∧
          daily_cash (st_db st') = <[d := Some c]> (daily_cash (st_db st)))
    as [Hempty Hcash].
  { subst st'. split.
    - by apply log_audit_cache_empty.
    - by rewrite (proj1 (log_audit_daily_cash _ _ _ _ _ _)). }
  assert (recorded_count (st_db st') d = Some c) as Hcount.
  { unfold recorded_count. by rewrite Hcash, lookup_insert_eq. }
  split; [done|]. intros Hd.
  rewrite (get_daily_summary_report_fresh _ _ _ _ _ _ _ s e) in Hrows by done.
  apply daily_summary_rows_of in Hrows as [Hdates Hfacts].
  assert (d ∈ date <$> rows) as (r & -> & Hr)%list_elem_of_fmap.
  { apply Hdates. split; [done|]. right.
    rewrite Hcash, lookup_insert_eq. by eexists. }
  exists r. destruct (Hfacts r Hr) as (_ & Hcih & Hrow).
  rewrite Hcount in Hcih, Hrow. by destruct Hrow.
Qed.

(** X18.  [set_cash_in_hand] answers "Saved" exactly when the store
    converts the date and the amount fits the DECIMAL(18,2) column;
    otherwise it answers with the error of the store and changes nothing.
    When it saves, the date holds the decimal the store made of the amount,
    the counts of the other dates, the transactions and the settings are
    as before, and the report cache is empty. *)
Theorem set_cash_in_hand_outcome audit_ok date_ amt admin_user st :
  let out := set_cash_in_hand audit_ok date_ amt admin_user st in
  (out.1 = Status "Saved"
   ↔ is_Some (sql_to_date date_) ∧ is_Some (sql_decimal_of_float amt))
  ∧ (out.1 ≠ Status "Saved" → out = (StatusError StoreError, st))
  ∧ (∀ d c,
       sql_to_date date_ = Some d → sql_decimal_of_float amt = Some c →
       daily_cash (st_db out.2) !! d = Some (Some c)
       ∧ (∀ d', d' ≠ d →
            daily_cash (st_db out.2) !! d' = daily_cash (st_db st) !! d')
       ∧ transactions (st_db out.2) = transactions (st_db st)
       ∧ app_settings (st_db out.2) = app_settings (st_db st)
       ∧ report_cache out.2 = ∅).
Proof.
  unfold_set_cash_in_hand.
  destruct (sql_to_date date_) as [d|]; simpl.
  - destruct (sql_decimal_of_float amt) as [c|]; simpl.
    + split_and!.
      * split; [eauto|done].
      * done.
      * intros d0 c0 [= <-] [= <-].
        rewrite (proj1 (log_audit_daily_cash _ _ _ _ _ _)).
        rewrite (proj2 (log_audit_daily_cash _ _ _ _ _ _)).
        rewrite (proj1 (log_audit_transactions _ _ _ _ _ _)). simpl.
        rewrite lookup_insert_eq. split_and!; [done| |done..|].
        -- intros d' Hd'. by rewrite lookup_insert_ne.
        -- by apply log_audit_cache_empty.
    + split_and!; [|done..]. split; [done|]. by intros [_ [? ?]].
  - split_and!; [|done..]. split; [done|]. by intros [[? ?] _].
Qed.

(** X15.  After a successful [add_transaction] the store holds one more
    transaction, with the converted date, the type and the mode of the
    request and the decimal the store made of its amount; the next daily
    report whose range resolves is computed from that store, whatever was
    cached before. *)
Theorem add_transaction_report date_ bill party ttype mode amt st st'
    t_get t_set today start end_ days s e :
  add_transaction date_ bill party ttype mode amt st
  = (Status "Transaction Added", st') →
  resolve_date_range today start end_ days = Returns (s, e) →
  ∃ t, transactions (st_db st') = transactions (st_db st) ++ [t]
       ∧ sql_to_date date_ = Some (txn_date t)
       ∧ txn_type t = ttype ∧ payment_mode t = mode
       ∧ sql_decimal_of_float amt = Some (amount t)
       ∧ (get_daily_summary_report t_get t_set today start end_ days st').1
         = daily_summary (st_db st') s e.
Proof.
  unfold_add_transaction.
  destruct (party_id_by_normalized_name _ _) as [pid|]; [|done].
  destruct (sql_to_date date_) as [d|]; [|done].
  destruct (sql_decimal_of_float amt) as [a|]; [|done].
  destruct (_ && _); [|done].
  intros Heq Hrange. injection Heq as <-. eexists. split; [reflexivity|].
  split_and!; try done. by apply get_daily_summary_report_fresh.
Qed.

End WriteThenReport.

Lemma set_opening_cash_round_trip_witness :
  (get_opening_cash
     (set_opening_cash sample_str_float false 250 "admin"
        (set_db sample_state
           (with_app_settings sample_db
              {["opening_cash_seed" := SText "n/a"]}))).2).1
  = 250%float.
Proof.
  apply (set_opening_cash_round_trip sample_str_float false 250 "admin").
Defined.

Lemma set_cash_in_hand_report_witness :
  ∃ r, r ∈ [ SummaryRow day3 1350 0 0 1350 1400 (Some 1400%float) 50
                        70 0 70;
             SummaryRow day2 1300 100 0 1400 1350 (Some 1350%float) (-50)
                        0 200 300;
             SummaryRow day1 1000 500 200 1300 1300 None 0 0 0 500 ]
       ∧ date r = day3 ∧ cash_in_hand r = Some 1400%float
       ∧ closing_cash r = 1400%float
       ∧ cash_short_excess r = (1400 - cash_needed r)%float.
Proof.
  destruct (set_cash_in_hand_report sample_to_date no_date
              sample_float_of_decimal sample_decimal_of_float
              sample_str_float true "2024-04-26" 1400 "admin" sample_state
              _ 0 1 day3 None None 3 (day3 - 2) day3
              [ SummaryRow day3 1350 0 0 1350 1400 (Some 1400%float) 50
                           70 0 70;
                SummaryRow day2 1300 100 0 1400 1350 (Some 1350%float) (-50)
                           0 200 300;
                SummaryRow day1 1000 500 200 1300 1300 None 0 0 0 500 ]
              eq_refl eq_refl)
    as (d & c & Hd & Hc & _ & Hrow).
  - vm_compute. reflexivity.
  - injection Hd as <-. injection Hc as <-.
    apply Hrow. unfold day3. lia.
Defined.

Lemma set_cash_in_hand_outcome_witness :
  let out := set_cash_in_hand sample_to_date sample_decimal_of_float
               sample_str_float true "2024-04-26" 1400 "admin"
               sample_state in
  daily_cash (st_db out.2) !! day3 = Some (Some 140000)
  ∧ daily_cash (st_db out.2) !! day2 = Some (Some 135000)
  ∧ set_cash_in_hand sample_to_date sample_decimal_of_float
      sample_str_float true "2024-04-26" 0x1p+60 "admin" sample_state
    = (StatusError StoreError, sample_state).
Proof.
  intros out.
  destruct (set_cash_in_hand_outcome sample_to_date sample_decimal_of_float
              sample_str_float true "2024-04-26" 1400 "admin" sample_state)
    as (_ & _ & Hsaved).
  destruct (Hsaved day3 140000 eq_refl eq_refl) as (Hd & Hother & _).
  split; [exact Hd|]. split.
  - etrans; [apply Hother; unfold day3, day2, day1; lia|reflexivity].
  - apply (set_cash_in_hand_outcome sample_to_date sample_decimal_of_float
             sample_str_float true "2024-04-26" 0x1p+60 "admin"
             sample_state).
    discriminate.
Defined.

Lemma add_transaction_report_witness :
  ∃ st',
    add_transaction sample_to_date sample_lower sample_decimal_of_float
                    sample_fits "2024-04-26" "B9" "Walk In" "Sale" "Cash"
                    125 sample_state
    = (Status "Transaction Added", st')
    ∧ (get_daily_summary_report sample_float_of_decimal no_date 0 1 day3
                                None None 3 st').1
      = daily_summary sample_float_of_decimal (st_db st') (day3 - 2) day3.
Proof.
  eexists. split; [reflexivity|].
  destruct (add_transaction_report sample_to_date no_date
              sample_float_of_decimal sample_lower sample_decimal_of_float
              sample_fits "2024-04-26" "B9" "Walk In" "Sale" "Cash" 125
              sample_state _ 0 1 day3 None None 3 (day3 - 2) day3
              eq_refl eq_refl) as (t & _ & _ & _ & _ & _ & Hreport).
  exact Hreport.
Defined.

(** ** Aggregate reports *)





Lemma trial_line_spec account bal :
  let '(_, debit, credit) := trial_line account bal in
  debit - credit = bal ∧ 0 ≤ debit ∧ 0 ≤ credit ∧ (debit = 0 ∨ credit = 0).
Proof. unfold trial_line. repeat case_bool_decide; lia. Qed.

(** X17.  The trial balance has seven lines.  For the Cash, Bank, UPI,
    Sundry Debtors and Sundry Creditors lines debit and credit are not
    negative and at most one is not 0.  The Cash and Bank lines net to the
    dashboard's cash and bank balances, and the Sales and Expense lines
    carry the sales and expenses of the profit and loss report, whose net
    profit is their difference. *)
Theorem trial_balance_agrees today st :
  let dash := (get_dashboard_metrics today st).1 in
  let pnl := (get_pnl_report st).1 in
  ∃ cd cc bd bc ud uc dd dc rd rc sales expenses,
    (get_trial_balance st).1
    = [ ("Cash Account", cd, cc); ("Bank Account", bd, bc);
        ("UPI Account", ud, uc); ("Sundry Debtors", dd, dc);
        ("Sundry Creditors", rd, rc); ("Sales Account", 0, sales);
        ("Expense Account", expenses, 0) ]
    ∧ Forall (λ l : Z * Z, 0 ≤ l.1 ∧ 0 ≤ l.2 ∧ (l.1 = 0 ∨ l.2 = 0))
             [ (cd, cc); (bd, bc); (ud, uc); (dd, dc); (rd, rc) ]
    ∧ cd - cc = cash_balance dash
    ∧ bd - bc = bank_balance dash
    ∧ pnl = (sales, expenses, sales - expenses).
Proof.
  intros dash pnl. unfold get_trial_balance. cbn [fst].
  set (db := st_db st).
  pose proof (trial_line_spec "Cash Account" (get_account_balance "Cash" db))
    as Hc.
  pose proof (trial_line_spec "Bank Account" (get_account_balance "Bank" db))
    as Hb.
  pose proof (trial_line_spec "UPI Account" (get_account_balance "UPI" db))
    as Hu.
  pose proof (trial_line_spec "Sundry Debtors" (signed_sum "Sale" db)) as Hd.
  pose proof (trial_line_spec "Sundry Creditors" (signed_sum "Purchase" db))
    as Hr.
  unfold trial_line in *.
  do 12 eexists. split; [reflexivity|]. split_and!.
  - repeat (apply Forall_cons; split; [simpl; tauto|]). constructor.
  - destruct Hc as [-> _]. reflexivity.
  - destruct Hb as [-> _]. reflexivity.
  - reflexivity.
Qed.

(** ** Sums of selections *)





(** ** The aggregates of a report row *)

Section RowAggregates.

Variable float_of_decimal : Z → float.
Variable strptime_ymd : string → option Z.

(** X19.  Every row of a computed report carries the sums of its own date,
    each made a float: cash_in is the Cash Sale and Receipt amounts plus
    the Credit-mode Receipt amounts, cash_expense the Cash Expense amounts,
    bank the Sale and Receipt amounts of the bank-class modes, total_sales
    the Sale amounts, and credit_sale the Sale amounts of Credit Customer
    parties or of Credit mode minus the Receipt amounts of Credit Customer
    parties. *)
Theorem daily_summary_row_aggregates t_get t_set today start end_ days st
    s e rows r :
  let db := st_db st in
  let on_date (c : transaction → bool) :=
    total (λ t, bool_decide (txn_date t = date r) && c t) (transactions db) in
  let credit_party t :=
    party_has db (party_id t)
              (λ p, bool_decide (p_type p = "Credit Customer")) in
  let float_of sum := float_or_zero float_of_decimal (Some sum) in
  resolve_date_range strptime_ymd today start end_ days = Returns (s, e) →
  (cache_get t_get (daily_summary_key s e st) st).1 = None →
  (get_daily_summary_report float_of_decimal strptime_ymd t_get t_set today
                            start end_ days st).1 = Returns rows →
  r ∈ rows →
  cash_in r
  = float_of (on_date cash_inflow_case + on_date credit_receipt_case)
  ∧ cash_expense r = float_of (on_date cash_expense_case)
  ∧ bank r = float_of (on_date (λ t, is_bank_class (payment_mode t)
                                     && is_inflow_type (txn_type t)))
  ∧ total_sales r = float_of (on_date (is_type "Sale"))
  ∧ credit_sale r
    = (float_of (on_date (λ t, is_type "Sale" t
                               && (credit_party t || is_mode "Credit" t)))
       - float_of (on_date (λ t, is_type "Receipt" t && credit_party t)))%float.
Proof.
  intros db on_date credit_party float_of Hrange Hmiss Hrows Hr.
  rewrite (get_daily_summary_report_miss _ _ _ _ _ _ _ _ _ s e) in Hrows
    by done.
  fold db in Hrows.
  destruct (daily_summary_row_cash _ db s e rows r Hrows Hr)
    as (Hd & Hin & Hexp).
  split; [exact Hin|]. split; [exact Hexp|].
  destruct (cash_map_of float_of_decimal (cash_rows db s e))
    as [cash_map|] eqn:Hcm.
  - rewrite (daily_summary_returns _ _ _ _ _ Hcm) in Hrows.
    injection Hrows as <-. rewrite elem_of_reverse in Hr.
    unfold summary_ascending in Hr.
    destruct (summary_loop_aggregates _ _ _ _ _ _ _ _ Hr)
      as (_ & _ & -> & -> & ->).
    unfold float_of, on_date.
    rewrite (agg_get_total float_of_decimal db s e (date r) agg_bank
               (sum_case (λ t, is_bank_class (payment_mode t)
                               && is_inflow_type (txn_type t)))
               (total (λ t, is_bank_class (payment_mode t)
                            && is_inflow_type (txn_type t))))
      by (done || (intros g; apply sum_case_total)).
    rewrite (agg_get_total float_of_decimal db s e (date r) agg_total_sales
               (sum_case (is_type "Sale")) (total (is_type "Sale")))
      by (done || (intros g; apply sum_case_total)).
    rewrite (agg_get_total float_of_decimal db s e (date r) agg_credit_sales
               (sum_case (λ t, is_type "Sale" t
                               && (credit_party t || is_mode "Credit" t)))
               (total (λ t, is_type "Sale" t
                            && (credit_party t || is_mode "Credit" t))))
      by (done || (intros g; apply sum_case_total)).
    rewrite (agg_get_total float_of_decimal db s e (date r)
               agg_credit_receipts
               (sum_case (λ t, is_type "Receipt" t && credit_party t))
               (total (λ t, is_type "Receipt" t && credit_party t)))
      by (done || (intros g; apply sum_case_total)).
    by rewrite !(total_of_date _ db s e (date r) Hd).
  - unfold daily_summary in Hrows. rewrite Hcm in Hrows.
    destruct (py_sorted id (active_dates db s e)); [|done].
    injection Hrows as <-. inversion Hr.
Qed.

End RowAggregates.

Lemma daily_summary_row_aggregates_witness :
  let r := SummaryRow day2 1300 100 0 1400 1350 (Some 1350%float) (-50)
                      0 200 300 in
  cash_in r = sample_float_of_decimal (10000 + 0)
  ∧ credit_sale r
    = (sample_float_of_decimal 30000 - sample_float_of_decimal 10000)%float.
Proof.
  intros r.
  destruct (daily_summary_row_aggregates sample_float_of_decimal no_date
              0 1 day3 None None 3 sample_state (day3 - 2) day3
              [ SummaryRow day3 1350 0 0 1350 1350 None 0 70 0 70;
                r;
                SummaryRow day1 1000 500 200 1300 1300 None 0 0 0 500 ]
              r eq_refl eq_refl)
    as (Hin & _ & _ & _ & Hcredit).
  - vm_compute. reflexivity.
  - right. left.
  - split; [exact Hin|exact Hcredit].
Defined.

(** ** Parties *)

Lemma not_Exists_elem {A} (P : A → Prop) (l : list A) x :
  ¬ Exists P l → x ∈ l → ¬ P x.
Proof. intros Hno Hx HP. apply Hno, Exists_exists. by exists x. Qed.

Lemma nodup_fmap_inj {A B} (f : A → B) (l : list A) x y :
  NoDup (f <$> l) → x ∈ l → y ∈ l → f x = f y → x = y.
Proof.
  induction l as [|a l IH]; intros Hnd Hx Hy Hf; [inversion Hx|].
  rewrite fmap_cons in Hnd. apply NoDup_cons in Hnd as [Hnin Hnd].
  apply elem_of_cons in Hx as [->|Hx]; apply elem_of_cons in Hy as [->|Hy].
  - done.
  - destruct Hnin. rewrite Hf. by apply list_elem_of_fmap_2.
  - destruct Hnin. rewrite <-Hf. by apply list_elem_of_fmap_2.
  - by apply IH.
Qed.

Lemma rename_row_type pid new_name new_norm (l : list party) :
  filter (λ p, p_type p = "Bank") (rename_row pid new_name new_norm <$> l)
  = rename_row pid new_name new_norm <$> filter (λ p, p_type p = "Bank") l.
Proof.
  induction l as [|p l IH]; [done|]. rewrite fmap_cons, !filter_cons.
  assert (p_type (rename_row pid new_name new_norm p) = p_type p) as ->.
  { unfold rename_row. by case_bool_decide. }
  destruct (decide _); by rewrite ?fmap_cons, IH.
Qed.

Lemma rename_row_ids pid new_name new_norm (l : list party) :
  p_party_id <$> (rename_row pid new_name new_norm <$> l) = p_party_id <$> l.
Proof.
  rewrite <-list_fmap_compose. apply list_fmap_ext. intros _ p _. simpl.
  unfold rename_row. by case_bool_decide.
Qed.

Section PartyFacts.

Variable lower : string → string.
Variable nvarchar_fits : Z → string → bool.

Local Abbreviation create_party := (create_party lower nvarchar_fits).
Local Abbreviation rename_party := (rename_party lower nvarchar_fits).

(** X20.  [create_party] and [rename_party] keep the rule that at most one
    party has type Bank: a request for a second Bank is refused with status
    400 and changes nothing, and neither operation changes the type of an
    existing party. *)
Theorem parties_keep_one_bank st :
  one_bank (st_db st) →
  (∀ new_id name ptype credit,
     one_bank (st_db (create_party new_id name ptype credit st).2)
     ∧ (ptype = "Bank" →
        Exists (λ p, p_type p = "Bank") (parties (st_db st)) →
        create_party new_id name ptype credit st
        = (HTTPException 400 "Only one Bank account is allowed.", st)))
  ∧ (∀ audit_ok old_name new_name admin_user,
       one_bank (st_db (rename_party audit_ok old_name new_name admin_user
                                     st).2)).
Proof.
  unfold one_bank. intros Hone. split.
  - intros new_id name ptype credit. unfold create_party. split.
    + destruct (decide (ptype = "Bank")) as [->|Hb].
      * rewrite (bool_decide_eq_true_2 ("Bank" = "Bank")) by done. cbn [andb].
        case_bool_decide as Hex; [exact Hone|].
        case_bool_decide; [exact Hone|].
        destruct (_ && _ && _); [|exact Hone].
        cbn [snd st_db set_db with_parties parties].
        rewrite filter_app, length_app.
        rewrite (filter_none (λ p, p_type p = "Bank") (parties (st_db st))).
        -- rewrite filter_cons, filter_nil.
           destruct (decide _); simpl; lia.
        -- intros p Hp. by apply (not_Exists_elem _ _ _ Hex).
      * rewrite (bool_decide_eq_false_2 (ptype = "Bank")) by done. cbn [andb].
        case_bool_decide; [exact Hone|].
        destruct (_ && _ && _); [|exact Hone].
        cbn [snd st_db set_db with_parties parties].
        rewrite filter_app, (filter_cons_False _ (Party _ _ _ _ _)) by done.
        by rewrite filter_nil, app_nil_r.
    + intros -> Hex.
      rewrite (bool_decide_eq_true_2 ("Bank" = "Bank")) by done.
      by rewrite (bool_decide_eq_true_2 (Exists _ _)).
  - intros audit_ok old_name new_name admin_user. unfold rename_party.
    destruct (party_id_by_normalized_name _ _) as [pid|]; [|exact Hone].
    case_bool_decide; [exact Hone|].
    destruct (_ && _); [|exact Hone]. cbn [snd].
    rewrite (proj2 (log_audit_transactions _ _ _ _ _ _)).
    cbn [st_db set_db with_parties parties].
    by rewrite rename_row_type, length_fmap.
Qed.

(** X21.  [create_party] keeps the normalized names of the parties distinct:
    a name whose normalized form is taken changes nothing, and is answered
    with the error of the store, unless the request is for a second Bank,
    which is refused first.  [rename_party] keeps the names distinct too,
    and leaves every party id as it was, when the party ids are distinct. *)
Theorem parties_keep_unique_names st :
  unique_names (st_db st) →
  (∀ new_id name ptype credit,
     unique_names (st_db (create_party new_id name ptype credit st).2)
     ∧ (Exists (λ p, p_normalized_name p = replace_spaces (lower name))
               (parties (st_db st)) →
        create_party new_id name ptype credit st
        = (if bool_decide (ptype = "Bank")
              && bool_decide (Exists (λ p, p_type p = "Bank")
                                     (parties (st_db st)))
           then HTTPException 400 "Only one Bank account is allowed."
           else StatusError StoreError, st)))
  ∧ (∀ audit_ok old_name new_name admin_user,
       unique_party_ids (st_db st) →
       let st' := (rename_party audit_ok old_name new_name admin_user st).2 in
       unique_names (st_db st')
       ∧ p_party_id <$> parties (st_db st')
         = p_party_id <$> parties (st_db st)).
Proof.
  unfold unique_names, unique_party_ids. intros Hnames. split.
  - intros new_id name ptype credit. unfold create_party. split.
    + destruct (bool_decide (ptype = "Bank") && _); [done|].
      case_bool_decide as Hex; [done|].
      destruct (_ && _ && _); [|done]. simpl.
      rewrite fmap_app. apply NoDup_app. split_and!; [done| |].
      * intros n Hn Hin. apply list_elem_of_singleton in Hin as ->.
        apply list_elem_of_fmap in Hn as (p & Hpn & Hp).
        by apply (not_Exists_elem _ _ _ Hex Hp).
      * apply NoDup_singleton.
    + intros Htaken. destruct (bool_decide (ptype = "Bank") && _); [done|].
      by rewrite bool_decide_eq_true_2.
  - intros audit_ok old_name new_name admin_user Hids. unfold rename_party.
    destruct (party_id_by_normalized_name _ _) as [pid|]; [|done].
    case_bool_decide as Hex; [done|].
    destruct (_ && _); [|done]. simpl.
    rewrite (proj2 (log_audit_transactions _ _ _ _ _ _)). simpl.
    split; [|apply rename_row_ids].
    rewrite <-list_fmap_compose. apply NoDup_fmap_2_strong.
    + intros x y Hx Hy Heq. simpl in Heq. unfold rename_row in Heq.
      repeat case_bool_decide; simpl in Heq.
      * apply (nodup_fmap_inj p_party_id _ x y Hids Hx Hy). congruence.
      * destruct (not_Exists_elem _ _ _ Hex Hy). by split.
      * destruct (not_Exists_elem _ _ _ Hex Hx). by split.
      * by apply (nodup_fmap_inj p_normalized_name _ x y Hnames).
    + by eapply NoDup_fmap_1.
Qed.

End PartyFacts.

Lemma parties_keep_one_bank_witness :
  let st := (create_party sample_lower sample_fits 3 "State Bank" "Bank" false
                          sample_state).2 in
  one_bank (st_db st)
  ∧ create_party sample_lower sample_fits 4 "Other Bank" "Bank" false st
    = (HTTPException 400 "Only one Bank account is allowed.", st).
Proof.
  intros st.
  assert (one_bank (st_db sample_state)) as Hone
    by (unfold one_bank; simpl; lia).
  split.
  - apply (parties_keep_one_bank sample_lower sample_fits sample_state Hone).
  - assert (one_bank (st_db st)) as Hone'
      by apply (parties_keep_one_bank sample_lower sample_fits sample_state Hone).
    apply (parties_keep_one_bank sample_lower sample_fits st Hone'); [reflexivity|].
    unfold st. simpl. do 2 apply Exists_cons_tl. by apply Exists_cons_hd.
Defined.

Lemma parties_keep_unique_names_witness :
  unique_names
    (st_db (rename_party sample_lower sample_fits true "Walk In" "Counter Sales" "admin"
                         sample_state).2)
  ∧ create_party sample_lower sample_fits 3 "ACME corp" "Customer" true sample_state
    = (StatusError StoreError, sample_state).
Proof.
  assert (unique_names (st_db sample_state)) as Hnames.
  { unfold unique_names. simpl. apply NoDup_cons. split.
    - intros Hin. apply list_elem_of_singleton in Hin. discriminate.
    - apply NoDup_singleton. }
  assert (unique_party_ids (st_db sample_state)) as Hids.
  { unfold unique_party_ids. simpl. apply NoDup_cons. split.
    - intros Hin. apply list_elem_of_singleton in Hin. discriminate.
    - apply NoDup_singleton. }
  split.
  - apply (parties_keep_unique_names sample_lower sample_fits sample_state Hnames);
      exact Hids.
  - apply (parties_keep_unique_names sample_lower sample_fits sample_state Hnames).
    simpl. by apply Exists_cons_hd.
Defined.

Section RenameFacts.

Variable order : list transaction → list transaction.
Variable sql_to_date : string → option Z.
Variable float_of_decimal : Z → float.
Variable lower : string → string.
Variable nvarchar_fits : Z → string → bool.

Local Abbreviation get_ledger :=
  (get_ledger order sql_to_date float_of_decimal).
Local Abbreviation rename_party := (rename_party lower nvarchar_fits).

(** X22.  After a successful [rename_party] the ledger asked for under the
    new normalized name is the ledger that the old normalized name gave
    before, for every range: the transactions stay with the party. *)
Theorem rename_party_ledger audit_ok old_name new_name admin_user st st'
    start end_ :
  rename_party audit_ok old_name new_name admin_user st
  = (Status "Renamed Successfully", st') →
  (get_ledger (replace_spaces (lower new_name)) start end_ st').1
  = (get_ledger (replace_spaces (lower old_name)) start end_ st).1.
Proof.
  unfold rename_party.
  destruct (party_id_by_normalized_name (st_db st) _) as [pid|] eqn:Hold;
    [|done].
  case_bool_decide as Hex; [done|].
  destruct (_ && _); [|done]. intros Heq. injection Heq as <-.
  unfold_get_ledger. rewrite Hold.
  assert (party_id_by_normalized_name
            (st_db (log_audit audit_ok admin_user "Rename Party"
                      ("Renamed " +:+ old_name +:+ " to " +:+ new_name) None
                      (set_db st
                         (with_parties (st_db st)
                            (rename_row pid new_name
                               (replace_spaces (lower new_name))
                               <$> parties (st_db st))))))
            (replace_spaces (lower new_name)) = Some pid) as ->.
  { unfold party_id_by_normalized_name in *.
    rewrite (proj2 (log_audit_transactions _ _ _ _ _ _)). simpl.
    rewrite list_find_fmap.
    apply fmap_Some in Hold as ([i p0] & Hfind & Hpid). simpl in Hpid.
    apply list_find_Some in Hfind as (Hi & _ & _).
    destruct (list_find _ (parties (st_db st))) as [[j p]|] eqn:Hnew.
    - simpl. f_equal. apply list_find_Some in Hnew as (Hj & Hname & _).
      simpl in Hname. unfold rename_row in *.
      case_bool_decide as Hp; [done|]. simpl in Hname.
      destruct (not_Exists_elem _ _ p Hex); [|done].
      by eapply list_elem_of_lookup_2.
    - apply list_find_None in Hnew. rewrite Forall_forall in Hnew.
      destruct (Hnew p0); [by eapply list_elem_of_lookup_2|].
      simpl. unfold rename_row. by rewrite bool_decide_eq_true_2. }
  rewrite (proj1 (log_audit_transactions _ _ _ _ _ _)). simpl.
  destruct (date_clause sql_to_date start); [|done].
  by destruct (date_clause sql_to_date end_).
Qed.

End RenameFacts.

Lemma rename_party_ledger_witness :
  l_id <$> (get_ledger order_stable no_date sample_float_of_decimal
              "acme_ltd" None None
              (rename_party sample_lower sample_fits true "Acme Corp" "Acme Ltd" "admin"
                            sample_state).2).1
  = [3; 4].
Proof.
  etrans.
  - exact (f_equal (fmap l_id)
             (rename_party_ledger order_stable no_date
                sample_float_of_decimal sample_lower sample_fits true "Acme Corp"
                "Acme Ltd" "admin" sample_state _ None None eq_refl)).
  - reflexivity.
Defined.

(** ** The paged listing *)



Lemma newest_first_perm l : newest_first l ≡ₚ l.
Proof.
  unfold newest_first, py_sorted_reverse.
  etrans; [apply reverse_Permutation|]. etrans; [apply py_sorted_perm|].
  etrans; [apply reverse_Permutation|]. etrans; [apply reverse_Permutation|].
  etrans; [apply py_sorted_perm|]. apply reverse_Permutation.
Qed.

Lemma listing_fst today days f t db :
  parties_known db →
  (listing today days f t db).*1
  = newest_first (filter (λ r, transactions_where today days f t r)
                         (transactions db)).
Proof.
  intros Hknown. unfold listing.
  set (k := newest_first _).
  assert (∀ r, r ∈ k → is_Some (party_by_id db (party_id r))) as Hk.
  { intros r Hr. unfold k in Hr. rewrite newest_first_perm in Hr.
    apply list_elem_of_filter in Hr as [_ Hr]. by apply Hknown. }
  clearbody k. induction k as [|r k IH]; [done|].
  destruct (Hk r) as [p Hp]; [left|]. csimpl. rewrite Hp. csimpl.
  f_equal. apply IH. intros r' Hr'. apply Hk. by right.
Qed.

Section ListingFacts.

Variable sql_to_date : string → option Z.


End ListingFacts.


(** ** The transaction-type report *)

Section TypeReportFacts.

Variable order : list transaction → list transaction.
Hypothesis order_contract : orders_by_txn_date order.

(** X24.  The transaction-type report has one row for each transaction of
    the type that has a party, with its date, payment mode and amount, and
    no other row; the rows are in ascending date order. *)
Theorem get_type_report_rows ty st :
  (λ r, (t_date r, t_mode r, t_amount r)) <$> (get_type_report order ty st).1
  ≡ₚ (λ t, (txn_date t, payment_mode t, amount t))
       <$> filter (λ t, is_type ty t
                        && bool_decide (is_Some (party_by_id (st_db st)
                                                             (party_id t))))
                  (transactions (st_db st))
  ∧ StronglySorted (key_le t_date) (get_type_report order ty st).1.
Proof using order_contract.
  destruct order_contract as [Hperm Hsorted].
  assert (∀ f : transaction → Z * string * Z,
            (λ tp : transaction * party, f tp.1)
              <$> joined_by_date order (is_type ty) (st_db st)
            = f <$> order
                      (filter (λ t, is_type ty t
                                    && bool_decide
                                         (is_Some (party_by_id (st_db st)
                                                     (party_id t))))
                              (transactions (st_db st)))) as Hfst.
  { intros f. rewrite <-(joined_by_date_fst order (is_type ty) (st_db st))
      by done.
    by rewrite <-list_fmap_compose. }
  unfold_get_type_report. cbn [fst]. split.
  - rewrite <-list_fmap_compose.
    rewrite (list_fmap_ext _ (λ tp : transaction * party,
                                (txn_date tp.1, payment_mode tp.1,
                                 amount tp.1))
               (joined_by_date order (is_type ty) (st_db st)))
      by (by intros _ [t p] _).
    rewrite (Hfst (λ t, (txn_date t, payment_mode t, amount t))).
    by rewrite Hperm.
  - apply sorted_key_le_fmap. rewrite <-list_fmap_compose.
    rewrite (list_fmap_ext _ (txn_date ∘ fst)
               (joined_by_date order (is_type ty) (st_db st)))
      by (by intros _ [t p] _).
    rewrite list_fmap_compose,
      (joined_by_date_fst order (is_type ty) (st_db st)) by done.
    apply (proj1 (sorted_key_le_fmap txn_date _)), Hsorted.
Qed.

End TypeReportFacts.

Lemma get_type_report_rows_witness :
  t_amount <$> (get_type_report order_reversing "Sale" sample_state).1
  ≡ₚ [50000; 30000; 7000].
Proof.
  destruct (get_type_report_rows order_reversing order_reversing_orders
              "Sale" sample_state) as [Hrows _].
  apply (fmap_Permutation (λ x : Z * string * Z, x.2)) in Hrows.
  rewrite <-!list_fmap_compose in Hrows. exact Hrows.
Defined.

(** ** The per-mode daily summary *)












Section ModeSummaryFacts.

Variable order_groups :
  list (Z * string * string * Z) → list (Z * string * string * Z).
Hypothesis order_groups_perm : ∀ l, order_groups l ≡ₚ l.
Hypothesis order_groups_sorted :
  ∀ l, StronglySorted (λ r1 r2, row_date r2 ≤ row_date r1) (order_groups l).


End ModeSummaryFacts.




(** On the sample: the UPI sale of the third day, the cash receipt of the
    second (its credit sale is not selected), the cash sale and the cash
    expense of the first. *)
Example get_daily_summary_sample :
  (get_daily_summary order_newest_first sample_state).1
  = [ DailyEntry day3 0 0 0 0 7000 0;
      DailyEntry day2 10000 0 0 0 0 0;
      DailyEntry day1 50000 20000 0 0 0 0 ].
Proof. by vm_compute. Qed.

(** ** One transaction by its id *)

Lemma head_omap_None {A B} (f : A → option B) (l : list A) :
  head (omap f l) = None ↔ ∀ x, x ∈ l → f x = None.
Proof.
  induction l as [|x l IH]; csimpl.
  - split; [|done]. intros _ x Hx. inversion Hx.
  - destruct (f x) as [y|] eqn:Hfx; csimpl.
    + split; [done|]. intros Hall. specialize (Hall x ltac:(left)).
      by rewrite Hfx in Hall.
    + rewrite IH. split.
      * intros Hall y [->|Hy]%elem_of_cons; [done|by apply Hall].
      * intros Hall y Hy. apply Hall. by right.
Qed.

Lemma head_omap_elem {A B} (f : A → option B) (l : list A) y :
  head (omap f l) = Some y → ∃ x, x ∈ l ∧ f x = Some y.
Proof.
  intros Hhead. apply head_Some_elem_of, list_elem_of_omap in Hhead.
  exact Hhead.
Qed.

Lemma fmap_nodup_inj {A B} (f : A → B) (l : list A) x y :
  NoDup (f <$> l) → x ∈ l → y ∈ l → f x = f y → x = y.
Proof.
  induction l as [|z l IH]; intros Hnd Hx Hy Hxy; [inversion Hx|].
  rewrite fmap_cons in Hnd. apply NoDup_cons in Hnd as [Hz Hnd].
  apply elem_of_cons in Hx as [->|Hx]; apply elem_of_cons in Hy as [->|Hy].
  - done.
  - destruct Hz. rewrite Hxy. by apply list_elem_of_fmap_2.
  - destruct Hz. rewrite <-Hxy. by apply list_elem_of_fmap_2.
  - by apply IH.
Qed.

Lemma filter_id_unique (l : list transaction) t :
  NoDup (txn_id <$> l) → t ∈ l → filter (λ x, txn_id x = txn_id t) l = [t].
Proof.
  induction l as [|z l IH]; intros Hnd Ht; [inversion Ht|].
  rewrite fmap_cons in Hnd. apply NoDup_cons in Hnd as [Hz Hnd].
  apply elem_of_cons in Ht as [->|Ht].
  - rewrite filter_cons_True by done. f_equal.
    apply filter_none. intros x Hx Hid. apply Hz. rewrite <-Hid.
    by apply list_elem_of_fmap_2.
  - rewrite filter_cons_False; [by apply IH|].
    intros Hid. apply Hz. rewrite Hid. by apply list_elem_of_fmap_2.
Qed.

Lemma filter_insert_out {A} (P : A → Prop) `{!∀ x, Decision (P x)}
    (l : list A) i x y :
  l !! i = Some x → ¬ P x → ¬ P y → filter P (<[i := y]> l) = filter P l.
Proof.
  revert i. induction l as [|z l IH]; intros [|i] Hi Hx Hy; try done.
  - injection Hi as ->. change (<[0%nat := y]> (x :: l)) with (y :: l).
    by rewrite !filter_cons_False.
  - change (<[S i := y]> (z :: l)) with (z :: <[i := y]> l).
    rewrite !filter_cons, (IH i); done.
Qed.

Section SingleFacts.

Variable sql_to_date : string → option Z.
Variable sql_to_decimal : string → option Z.
Variable py_str : Z → string.
Variable nvarchar_fits : Z → string → bool.

Local Abbreviation update_field :=
  (update_field sql_to_date sql_to_decimal nvarchar_fits).
Local Abbreviation edit_transaction :=
  (edit_transaction sql_to_date sql_to_decimal py_str nvarchar_fits).

(** X26.  [get_single_transaction] answers 404 exactly when no transaction
    with the id has a party, and otherwise shows a transaction with that id
    and the name of its party.  After [delete_transaction] of an id, found
    or not, the id answers 404 and every other id answers as before. *)
Theorem get_single_transaction_deleted audit_ok id admin_user st :
  let db := st_db st in
  let after := (delete_transaction py_str audit_ok id admin_user st).2 in
  ((get_single_transaction id st).1
   = inl (HTTPException 404 "Transaction not found")
   ↔ ∀ t, t ∈ transactions db → txn_id t = id →
          party_by_id db (party_id t) = None)
  ∧ (∀ v, (get_single_transaction id st).1 = inr v →
          v_id v = id
          ∧ ∃ t p, t ∈ transactions db
                   ∧ party_by_id db (party_id t) = Some p
                   ∧ v = txn_view_of (t, p))
  ∧ (get_single_transaction id after).1
    = inl (HTTPException 404 "Transaction not found")
  ∧ (∀ id', id' ≠ id →
       (get_single_transaction id' after).1
       = (get_single_transaction id' st).1).
Proof.
  intros db after.
  assert (parties (st_db after) = parties db
          ∧ transactions (st_db after)
            = filter (λ t, txn_id t ≠ id) (transactions db))
    as [Hpar Htxn].
  { subst after. unfold delete_transaction. fold db.
    destruct (list_find _ _) as [[i t]|] eqn:Hfind; cbn [snd].
    - rewrite (proj1 (log_audit_transactions _ _ _ _ _ _)).
      rewrite (proj2 (log_audit_transactions _ _ _ _ _ _)). done.
    - split; [done|]. apply list_find_None in Hfind.
      symmetry. fold db. clear -Hfind.
      induction Hfind as [|t l Ht _ IH]; [done|].
      by rewrite filter_cons_True, IH. }
  split_and!.
  - unfold get_single_transaction. fold db.
    destruct (head _) as [row|] eqn:Hhead; cbn [fst].
    + split; [done|]. intros Hnone.
      apply head_omap_elem in Hhead as (t & Ht & Hrow).
      apply list_elem_of_filter in Ht as [Hid Ht].
      by rewrite (Hnone t Ht Hid) in Hrow.
    + split; [|done]. intros _ t Ht Hid.
      rewrite head_omap_None in Hhead.
      assert (t ∈ filter (λ t, txn_id t = id) (transactions db)) as Hin
        by (by apply list_elem_of_filter).
      specialize (Hhead t Hin). by destruct (party_by_id db (party_id t)).
  - intros v. unfold get_single_transaction. fold db.
    destruct (head _) as [row|] eqn:Hhead; cbn [fst]; [|done].
    intros [= <-]. apply head_omap_elem in Hhead as (t & Ht & Hrow).
    apply list_elem_of_filter in Ht as [Hid Ht].
    destruct (party_by_id db (party_id t)) as [p|] eqn:Hp; [|done].
    injection Hrow as <-. split; [done|]. by exists t, p.
  - unfold get_single_transaction. rewrite Htxn.
    rewrite list_filter_filter.
    rewrite (filter_none _ (transactions db)); [done|].
    intros t _ [Hid Hne]. done.
  - intros id' Hne. unfold get_single_transaction.
    unfold party_by_id. rewrite Htxn, Hpar. fold db.
    rewrite list_filter_filter.
    rewrite (list_filter_iff (λ t, txn_id t = id' ∧ txn_id t ≠ id)
               (λ t, txn_id t = id')); [by destruct (head _)|].
    intros t. split; [tauto|]. intros ->. done.
Qed.

(** X27.  With ids that identify the transactions, for a transaction that
    has a party: [get_single_transaction] shows it; an [edit_transaction]
    of a whitelisted field whose new value the store accepts reports
    success and the id then shows the changed row with the same party name;
    a value that the store rejects is answered with the error of the store
    and changes nothing; every other id answers as before. *)
Theorem edit_transaction_single audit_ok admin_user field new_value st t p :
  NoDup (txn_id <$> transactions (st_db st)) →
  t ∈ transactions (st_db st) →
  party_by_id (st_db st) (party_id t) = Some p →
  field ∈ allowed_fields →
  let out := edit_transaction audit_ok (txn_id t) admin_user field
                              new_value st in
  (get_single_transaction (txn_id t) st).1 = inr (txn_view_of (t, p))
  ∧ match update_field field new_value t with
    | Some t' =>
        out.1 = Status "Updated Successfully"
        ∧ (get_single_transaction (txn_id t) out.2).1
          = inr (txn_view_of (t', p))
    | None => out = (StatusError StoreError, st)
    end
  ∧ (∀ id', id' ≠ txn_id t →
       (get_single_transaction id' out.2).1
       = (get_single_transaction id' st).1).
Proof.
  intros Hnd Ht Hp Hfield out.
  assert (∃ i, transactions (st_db st) !! i = Some t
               ∧ list_find (λ x, txn_id x = txn_id t) (transactions (st_db st))
                 = Some (i, t)) as (i & Hi & Hfind).
  { destruct (list_find (λ x, txn_id x = txn_id t) (transactions (st_db st)))
      as [[i t0]|] eqn:Hfind.
    - apply list_find_Some in Hfind as (Hi & Hid & _).
      assert (t0 = t) as ->.
      { eapply fmap_nodup_inj; [exact Hnd| |exact Ht|exact Hid].
        by eapply list_elem_of_lookup_2. }
      by exists i.
    - apply list_find_None in Hfind. rewrite Forall_forall in Hfind.
      by destruct (Hfind t Ht). }
  assert (∀ st' t', transactions (st_db st') !! i = Some t' →
            txn_id <$> transactions (st_db st')
            = txn_id <$> transactions (st_db st) →
            txn_id t' = txn_id t → party_id t' = party_id t →
            parties (st_db st') = parties (st_db st) →
            (get_single_transaction (txn_id t) st').1
            = inr (txn_view_of (t', p))) as Hshow.
  { intros st' t' Hi' Hids Hid Hpid Hpar. unfold get_single_transaction.
    rewrite <-Hid, filter_id_unique.
    - csimpl. unfold party_by_id in *. by rewrite Hpid, Hpar, Hp.
    - by rewrite Hids.
    - by eapply list_elem_of_lookup_2. }
  split_and!.
  - by apply Hshow.
  - subst out. unfold_edit_transaction.
    rewrite bool_decide_eq_false_2 by (by intros Hn; apply Hn).
    rewrite Hfind.
    destruct (update_field _ _ _) as [t'|] eqn:Hupd; [|done].
    cbn [fst snd]. split; [done|].
    apply update_field_keeps in Hupd as [Hid Hpid].
    apply Hshow; [| |done..|].
    + rewrite (proj1 (log_audit_transactions _ _ _ _ _ _)). cbn.
      apply list_lookup_insert_eq. by eapply lookup_lt_Some.
    + rewrite (proj1 (log_audit_transactions _ _ _ _ _ _)). cbn.
      rewrite list_fmap_insert, Hid. apply list_insert_id.
      by rewrite list_lookup_fmap, Hi.
    + by rewrite (proj2 (log_audit_transactions _ _ _ _ _ _)).
  - intros id' Hne. subst out. unfold_edit_transaction.
    rewrite bool_decide_eq_false_2 by (by intros Hn; apply Hn).
    rewrite Hfind.
    destruct (update_field _ _ _) as [t'|] eqn:Hupd; [|done].
    cbn [snd]. apply update_field_keeps in Hupd as [Hid Hpid].
    unfold get_single_transaction, party_by_id.
    rewrite (proj1 (log_audit_transactions _ _ _ _ _ _)).
    rewrite (proj2 (log_audit_transactions _ _ _ _ _ _)). cbn.
    rewrite (filter_insert_out _ _ _ t) by (done || congruence).
    by destruct (head _).
Qed.

End SingleFacts.

Lemma get_single_transaction_sample :
  (get_single_transaction 3 sample_state).1
  = inr (TxnView 3 day2 "B2" "Acme Corp" "Receipt" "Cash" 10000).
Proof. by vm_compute. Qed.

Lemma edit_transaction_single_witness :
  (get_single_transaction 3
     (edit_transaction sample_to_date sample_to_decimal sample_str
        sample_fits true 3 "admin" "amount" "125.00" sample_state).2).1
  = inr (TxnView 3 day2 "B2" "Acme Corp" "Receipt" "Cash" 12500).
Proof.
  destruct (edit_transaction_single sample_to_date sample_to_decimal
              sample_str sample_fits true "admin" "amount" "125.00"
              sample_state
              (Txn 3 day2 (Some "B2") 1 "Receipt" "Cash" 10000)
              (Party 1 "Acme Corp" "acme_corp" "Credit Customer" true))
    as (_ & Hedit & _).
  - apply (bool_decide_unpack _). by vm_compute.
  - do 2 right. left.
  - reflexivity.
  - do 4 right. left.
  - exact (proj2 Hedit).
Defined.

(** ** The order of the listing *)

Section Stable.
Context {A : Type} (key : A → Z) (R : A → A → Prop).

Lemma insert_by_stable x acc :
  StronglySorted (key_then key R) acc → (∀ a, a ∈ acc → R a x) →
  StronglySorted (key_then key R) (insert_by key x acc).
Proof.
  induction 1 as [|y l Hl IH Hy]; intros HR; cbn [insert_by].
  - repeat constructor.
  - case_bool_decide as Hxy.
    + constructor; [by constructor|].
      constructor; [by left|].
      eapply Forall_impl; [exact Hy|]. unfold key_then. intros; lia.
    + constructor.
      * apply IH. intros a Ha. apply HR. by right.
      * rewrite insert_by_perm. constructor; [|done].
        unfold key_then. specialize (HR y ltac:(left)).
        destruct (decide (key y = key x)); [by right|left; lia].
Qed.

Lemma insert_all_stable acc l :
  StronglySorted (key_then key R) acc → StronglySorted R l →
  (∀ a b, a ∈ acc → b ∈ l → R a b) →
  StronglySorted (key_then key R) (insert_all key acc l).
Proof.
  revert acc. induction l as [|x l IH]; intros acc Hacc Hl HR; [done|].
  cbn [insert_all]. apply StronglySorted_inv in Hl as [Hl Hx].
  rewrite Forall_forall in Hx. apply IH; [|done|].
  - apply insert_by_stable; [done|]. intros a Ha. apply HR; [done|left].
  - intros a b Ha Hb. rewrite insert_by_perm in Ha.
    apply elem_of_cons in Ha as [->|Ha]; [by apply Hx|].
    apply HR; [done|by right].
Qed.

(** [sorted] is stable. *)
Lemma py_sorted_stable l :
  StronglySorted R l → StronglySorted (key_then key R) (py_sorted key l).
Proof.
  intros Hl. apply insert_all_stable; [constructor|done|].
  intros a b Ha. inversion Ha.
Qed.

End Stable.

Lemma sorted_impl {A} (R R' : A → A → Prop) l :
  (∀ a b, R a b → R' a b) → StronglySorted R l → StronglySorted R' l.
Proof.
  intros Himpl. induction 1 as [|x l Hl IH Hx]; constructor; [done|].
  eapply Forall_impl; [exact Hx|]. auto.
Qed.

Lemma sorted_reverse {A} (R : A → A → Prop) l :
  StronglySorted R l → StronglySorted (flip R) (reverse l).
Proof.
  induction 1 as [|x l Hl IH Hx]; [constructor|].
  rewrite reverse_cons.
  apply StronglySorted_app_2; [|exact IH|repeat constructor].
  intros a b Ha ->%list_elem_of_singleton.
  rewrite elem_of_reverse in Ha. rewrite Forall_forall in Hx.
  unfold flip. by apply Hx.
Qed.

Lemma sorted_sublist {A} (R : A → A → Prop) l k :
  k `sublist_of` l → StronglySorted R l → StronglySorted R k.
Proof.
  induction 1 as [|x k l Hsub IH|x k l Hsub IH]; intros Hl.
  - constructor.
  - apply StronglySorted_inv in Hl as [Hl Hx].
    constructor; [by apply IH|].
    rewrite Forall_forall in *. intros y Hy. apply Hx.
    by eapply elem_of_sublist.
  - apply StronglySorted_inv in Hl as [Hl _]. by apply IH.
Qed.

Lemma sorted_omap {A B} (R : A → A → Prop) (R' : B → B → Prop)
    (f : A → option B) l :
  (∀ a b a' b', f a = Some a' → f b = Some b' → R a b → R' a' b') →
  StronglySorted R l → StronglySorted R' (omap f l).
Proof.
  intros Hf. induction 1 as [|x l Hl IH Hx]; [constructor|].
  csimpl. destruct (f x) as [x'|] eqn:Hfx; [|done].
  csimpl. constructor; [done|].
  apply Forall_forall. intros y' (y & Hy & Hfy)%list_elem_of_omap.
  rewrite Forall_forall in Hx. eapply Hf; eauto.
Qed.

(** [sorted(..., reverse=True)] is stable as well. *)
Lemma py_sorted_reverse_stable {A} (key : A → Z) (R : A → A → Prop) l :
  StronglySorted R l →
  StronglySorted (λ a b, key b < key a ∨ (key a = key b ∧ R a b))
                 (py_sorted_reverse key l).
Proof.
  intros Hl. unfold py_sorted_reverse.
  eapply sorted_impl;
    [|apply sorted_reverse, (py_sorted_stable key (flip R)), sorted_reverse,
        Hl].
  unfold flip, key_then. intros a b [?|[? ?]]; [by left|right]. by split.
Qed.

Lemma newest_first_sorted l :
  StronglySorted
    (λ a b, txn_date b < txn_date a
            ∨ (txn_date a = txn_date b ∧ txn_id b ≤ txn_id a))
    (newest_first l).
Proof.
  unfold newest_first.
  eapply sorted_impl;
    [|apply (py_sorted_reverse_stable txn_date),
        (py_sorted_reverse_stable txn_id (λ _ _, True))].
  - cbn. intros a b [?|[? ?]]; [by left|right]. split; [done|lia].
  - induction l; constructor; [done|]. by apply Forall_forall.
Qed.

Lemma joined_newest_first_sorted db l :
  StronglySorted newest_first_order
    (txn_view_of <$> omap (λ t, pair t <$> party_by_id db (party_id t))
                          (newest_first l)).
Proof.
  apply (StronglySorted_fmap _
           (λ a b : transaction * party,
              txn_date b.1 < txn_date a.1
              ∨ (txn_date a.1 = txn_date b.1 ∧ txn_id b.1 ≤ txn_id a.1))).
  { intros a b Hab. exact Hab. }
  eapply sorted_omap; [|apply newest_first_sorted].
  intros a b a' b' Ha Hb Hab.
  destruct (party_by_id db (party_id a)); [|done].
  destruct (party_by_id db (party_id b)); [|done].
  injection Ha as <-. injection Hb as <-. exact Hab.
Qed.

Lemma length_omap_le {A B} (f : A → option B) (l : list A) :
  (length (omap f l) ≤ length l)%nat.
Proof.
  induction l as [|x l IH]; [done|]. csimpl.
  destruct (f x); simpl; lia.
Qed.

Section ListingOrder.

Variable sql_to_date : string → option Z.

(** X28.  Every page of the listing is in descending date order, and within
    a date in descending id order. *)
Theorem get_transactions_order today page limit days from_date to_date st :
  StronglySorted newest_first_order
    (page_rows (get_transactions sql_to_date today page limit days
                                 from_date to_date st)).
Proof.
  unfold page_rows. unfold_get_transactions.
  destruct (date_clause sql_to_date from_date) as [f|]; [|constructor].
  destruct (date_clause sql_to_date to_date) as [t|]; [|constructor].
  destruct (_ || _); cbn; [constructor|].
  unfold listing.
  eapply sorted_sublist; [|apply joined_newest_first_sorted].
  apply fmap_sublist. etrans; [apply sublist_take|apply sublist_drop].
Qed.

(** X29.  For a date string that is not empty and that the store converts,
    [get_transactions_by_date] returns the rows of that date, in descending
    id order; they are the first page of the listing bounded by the date on
    both sides, for any limit that is at least 1 and at least the number of
    the date's transactions.  When every transaction has its party, each
    transaction of the date is shown once. *)
Theorem get_transactions_by_date_rows today limit days date_ d st :
  date_ ≠ "" →
  sql_to_date date_ = Some d →
  1 ≤ limit →
  Z.of_nat (length (filter (λ t, txn_date t = d) (transactions (st_db st))))
  ≤ limit →
  ∃ rows,
    get_transactions_by_date sql_to_date date_ st = (Returns rows, st)
    ∧ page_rows (get_transactions sql_to_date today 1 limit days
                                  (Some date_) (Some date_) st) = rows
    ∧ Forall (λ r, v_date r = d) rows
    ∧ StronglySorted (λ r1 r2, v_id r2 ≤ v_id r1) rows
    ∧ (parties_known (st_db st) →
       v_id <$> rows
       ≡ₚ txn_id <$> filter (λ t, txn_date t = d) (transactions (st_db st))).
Proof.
  intros Hne Hd Hlimit Hcount.
  set (db := st_db st) in *.
  set (sel := filter (λ t, txn_date t = d) (transactions db)) in *.
  set (joined := omap (λ t, pair t <$> party_by_id db (party_id t))
                      (newest_first sel)).
  assert (filter (λ r, transactions_where today days (Some d) (Some d) r)
                 (transactions db) = sel) as Hsel.
  { apply list_filter_iff. intros t. cbn.
    rewrite andb_True, !bool_decide_spec. lia. }
  assert (Forall (λ r, v_date r = d) (txn_view_of <$> joined)) as Hdate.
  { apply Forall_forall. intros r (tp & -> & Htp)%list_elem_of_fmap.
    apply list_elem_of_omap in Htp as (t & Ht & Htp).
    destruct (party_by_id db (party_id t)); [|done]. injection Htp as <-.
    rewrite newest_first_perm in Ht.
    by apply list_elem_of_filter in Ht as [? _]. }
  exists (txn_view_of <$> joined). split_and!.
  - unfold get_transactions_by_date. by rewrite Hd.
  - unfold page_rows. unfold_get_transactions. unfold date_clause.
    rewrite (bool_decide_eq_false_2 (date_ = "")) by done.
    rewrite Hd. cbn [fmap option_fmap option_map].
    rewrite (bool_decide_eq_false_2 (_ < 0)) by lia.
    rewrite (bool_decide_eq_false_2 (limit < 1)) by lia.
    cbn [orb fst pg_transactions]. fold db. unfold listing.
    rewrite Hsel. fold joined. f_equal.
    change (Z.to_nat ((1 - 1) * limit)) with 0%nat. rewrite drop_0.
    apply take_ge.
    pose proof (length_omap_le
                  (λ t, pair t <$> party_by_id db (party_id t))
                  (newest_first sel)) as Hle.
    fold joined in Hle. rewrite newest_first_perm in Hle. lia.
  - exact Hdate.
  - pose proof (joined_newest_first_sorted db sel) as Hs. fold joined in Hs.
    revert Hs Hdate. generalize (txn_view_of <$> joined). clear.
    induction 1 as [|r rows Hs IH Hr]; intros Hdate; [constructor|].
    apply Forall_cons in Hdate as [Hrd Hdate].
    constructor; [by apply IH|].
    rewrite Forall_forall in *. intros r' Hr'.
    specialize (Hr r' Hr'). specialize (Hdate r' Hr').
    unfold newest_first_order in Hr. lia.
  - intros Hknown. rewrite <-list_fmap_compose.
    rewrite (list_fmap_ext (v_id ∘ txn_view_of) (txn_id ∘ fst) joined)
      by done.
    rewrite (list_fmap_compose fst txn_id).
    pose proof (listing_fst today days (Some d) (Some d) db Hknown) as Hfst.
    unfold listing in Hfst. rewrite Hsel in Hfst. fold joined in Hfst.
    by rewrite Hfst, newest_first_perm.
Qed.

End ListingOrder.

Lemma get_transactions_by_date_rows_witness :
  Returns (page_rows (get_transactions sample_to_date day3 1 5 30
                        (Some "2024-04-24") (Some "2024-04-24") sample_state))
  = (get_transactions_by_date sample_to_date "2024-04-24" sample_state).1.
Proof.
  destruct (get_transactions_by_date_rows sample_to_date day3 5 30
              "2024-04-24" day1 sample_state)
    as (rows & Hrows & Hpage & _); [done|reflexivity|lia|by vm_compute|].
  by rewrite Hrows, Hpage.
Defined.

(** On the sample the first day shows its expense, entered second, before
    its sale. *)
Example get_transactions_by_date_sample :
  (get_transactions_by_date sample_to_date "2024-04-24" sample_state).1
  = Returns [ TxnView 2 day1 "" "Walk In" "Expense" "Cash" 20000;
              TxnView 1 day1 "B1" "Walk In" "Sale" "Cash" 50000 ].
Proof. by vm_compute. Qed.

(** ** The bank line of the trial balance *)


